(** * resumedb frontend: session-to-backend identity synchronisation

    A shallow embedding of the authentication glue of the resumedb frontend:

    - [SyncUser.GET]   : [src/app/api/sync-user/route.ts]
    - [AuthToken.GET]  : the [/api/auth-token] route handler
    - [Middleware.middleware] : the request middleware
    - [Dashboard.DashboardPage] : [src/app/dashboard/page.tsx]
    - [UserSync]       : [src/components/UserSync.tsx]
    - [Home.Home]      : the landing route
    - [ResumeUploader] : the staging logic of the resume uploader

    JavaScript values are modelled by the inductive type [value]; the
    handlers run in a small state-and-exception monad [M] whose state records
    the network calls issued so far and the number of clock readings taken.
    The outside world (identity session, resource server, wall clock,
    process environment) is a record of oracles, [Env]. *)

From Stdlib Require Import ZArith Ascii String List Bool Lia.
From Stdlib Require Import DecimalString DecimalZ.
From stdpp Require Import base gmap strings pretty.

#[local] Open Scope Z_scope.
#[local] Set Warnings "-register-all".

(* ===================================================================== *)
(** * JavaScript values *)
(* ===================================================================== *)

(** Strings are byte strings, read as the UTF-8 encoding of the JavaScript
    string.  Numbers are the integers (statuses, lengths and timestamps are
    the only numbers the handlers compute with). *)
Inductive value : Type :=
| VUndefined
| VNull
| VBool (b : bool)
| VNumber (n : Z)
| VString (s : string)
| VArray (items : list value)
| VObject (fields : list (string * value)).

(** An object literal: properties in insertion order. *)
Abbreviation obj := (list (string * value)).

Definition string_is_empty (s : string) : bool :=
  match s with EmptyString => true | String _ _ => false end.

(** [!!v] of JavaScript. *)
Definition truthy (v : value) : bool :=
  match v with
  | VUndefined | VNull => false
  | VBool b => b
  | VNumber n => negb (n =? 0)
  | VString s => negb (string_is_empty s)
  | VArray _ | VObject _ => true
  end.

(** [a || b] of JavaScript: the left operand when it is truthy, the right
    operand (whatever it is) otherwise. *)
Definition js_or (a b : value) : value := if truthy a then a else b.

(** An optional string-typed field ([undefined] when absent). *)
Definition of_opt (o : option string) : value :=
  match o with Some s => VString s | None => VUndefined end.

(** Property lookup in an object literal; a missing property is
    [undefined]. *)
Fixpoint lookup_field (k : string) (fs : obj) : value :=
  match fs with
  | [] => VUndefined
  | (k', v) :: fs' => if String.eqb k k' then v else lookup_field k fs'
  end.

Definition has_field (k : string) (fs : obj) : bool :=
  existsb (fun kv => String.eqb k (fst kv)) fs.

(** Thrown values.  Every value the handlers catch is an error object of
    which they read [name], [code] and [message]. *)
Record JsError : Type := mkError {
  err_name : option string;
  err_code : option string;
  err_message : option string
}.

Definition TypeError (msg : string) : JsError :=
  {| err_name := Some "TypeError"; err_code := None; err_message := Some msg |}.

(* ===================================================================== *)
(** * The handler monad: network trace, clock readings, exceptions *)
(* ===================================================================== *)

(** A [fetch] request as the handlers issue it. *)
Record Request : Type := mkRequest {
  req_url : string;
  req_method : string;
  req_headers : list (string * string);
  req_cache : string
}.

Inductive outcome (A : Type) : Type :=
| Ret (a : A)
| Throw (e : JsError).
Arguments Ret {A} a.
Arguments Throw {A} e.

(** What [fetch] resolves to: a status line and a body which [.json()]
    either parses or rejects. *)
Record FetchResponse : Type := mkFetchResponse {
  status : Z;
  json_body : outcome value
}.

(** [response.ok]. *)
Definition ok (r : FetchResponse) : bool :=
  (200 <=? status r) && (status r <=? 299).

Record World : Type := mkWorld {
  net : list Request;      (* calls issued so far, oldest first *)
  clock_reads : nat        (* number of [Date.now()] readings taken *)
}.

Definition world0 : World := {| net := []; clock_reads := 0 |}.

Definition M (A : Type) : Type := World -> outcome A * World.

Definition ret {A} (a : A) : M A := fun w => (Ret a, w).
Definition throw {A} (e : JsError) : M A := fun w => (Throw e, w).
Definition bind {A B} (m : M A) (k : A -> M B) : M B :=
  fun w => match m w with
           | (Ret a, w') => k a w'
           | (Throw e, w') => (Throw e, w')
           end.
(** [try { m } catch (error) { h error }]. *)
Definition try_catch {A} (m : M A) (h : JsError -> M A) : M A :=
  fun w => match m w with
           | (Ret a, w') => (Ret a, w')
           | (Throw e, w') => h e w'
           end.
Definition lift {A} (o : outcome A) : M A := fun w => (o, w).

Declare Scope js_scope.
Delimit Scope js_scope with js.
Notation "x <- m ;; k" := (bind m (fun x => k))
  (at level 100, m at next level, right associativity) : js_scope.
#[local] Open Scope js_scope.

(** The identity session as the handlers probe it ([session as any]):
    the credential fields are strings when they are present at all, and
    [user] is the raw object of profile claims. *)
Record TokenObject : Type := mkTokenObject {
  token_access_token : option string     (* session.token.access_token *)
}.

Record Session : Type := mkSession {
  accessToken : option string;
  access_token : option string;
  token : option TokenObject;
  idToken : option string;
  id_token : option string;
  user : option obj;
  (** [Object.keys(session)]: the names of all the properties of the
      session object, those the handlers do not probe included *)
  session_keys : list string
}.

(** The outside world. *)
Record Env : Type := mkEnv {
  (** what [await auth0.getSession()] gives: a session, [null], or an
      exception *)
  getSession : outcome (option Session);
  (** [process.env] *)
  process_env : gmap string string;
  (** the network: what [fetch] settles to for a request, given the calls
      issued before it *)
  network : list Request -> Request -> outcome FetchResponse;
  (** the wall clock: the reading, in milliseconds, of the k-th call of
      [Date.now()] *)
  Date_now : nat -> Z
}.

Section Effects.
Context (E : Env).

Definition fetch (r : Request) : M FetchResponse :=
  fun w => (network E (net w) r,
            {| net := net w ++ [r]; clock_reads := clock_reads w |}).

Definition Date_now_call : M Z :=
  fun w => (Ret (Date_now E (clock_reads w)),
            {| net := net w; clock_reads := S (clock_reads w) |}).

(** [process.env.X] *)
Definition getenv (k : string) : value := of_opt (process_env E !! k).

End Effects.

(** [await response.json()] *)
Definition response_json (r : FetchResponse) : M value := lift (json_body r).

(** [v.k] for a value that may be [null]: reading a property of [null] or
    [undefined] throws; primitives and arrays have none of the properties
    the handlers read. *)
Definition get_prop (v : value) (k : string) : M value :=
  match v with
  | VUndefined =>
      throw (TypeError ("Cannot read properties of undefined (reading '" +:+ k +:+ "')"))
  | VNull =>
      throw (TypeError ("Cannot read properties of null (reading '" +:+ k +:+ "')"))
  | VObject fs => ret (lookup_field k fs)
  | _ => ret VUndefined
  end.


(* ===================================================================== *)
(** * Text: template literals, [JSON.stringify], base64url, [split] *)
(* ===================================================================== *)

(** Decimal notation of an integer, as [String(n)] prints it. *)
Definition decimal (n : Z) : string := NilZero.string_of_int (Z.to_int n).

(** [`${v}`]: the string conversion of a template literal. *)
Fixpoint to_str (v : value) : string :=
  match v with
  | VUndefined => "undefined"
  | VNull => "null"
  | VBool true => "true"
  | VBool false => "false"
  | VNumber n => decimal n
  | VString s => s
  | VArray items =>
      (fix join (l : list value) : string :=
         match l with
         | [] => ""
         | [x] => match x with VUndefined | VNull => "" | _ => to_str x end
         | x :: l' =>
             match x with VUndefined | VNull => "" | _ => to_str x end
               +:+ "," +:+ join l'
         end) items
  | VObject _ => "[object Object]"
  end.

Definition hex_digit (n : N) : ascii :=
  match String.get (N.to_nat n) "0123456789abcdef" with
  | Some c => c
  | None => "0"%char
  end.

(** The double-quote and backslash characters. *)
Definition dquote : ascii := "034"%char.
Definition backslash : ascii := "092"%char.

(** The escape of one byte inside a JSON string literal. *)
Definition json_escape_char (c : ascii) : string :=
  let n := N_of_ascii c in
  if (n =? 34)%N then String backslash (String dquote "")
  else if (n =? 92)%N then String backslash (String backslash "")
  else if (n =? 8)%N then "\b"
  else if (n =? 12)%N then "\f"
  else if (n =? 10)%N then "\n"
  else if (n =? 13)%N then "\r"
  else if (n =? 9)%N then "\t"
  else if (n <? 32)%N then
    "\u00" +:+ String (hex_digit (n / 16)) (String (hex_digit (n mod 16)) "")
  else String c "".

Fixpoint json_escape (s : string) : string :=
  match s with
  | EmptyString => ""
  | String c s' => json_escape_char c +:+ json_escape s'
  end.

Definition json_quote (s : string) : string :=
  String dquote (json_escape s +:+ String dquote "").

(** A response: its status and the object that is its JSON body. *)
Record HttpResponse : Type := mkHttpResponse {
  resp_status : Z;
  resp_body : obj
}.

(** The record of a response that has been built, with the body [body] and
    the status [st].  The handlers do not build it directly: they call
    [NextResponse.json] below, which checks the status first. *)
Definition HttpResponse_of (body : obj) (st : Z) : HttpResponse :=
  {| resp_status := st; resp_body := body |}.

(** [NextResponse] of next/server, as far as the handlers use it.  Its
    [json] builds on the Response constructor of the platform, which
    refuses a status outside 200..599 (RangeError) and, for a response
    with a body, a null-body status (TypeError). *)
Module NextResponse.

(** The statuses of a response that may not have a body. *)
Definition null_body_status (st : Z) : bool :=
  (st =? 101) || (st =? 103) || (st =? 204) || (st =? 205) || (st =? 304).

(** The statuses a response with a JSON body can be built with. *)
Definition accepts (st : Z) : bool :=
  (200 <=? st) && (st <=? 599) && negb (null_body_status st).

Definition RangeError : JsError :=
  {| err_name := Some "RangeError"; err_code := None;
     err_message :=
       Some ("init[" +:+ String dquote ("status" +:+ String dquote
               "] must be in the range of 200 to 599, inclusive.")) |}.

Definition invalid_status (st : Z) : JsError :=
  TypeError ("Response constructor: Invalid response status code "
             +:+ decimal st).

(** What the constructor throws for a status it does not accept: a
    RangeError outside 200..599, a TypeError for a null-body status. *)
Definition rejection (st : Z) : JsError :=
  if (200 <=? st) && (st <=? 599) then invalid_status st else RangeError.

(** [NextResponse.json(body, { status })].  The body is an object, so the
    response has a body: it is built when the status is accepted, and the
    constructor throws otherwise. *)
Definition json (body : obj) (st : Z) : M HttpResponse :=
  if accepts st then ret (HttpResponse_of body st)
  else throw (rejection st).

End NextResponse.

#[global] Arguments NextResponse.accepts : simpl never.

(** [JSON.stringify(v)].  Inside an array [undefined] prints as [null];
    a property whose value is [undefined] is left out of its object.
    (The handlers call it on object literals only.) *)
Fixpoint JSON_stringify (v : value) : string :=
  match v with
  | VUndefined | VNull => "null"
  | VBool true => "true"
  | VBool false => "false"
  | VNumber n => decimal n
  | VString s => json_quote s
  | VArray items =>
      "[" +:+
      (fix elements (l : list value) : string :=
         match l with
         | [] => ""
         | [x] => JSON_stringify x
         | x :: l' => JSON_stringify x +:+ "," +:+ elements l'
         end) items
      +:+ "]"
  | VObject fields =>
      "{" +:+
      (fix members (first : bool) (l : list (string * value)) : string :=
         match l with
         | [] => ""
         | (k, x) :: l' =>
             match x with
             | VUndefined => members first l'
             | _ => (if first then "" else ",") +:+ json_quote k +:+ ":"
                      +:+ JSON_stringify x +:+ members false l'
             end
         end) true fields
      +:+ "}"
  end.

(** The base64url alphabet (RFC 4648, section 5). *)
Definition b64_alphabet : string :=
  "ABCDEFGHIJKLMNOPQRSTUVWXYZabcdefghijklmnopqrstuvwxyz0123456789-_".

Definition b64_char (n : N) : ascii :=
  match String.get (N.to_nat n) b64_alphabet with
  | Some c => c
  | None => "A"%char
  end.

(** [Buffer.from(s).toString('base64url')]: three bytes give four
    characters; a final group of one or two bytes gives two or three
    characters, without padding. *)
Fixpoint base64url (s : string) : string :=
  match s with
  | EmptyString => ""
  | String a EmptyString =>
      let x := N_of_ascii a in
      String (b64_char (x / 4)) (String (b64_char ((x mod 4) * 16)) "")
  | String a (String b EmptyString) =>
      let x := N_of_ascii a in
      let y := N_of_ascii b in
      String (b64_char (x / 4))
        (String (b64_char ((x mod 4) * 16 + y / 16))
           (String (b64_char ((y mod 16) * 4)) ""))
  | String a (String b (String c rest)) =>
      let x := N_of_ascii a in
      let y := N_of_ascii b in
      let z := N_of_ascii c in
      String (b64_char (x / 4))
        (String (b64_char ((x mod 4) * 16 + y / 16))
           (String (b64_char ((y mod 16) * 4 + z / 64))
              (String (b64_char (z mod 64)) (base64url rest))))
  end%N.

(** Decoding, as the resource server does it: the value of a character of
    the alphabet, and the bytes of a string of such characters. *)
Definition b64_index (c : ascii) : option N :=
  let n := N_of_ascii c in
  if ((65 <=? n) && (n <=? 90))%N then Some (n - 65)%N
  else if ((97 <=? n) && (n <=? 122))%N then Some (n - 71)%N
  else if ((48 <=? n) && (n <=? 57))%N then Some (n + 4)%N
  else if (n =? 45)%N then Some 62%N
  else if (n =? 95)%N then Some 63%N
  else None.

Fixpoint base64url_decode (s : string) : option string :=
  match s with
  | EmptyString => Some ""
  | String a (String b EmptyString) =>
      match b64_index a, b64_index b with
      | Some x, Some y => Some (String (ascii_of_N (x * 4 + y / 16)) "")
      | _, _ => None
      end
  | String a (String b (String c EmptyString)) =>
      match b64_index a, b64_index b, b64_index c with
      | Some x, Some y, Some z =>
          Some (String (ascii_of_N (x * 4 + y / 16))
                  (String (ascii_of_N ((y mod 16) * 16 + z / 4)) ""))
      | _, _, _ => None
      end
  | String a (String b (String c (String d rest))) =>
      match b64_index a, b64_index b, b64_index c, b64_index d,
            base64url_decode rest with
      | Some x, Some y, Some z, Some t, Some bytes =>
          Some (String (ascii_of_N (x * 4 + y / 16))
                  (String (ascii_of_N ((y mod 16) * 16 + z / 4))
                     (String (ascii_of_N ((z mod 4) * 64 + t)) bytes)))
      | _, _, _, _, _ => None
      end
  | String _ EmptyString => None
  end%N.

(** A string none of whose characters is [c]. *)
Fixpoint free_of (c : ascii) (s : string) : bool :=
  match s with
  | EmptyString => true
  | String d s' => negb (Ascii.eqb d c) && free_of c s'
  end.

(** [s.replace(/c/g, '')]: every occurrence of the character removed. *)
Fixpoint remove_char (c : ascii) (s : string) : string :=
  match s with
  | EmptyString => ""
  | String d s' =>
      if Ascii.eqb d c then remove_char c s' else String d (remove_char c s')
  end.

(** [s.split(c)] for a one-character separator. *)
Fixpoint split_on (c : ascii) (s : string) : list string :=
  match s with
  | EmptyString => [""]
  | String d s' =>
      if Ascii.eqb d c then "" :: split_on c s'
      else match split_on c s' with
           | [] => [String d ""]
           | seg :: segs => String d seg :: segs
           end
  end.

(** [l.join(sep)] for an array of strings. *)
Fixpoint join (sep : string) (l : list string) : string :=
  match l with
  | [] => ""
  | [x] => x
  | x :: l' => x +:+ sep +:+ join sep l'
  end.

(** The JSON text of one member of an object, and of the members that
    [JSON.stringify] prints: those whose value is not [undefined]. *)
Definition json_member (kv : string * value) : string :=
  json_quote (fst kv) +:+ ":" +:+ JSON_stringify (snd kv).

Definition is_undefined (v : value) : bool :=
  match v with VUndefined => true | _ => false end.

Definition printed_members (fields : list (string * value)) : list string :=
  map json_member (List.filter (fun kv => negb (is_undefined (snd kv))) fields).

(** [s.includes(t)] *)
Fixpoint includes (s t : string) : bool :=
  String.prefix t s ||
  match s with
  | EmptyString => false
  | String _ s' => includes s' t
  end.

Example base64url_Man : base64url "Man" = "TWFu".
Proof. reflexivity. Qed.
Example base64url_Ma : base64url "Ma" = "TWE".
Proof. reflexivity. Qed.
Example base64url_M : base64url "M" = "TQ".
Proof. reflexivity. Qed.
Example split_on_dots : split_on "."%char "a.b." = ["a"; "b"; ""].
Proof. reflexivity. Qed.

(* ===================================================================== *)
(** * [GET /api/sync-user]  (src/app/api/sync-user/route.ts) *)
(* ===================================================================== *)

Module SyncUser.
Section Handler.
Context (E : Env).

(** [process.env.NEXT_PUBLIC_BACKEND_URL || process.env.BACKEND_URL ||
    "http://localhost:8000"] *)
Definition backendUrl : value :=
  js_or (js_or (getenv E "NEXT_PUBLIC_BACKEND_URL") (getenv E "BACKEND_URL"))
        (VString "http://localhost:8000").

(** [`${backendUrl}/api/v1/auth/me`] *)
Definition apiUrl : string := to_str backendUrl +:+ "/api/v1/auth/me".

(** The request every tier issues: [GET apiUrl] with
    [Authorization: `Bearer ${credential}`], uncached. *)
Definition auth_me (credential : value) : Request :=
  {| req_url := apiUrl;
     req_method := "GET";
     req_headers := [("Authorization", "Bearer " +:+ to_str credential);
                     ("Content-Type", "application/json")];
     req_cache := "no-store" |}.

(** The argument [userData.email || userData.id] of the success log line:
    evaluating it throws when [userData] is [null]. *)
Definition log_user (userData : value) : M value :=
  email <- get_prop userData "email" ;;
  if truthy email then ret email else get_prop userData "id".

(** [await response.json().catch(() => ({ detail: "Unknown error" }))] *)
Definition errorData_of (response : FetchResponse) : M value :=
  try_catch (response_json response)
            (fun _ => ret (VObject [("detail", VString "Unknown error")])).

(** [errorData.detail || `HTTP ${response.status}`] *)
Definition error_of (errorData : value) (response : FetchResponse) : M value :=
  detail <- get_prop errorData "detail" ;;
  ret (js_or detail (VString ("HTTP " +:+ to_str (VNumber (status response))))).

(** The hint of the two fallback tiers:
    ["Make sure the backend is running on " +
     (process.env.NEXT_PUBLIC_BACKEND_URL || "http://localhost:8000")] *)
Definition fallback_hint : string :=
  "Make sure the backend is running on " +:+
  to_str (js_or (getenv E "NEXT_PUBLIC_BACKEND_URL")
                (VString "http://localhost:8000")).

(** Lines 54-99: the identity-token tier. *)
Definition id_token_tier (idToken : value) : M HttpResponse :=
  try_catch
    (response <- fetch E (auth_me idToken) ;;
     if ok response then
       userData <- response_json response ;;
       _ <- log_user userData ;;
       (NextResponse.json
              [("synced", VBool true);
               ("user", userData);
               ("method", VString "id_token")] 200)
     else
       errorData <- errorData_of response ;;
       error <- error_of errorData response ;;
       (NextResponse.json
              [("synced", VBool false);
               ("error", error);
               ("backendUrl", VString apiUrl);
               ("method", VString "id_token_failed")] (status response)))
    (fun error =>
       (NextResponse.json
              [("synced", VBool false);
               ("error", VString "Failed to connect to backend");
               ("detail", of_opt (err_message error));
               ("hint", VString fallback_hint)] 500)).

(** Line 111: the header segment. *)
Definition header : string :=
  remove_char "="%char
    (base64url (JSON_stringify
       (VObject [("alg", VString "none"); ("typ", VString "JWT")]))).

(** Lines 112-119: the claims of the synthesized token.  The clock is read
    once for [iat] and once more for [exp]. *)
Definition claims (u : obj) (userSub : value) : M value :=
  now_iat <- Date_now_call E ;;
  now_exp <- Date_now_call E ;;
  ret (VObject
         [("sub", userSub);
          ("email", js_or (lookup_field "email" u) (VString ""));
          ("name", js_or (js_or (lookup_field "name" u)
                                (lookup_field "nickname" u)) VNull);
          ("picture", js_or (lookup_field "picture" u) VNull);
          ("iat", VNumber (now_iat / 1000));
          ("exp", VNumber (now_exp / 1000 + 3600))]).

(** Lines 112-123: [`${header}.${payload}.`] *)
Definition minimalToken_of (c : value) : string :=
  let payload := remove_char "="%char (base64url (JSON_stringify c)) in
  header +:+ "." +:+ payload +:+ ".".

(** Lines 105-185: the session-data tier, entered when [session.user.sub]
    is truthy. *)
Definition session_data_tier (u : obj) (userSub : value) : M HttpResponse :=
  c <- claims u userSub ;;
  let minimalToken := minimalToken_of c in
  try_catch
    (response <- fetch E (auth_me (VString minimalToken)) ;;
     if ok response then
       userData <- response_json response ;;
       _ <- log_user userData ;;
       (NextResponse.json
              [("synced", VBool true);
               ("user", userData);
               ("method", VString "session_data")] 200)
     else
       errorData <- errorData_of response ;;
       error <- error_of errorData response ;;
       (NextResponse.json
              [("synced", VBool false);
               ("error", error);
               ("backendUrl", VString apiUrl);
               ("method", VString "session_data_failed");
               ("hint", VString "User will be automatically synced on first backend API call (e.g., uploading a resume). Check backend logs for JWT decode error details.");
               ("debug", VObject
                  [("tokenLength", VNumber (Z.of_nat (String.length minimalToken)));
                   ("tokenParts",
                    VNumber (Z.of_nat (length (split_on "."%char minimalToken))));
                   ("firstChars", VString (String.substring 0 50 minimalToken))])]
              (status response)))
    (fun error =>
       (NextResponse.json
              [("synced", VBool false);
               ("error", VString "Failed to connect to backend");
               ("detail", of_opt (err_message error));
               ("hint", VString fallback_hint)] 500)).

(** Lines 188-193: no credential of any tier. *)
Definition no_token_body (u : obj) : obj :=
  [("synced", VBool false);
   ("message", VString "Tokens not available in session (known SDK v4 issue). User will be synced on first backend API call.");
   ("hint", VString "The user will be automatically created when they make their first API call to the backend (e.g., uploading a resume).");
   ("user", VObject u)].

Definition no_token_response (u : obj) : HttpResponse :=
  HttpResponse_of (no_token_body u) 200.

(** Lines 196-231: the access-token tier.  It has no handler of its own:
    what it throws reaches the handler of [GET]. *)
Definition access_token_tier (accessToken : value) : M HttpResponse :=
  response <- fetch E (auth_me accessToken) ;;
  if negb (ok response) then
    errorData <- errorData_of response ;;
    error <- error_of errorData response ;;
    (NextResponse.json
           [("synced", VBool false);
            ("error", error);
            ("backendUrl", VString apiUrl)] (status response))
  else
    userData <- response_json response ;;
    _ <- log_user userData ;;
    (NextResponse.json
           [("synced", VBool true);
            ("user", userData)] 200).

Definition not_authenticated : HttpResponse :=
  HttpResponse_of [("error", VString "Not authenticated")] 401.

(** Lines 32-34 *)
Definition accessToken_of (session : Session) : value :=
  js_or (js_or (of_opt (accessToken session)) (of_opt (access_token session)))
        (match token session with
         | Some t => of_opt (token_access_token t)
         | None => VUndefined
         end).

(** Line 52 *)
Definition idToken_of (session : Session) : value :=
  js_or (of_opt (idToken session)) (of_opt (id_token session)).

(** The route handler.  (Console output is not modelled, except where
    evaluating its arguments can throw.  Every path through the fallback
    block of lines 45-186 that enters a tier returns from it, so the final
    [return] of line 188 is reached exactly when no tier is entered.) *)
Definition GET : M HttpResponse :=
  try_catch
    (session <- lift (getSession E) ;;
     match session with
     | None => NextResponse.json [("error", VString "Not authenticated")] 401
     | Some session =>
         match user session with
         | None => NextResponse.json [("error", VString "Not authenticated")] 401
         | Some u =>
             let accessToken := accessToken_of session in
             if negb (truthy accessToken) then
               let idToken := idToken_of session in
               if truthy idToken then id_token_tier idToken
               else
                 let userSub := lookup_field "sub" u in
                 if truthy userSub then session_data_tier u userSub
                 else NextResponse.json (no_token_body u) 200
             else access_token_tier accessToken
         end
     end)
    (fun error =>
       (NextResponse.json
              [("synced", VBool false);
               ("error", VString "Failed to sync user");
               ("detail", of_opt (err_message error))] 500)).

End Handler.

(** Running the handler on a fresh request. *)
Definition run (E : Env) : outcome HttpResponse * World := GET E world0.
Definition response_of (E : Env) : outcome HttpResponse := fst (run E).
Definition calls_of (E : Env) : list Request := net (snd (run E)).
End SyncUser.

(* ===================================================================== *)
(** * [GET /api/auth-token] *)
(* ===================================================================== *)

Module AuthToken.
Section Handler.
Context (E : Env).

(** [process.env.AUTH0_AUDIENCE || process.env.NEXT_PUBLIC_AUTH0_AUDIENCE
    || "NOT SET"] *)
Definition audience : value :=
  js_or (js_or (getenv E "AUTH0_AUDIENCE") (getenv E "NEXT_PUBLIC_AUTH0_AUDIENCE"))
        (VString "NOT SET").

(** Lines 33-35 *)
Definition accessToken_of (session : Session) : value :=
  js_or (js_or (of_opt (accessToken session)) (of_opt (access_token session)))
        (match token session with
         | Some t => of_opt (token_access_token t)
         | None => VUndefined
         end).

(** Lines 63-76 *)
Definition no_token_body (session : Session) : obj :=
  [("accessToken", VNull);
   ("error", VString "Access token not available");
   ("hint", VString "Make sure AUTH0_AUDIENCE is configured in lib/auth0.ts and .env.local. User will be synced on first backend API call.");
   ("debug", VObject
      [("hasSession", VBool true);
       ("hasUser", VBool (match user session with Some _ => true | None => false end));
       ("audience", audience);
       ("sessionKeys", VArray (map VString (session_keys session)))])].

Definition no_token_response (session : Session) : HttpResponse :=
  HttpResponse_of (no_token_body session) 200.

(** The route handler.  The identity token is looked at (lines 38-47) for
    a log line only. *)
Definition GET : M HttpResponse :=
  try_catch
    (session <- lift (getSession E) ;;
     match session with
     | None =>
         (NextResponse.json [("error", VString "Not authenticated")] 401)
     | Some session =>
         let accessToken := accessToken_of session in
         if truthy accessToken then
           (NextResponse.json [("accessToken", accessToken)] 200)
         else
           NextResponse.json (no_token_body session) 200
     end)
    (fun error =>
       (NextResponse.json
              [("error", VString "Failed to get access token");
               ("detail", of_opt (err_message error))] 500)).

End Handler.

Definition run (E : Env) : outcome HttpResponse * World := GET E world0.
Definition response_of (E : Env) : outcome HttpResponse := fst (run E).
Definition calls_of (E : Env) : list Request := net (snd (run E)).
End AuthToken.

(* ===================================================================== *)
(** * The middleware *)
(* ===================================================================== *)

Module Middleware.

(** A middleware response: either whatever the identity library answered,
    or [NextResponse.next()], together with the cookies it tells the
    browser to delete. *)
Inductive Disposition : Type :=
| LibraryResponse
| Next.

Record Response : Type := mkResponse {
  disposition : Disposition;
  deleted_cookies : list string
}.

(** [response.cookies.delete(name)] *)
Definition cookies_delete (name : string) (r : Response) : Response :=
  {| disposition := disposition r;
     deleted_cookies := deleted_cookies r ++ [name] |}.

(** [error?.name === 'JWEInvalid' || error?.message?.includes('JWE')] *)
Definition is_JWE_error (error : JsError) : bool :=
  match err_name error with
  | Some n => String.eqb n "JWEInvalid"
  | None => false
  end
  ||
  match err_message error with
  | Some m => includes m "JWE"
  | None => false
  end.

(** [middleware(request)], given what [auth0.middleware(request)] does. *)
Definition middleware (auth0_middleware : outcome Response) : outcome Response :=
  match auth0_middleware with
  | Ret r => Ret r
  | Throw error =>
      if is_JWE_error error then
        let response := {| disposition := Next; deleted_cookies := [] |} in
        let response := cookies_delete "appSession" response in
        let response := cookies_delete "appSession.0" response in
        let response := cookies_delete "appSession.1" response in
        Ret response
      else Throw error
  end.

(** The response of the middleware to a corrupted session cookie. *)
Definition cleared : Response :=
  {| disposition := Next;
     deleted_cookies := ["appSession"; "appSession.0"; "appSession.1"] |}.

(** The session cookies the middleware clears. *)
Definition session_cookies : list string :=
  ["appSession"; "appSession.0"; "appSession.1"].

(** The browser's cookie jar once it has received a response. *)
Definition receive (jar : gmap string string) (r : Response) : gmap string string :=
  foldr delete jar (deleted_cookies r).

End Middleware.

(* ===================================================================== *)
(** * The dashboard page  (src/app/dashboard/page.tsx) *)
(* ===================================================================== *)

Module Dashboard.

Inductive PageResult : Type :=
| Redirect (path : string)      (* [redirect(path)] *)
| Rendered.                     (* the page markup *)

Section Page.
Context (E : Env).

(** [error?.name === 'JWEInvalid' || error?.code === 'ERR_JWE_INVALID'] *)
Definition is_JWE_error (error : JsError) : bool :=
  match err_name error with
  | Some n => String.eqb n "JWEInvalid"
  | None => false
  end
  ||
  match err_code error with
  | Some c => String.eqb c "ERR_JWE_INVALID"
  | None => false
  end.

(** Lines 10-20: [user] after the guarded session read. *)
Definition read_user : M (option obj) :=
  try_catch
    (session <- lift (getSession E) ;;
     ret (match session with
          | Some session => user session
          | None => None
          end))
    (fun error => if is_JWE_error error then ret None else throw error).

(** [`${process.env.APP_BASE_URL || 'http://localhost:3000'}/api/sync-user`] *)
Definition sync_url : string :=
  to_str (js_or (getenv E "APP_BASE_URL") (VString "http://localhost:3000"))
    +:+ "/api/sync-user".

(** Lines 29-44: the render-time sync attempt; whatever it throws is
    swallowed. *)
Definition render_time_sync : M unit :=
  try_catch
    (syncResponse <-
       fetch E {| req_url := sync_url; req_method := "GET";
                  req_headers := []; req_cache := "no-store" |} ;;
     if ok syncResponse then
       syncData <- response_json syncResponse ;;
       _ <- get_prop syncData "synced" ;;
       ret tt
     else ret tt)
    (fun _ => ret tt).

Definition DashboardPage : M PageResult :=
  u <- read_user ;;
  match u with
  | None => ret (Redirect "/")
  | Some _ =>
      _ <- render_time_sync ;;
      ret Rendered
  end.

End Page.
End Dashboard.

(* ===================================================================== *)
(** * The landing route  (the [Home] page) *)
(* ===================================================================== *)

Module Home.

(** [redirect(path)] tells the framework to redirect by throwing; this is
    the error it throws. *)
Definition redirect_signal (path : string) : JsError :=
  {| err_name := Some "Error"; err_code := None;
     err_message := Some ("NEXT_REDIRECT;" +:+ path) |}.

Inductive PageResult : Type :=
| LandingPage.                  (* [<LandingPage />] *)

Section Page.
Context (E : Env).

(** The page: the session read and the redirect both stand inside the
    [try], whose handler swallows whatever is thrown. *)
Definition Home : M PageResult :=
  _ <- try_catch
         (session <- lift (getSession E) ;;
          match session with
          | Some session =>
              match user session with
              | Some _ => throw (redirect_signal "/dashboard")
              | None => ret tt
              end
          | None => ret tt
          end)
         (fun _ => ret tt) ;;
  ret LandingPage.

End Page.
End Home.

(* ===================================================================== *)
(** * The client-side sync component  (src/components/UserSync.tsx) *)
(* ===================================================================== *)

Module UserSync.

(** One mounted instance of the component: its two refs, the network calls
    it has issued, and how many of them have not settled yet.  The refs
    live as long as the instance does (one page lifecycle). *)
Record Instance : Type := mkInstance {
  hasSyncedRef : bool;
  hasAttemptedRef : bool;
  calls : list Request;
  in_flight : nat
}.

(** A freshly mounted instance: [useRef(false)] twice. *)
Definition mount : Instance :=
  {| hasSyncedRef := false; hasAttemptedRef := false;
     calls := []; in_flight := 0 |}.

(** [fetch("/api/sync-user", { cache: "no-store" })] *)
Definition sync_request : Request :=
  {| req_url := "/api/sync-user"; req_method := "GET";
     req_headers := []; req_cache := "no-store" |}.

(** The effect body up to its [await fetch(...)]: lines 26-43, run with the
    [user] and [isLoading] of the current render. *)
Definition syncUser_start (user : option obj) (isLoading : bool)
    (c : Instance) : Instance :=
  if isLoading || negb (match user with Some _ => true | None => false end)
  then c
  else if hasSyncedRef c || hasAttemptedRef c then c
  else {| hasSyncedRef := hasSyncedRef c;
          hasAttemptedRef := true;
          calls := calls c ++ [sync_request];
          in_flight := S (in_flight c) |}.

(** The rest of the effect body, lines 45-61, once the call has settled:
    whether it reaches [hasSyncedRef.current = true]. *)
Definition syncUser_resume (settled : outcome FetchResponse) : M bool :=
  try_catch
    (response <- lift settled ;;
     if negb (ok response) then
       errorData <- try_catch (response_json response)
                      (fun _ => ret (VObject [("error", VString "Unknown error")])) ;;
       error <- get_prop errorData "error" ;;
       throw {| err_name := Some "Error"; err_code := None;
                err_message :=
                  Some (to_str (js_or error
                     (VString ("HTTP " +:+ to_str (VNumber (status response)))))) |}
     else
       syncData <- response_json response ;;
       synced <- get_prop syncData "synced" ;;
       if truthy synced then ret true
       else ret false)
    (fun _ => ret false).

Definition settle (settled : outcome FetchResponse) (c : Instance) : Instance :=
  match in_flight c with
  | O => c
  | S n =>
      let synced :=
        match fst (syncUser_resume settled world0) with
        | Ret b => b
        | Throw _ => false
        end in
      {| hasSyncedRef := hasSyncedRef c || synced;
         hasAttemptedRef := hasAttemptedRef c;
         calls := calls c;
         in_flight := n |}
  end.

(** What can happen to a mounted instance: React runs the effect (on mount
    and whenever [user] or [isLoading] changed, with the values of that
    render), or a call in flight settles. *)
Inductive event : Type :=
| RunEffect (user : option obj) (isLoading : bool)
| Settle (settled : outcome FetchResponse).

Definition step (c : Instance) (e : event) : Instance :=
  match e with
  | RunEffect user isLoading => syncUser_start user isLoading c
  | Settle settled => settle settled c
  end.

(** A page lifecycle: the events of one instance, in order. *)
Definition lifecycle (es : list event) : Instance := fold_left step es mount.

Inductive reachable : Instance -> Prop :=
| reach_mount : reachable mount
| reach_step c e : reachable c -> reachable (step c e).

(** An event that gives the effect no authenticated, loaded user. *)
Definition idle_event (e : event) : Prop :=
  match e with
  | RunEffect user isLoading => isLoading = true \/ user = None
  | Settle _ => True
  end.

(** The "already attempted" flag counts the calls: none before the
    attempt, exactly one from then on. *)
Definition attempted_once (c : Instance) : Prop :=
  (hasAttemptedRef c = false /\ calls c = []) \/
  (hasAttemptedRef c = true /\ calls c = [sync_request]).

End UserSync.

(* ===================================================================== *)
(** * The resume uploader  (the [ResumeUploader] component) *)
(* ===================================================================== *)

Module ResumeUploader.

(** What the component reads of a browser [File]. *)
Record File : Type := mkFile {
  file_name : string;
  file_type : string;
  file_size : Z
}.

Record StagedFile : Type := mkStagedFile {
  id : string;
  file : File;
  size : Z;
  name : string
}.

Definition MAX_FILE_SIZE : Z := 5 * 1024 * 1024.
Definition PDF_MIME_TYPE : string := "application/pdf".

Record Validation : Type := mkValidation {
  valid : bool;
  error : option string
}.

(** Lines 50-58 *)
Definition validateFile (f : File) : Validation :=
  if negb (String.eqb (file_type f) PDF_MIME_TYPE) then
    {| valid := false; error := Some "Only PDF files are allowed" |}
  else if file_size f >? MAX_FILE_SIZE then
    {| valid := false; error := Some "File size must be less than 5MB" |}
  else {| valid := true; error := None |}.

(** The state of the mutation of lines 83-95. *)
Inductive MutationStatus : Type :=
| Idle
| Pending
| Success
| Failed.

(** The component state: its two pieces of React state that carry data,
    the drag flag, the mutation status, and every argument [mutate] has
    been called with. *)
Record State : Type := mkState {
  stagedFiles : list StagedFile;
  errorMessage : option string;
  isDragging : bool;
  mutation : MutationStatus;
  mutated : list (list StagedFile)
}.

Definition initial : State :=
  {| stagedFiles := []; errorMessage := None; isDragging := false;
     mutation := Idle; mutated := [] |}.

(** The [forEach] of lines 104-116 over the selected files, each paired
    with the identifier [`${Date.now()}-${Math.random()}`] evaluated for
    it: the files to stage and the error lines, both in selection order. *)
Fixpoint sort_files (files : list (File * string))
  : list StagedFile * list string :=
  match files with
  | [] => ([], [])
  | (f, fresh) :: rest =>
      let (newFiles, errors) := sort_files rest in
      let validation := validateFile f in
      if valid validation then
        ({| id := fresh; file := f; size := file_size f; name := file_name f |}
           :: newFiles, errors)
      else
        (newFiles,
         (file_name f +:+ ": " +:+
          match error validation with Some e => e | None => "undefined" end)
           :: errors)
  end.

(** Lines 97-125; [None] is a [null] file list. *)
Definition handleFileSelection (files : option (list (File * string)))
    (s : State) : State :=
  match files with
  | None | Some [] => s
  | Some files =>
      let (newFiles, errors) := sort_files files in
      {| stagedFiles :=
           match newFiles with
           | [] => stagedFiles s
           | _ => stagedFiles s ++ newFiles
           end;
         errorMessage :=
           match errors with
           | [] => None
           | _ => Some (join ". " errors)
           end;
         isDragging := isDragging s;
         mutation := mutation s;
         mutated := mutated s |}
  end.

Definition setIsDragging (b : bool) (s : State) : State :=
  {| stagedFiles := stagedFiles s; errorMessage := errorMessage s;
     isDragging := b; mutation := mutation s; mutated := mutated s |}.

(** Lines 139-147 *)
Definition handleDrop (files : option (list (File * string))) (s : State)
  : State :=
  handleFileSelection files (setIsDragging false s).

(** Lines 160-163 *)
Definition removeFile (i : string) (s : State) : State :=
  {| stagedFiles :=
       List.filter (fun f => negb (String.eqb (id f) i)) (stagedFiles s);
     errorMessage := None;
     isDragging := isDragging s;
     mutation := mutation s;
     mutated := mutated s |}.

(** Lines 165-169 *)
Definition handleProcess (s : State) : State :=
  match stagedFiles s with
  | [] => s
  | _ =>
      {| stagedFiles := stagedFiles s;
         errorMessage := None;
         isDragging := isDragging s;
         mutation := Pending;
         mutated := mutated s ++ [stagedFiles s] |}
  end.

(** Lines 85-89: the mutation settled successfully. *)
Definition onSuccess (s : State) : State :=
  {| stagedFiles := []; errorMessage := None;
     isDragging := isDragging s; mutation := Success; mutated := mutated s |}.

(** Lines 90-94: the mutation failed with an error whose [message] is
    [message]. *)
Definition onError (message : option string) (s : State) : State :=
  {| stagedFiles := stagedFiles s;
     errorMessage :=
       Some (to_str (js_or (of_opt message)
               (VString "An error occurred while processing resumes")));
     isDragging := isDragging s; mutation := Failed; mutated := mutated s |}.

(** Line 187: the dismiss button. *)
Definition dismissError (s : State) : State :=
  {| stagedFiles := stagedFiles s; errorMessage := None;
     isDragging := isDragging s; mutation := mutation s;
     mutated := mutated s |}.

Inductive event : Type :=
| SelectFiles (files : option (list (File * string)))   (* the file input *)
| DragOver
| DragLeave
| Drop (files : option (list (File * string)))
| RemoveFile (i : string)
| Process
| Settled (failure : option (option string))  (* [None]: success *)
| Dismiss.

Definition step (s : State) (e : event) : State :=
  match e with
  | SelectFiles files => handleFileSelection files s
  | DragOver => setIsDragging true s
  | DragLeave => setIsDragging false s
  | Drop files => handleDrop files s
  | RemoveFile i => removeFile i s
  | Process => handleProcess s
  | Settled None => onSuccess s
  | Settled (Some message) => onError message s
  | Dismiss => dismissError s
  end.

Definition run (es : list event) : State := fold_left step es initial.

(** A staged entry that mirrors an acceptable file. *)
Definition well_staged (f : StagedFile) : Prop :=
  file_type (file f) = PDF_MIME_TYPE /\
  file_size (file f) <= MAX_FILE_SIZE /\
  size f = file_size (file f) /\
  name f = file_name (file f).

End ResumeUploader.

(* ===================================================================== *)
(** * The credential tiers, as the specification words them *)
(* ===================================================================== *)

Module Spec.

(** A session location holds a credential when it is a non-empty string. *)
Definition holds (o : option string) : bool :=
  match o with
  | Some (String _ _) => true
  | _ => false
  end.

(** The three locations probed for the API credential, and the two probed
    for the identity credential, in the order they are probed. *)
Definition api_locations (s : Session) : list (option string) :=
  [accessToken s; access_token s;
   match token s with Some t => token_access_token t | None => None end].

Definition id_locations (s : Session) : list (option string) :=
  [idToken s; id_token s].

Definition first_held (l : list (option string)) : option string :=
  match find holds l with
  | Some o => o
  | None => None
  end.

Inductive SelectedCredential : Type :=
| ApiCredential (c : string)
| IdentityCredential (c : string)
| SynthesizedCredential (c : string)
| NoCredential.

(** Preference order, first match wins: the API credential; the identity
    credential; the synthesized credential [synth], only if the principal
    subject is present; otherwise none. *)
Definition CredentialSelector (s : Session) (u : obj) (synth : string)
  : SelectedCredential :=
  match first_held (api_locations s) with
  | Some c => ApiCredential c
  | None =>
      match first_held (id_locations s) with
      | Some c => IdentityCredential c
      | None =>
          if truthy (lookup_field "sub" u) then SynthesizedCredential synth
          else NoCredential
      end
  end.

(** The credentials available to a sync attempt, in preference order. *)
Definition available (s : Session) (u : obj) (synth : string) : list string :=
  match first_held (api_locations s) with Some c => [c] | None => [] end ++
  match first_held (id_locations s) with Some c => [c] | None => [] end ++
  (if truthy (lookup_field "sub" u) then [synth] else []).

(** An answer that is an authentication failure. *)
Definition authentication_failure (o : outcome FetchResponse) : bool :=
  match o with
  | Ret r => (status r =? 401) || (status r =? 403)
  | Throw _ => false
  end.

Definition credential_of (c : SelectedCredential) : option string :=
  match c with
  | ApiCredential c | IdentityCredential c | SynthesizedCredential c => Some c
  | NoCredential => None
  end.

End Spec.

(** The synthesized credential the sync route builds for the claims object
    [u] of the session: lines 105-123 run on a fresh request. *)
Definition synthesized (E : Env) (u : obj) : string :=
  match fst (SyncUser.claims E u (lookup_field "sub" u) world0) with
  | Ret c => SyncUser.minimalToken_of c
  | Throw _ => ""
  end.

(** The calls of a cascade through the credentials [creds]: one call per
    credential, in order, stopping at the first whose answer is not an
    authentication failure. *)
Fixpoint cascade (E : Env) (history : list Request) (creds : list string)
  : list Request :=
  match creds with
  | [] => []
  | c :: rest =>
      let r := SyncUser.auth_me E (VString c) in
      if Spec.authentication_failure (network E history r)
      then r :: cascade E (history ++ [r]) rest
      else [r]
  end.

(** The success shape as the interface section words it: status 200,
    [synced: true], and a method tag that is one of the three listed. *)
Definition documented_success (resp : HttpResponse) : Prop :=
  resp_status resp = 200 /\
  lookup_field "synced" (resp_body resp) = VBool true /\
  In (lookup_field "method" (resp_body resp))
     [VString "api_credential"; VString "identity_credential";
      VString "session_data"].

(** The success bodies the handler builds, one per tier. *)
Definition success_body (tier : Spec.SelectedCredential) (userData : value)
  : obj :=
  match tier with
  | Spec.ApiCredential _ =>
      [("synced", VBool true); ("user", userData)]
  | Spec.IdentityCredential _ =>
      [("synced", VBool true); ("user", userData);
       ("method", VString "id_token")]
  | Spec.SynthesizedCredential _ =>
      [("synced", VBool true); ("user", userData);
       ("method", VString "session_data")]
  | Spec.NoCredential => []
  end.

(** The network accepts the request [req], issued after [history], with
    the record [userData]: a 2xx answer whose body parses to it. *)
Definition accepted (E : Env) (req : Request) (history : list Request)
    (userData : value) : Prop :=
  exists r, network E history req = Ret r /\ ok r = true /\
            json_body r = Ret userData.

(** The body shape of the credential endpoint:
    [{accessToken: string|null, error?, hint?, debug?}]. *)
Definition auth_token_shape (body : obj) : bool :=
  match lookup_field "accessToken" body with
  | VString _ | VNull => true
  | _ => false
  end
  && forallb (fun kv =>
                existsb (String.eqb (fst kv))
                        ["accessToken"; "error"; "hint"; "debug"]) body.

(** The block of the sync route that runs for a selected credential. *)
Definition tier_of (E : Env) (u : obj) (selected : Spec.SelectedCredential)
  : M HttpResponse :=
  match selected with
  | Spec.ApiCredential a => SyncUser.access_token_tier E (VString a)
  | Spec.IdentityCredential i => SyncUser.id_token_tier E (VString i)
  | Spec.SynthesizedCredential _ =>
      SyncUser.session_data_tier E u (lookup_field "sub" u)
  | Spec.NoCredential => ret (SyncUser.no_token_response u)
  end.

(** The response of the handler of [GET] around the whole route. *)
Definition sync_failure (error : JsError) : HttpResponse :=
  HttpResponse_of
    [("synced", VBool false);
     ("error", VString "Failed to sync user");
     ("detail", of_opt (err_message error))] 500.

(** The response of the handlers around the two fallback tiers. *)
Definition connect_failure (E : Env) (error : JsError) : HttpResponse :=
  HttpResponse_of
    [("synced", VBool false);
     ("error", VString "Failed to connect to backend");
     ("detail", of_opt (err_message error));
     ("hint", VString (SyncUser.fallback_hint E))] 500.

(** What the route reads the error of a non-2xx answer from: the parsed
    body, or [{detail: "Unknown error"}] when the body does not parse. *)
Definition error_body (r : FetchResponse) : value :=
  match json_body r with
  | Ret v => v
  | Throw _ => VObject [("detail", VString "Unknown error")]
  end.

(** The status a non-2xx answer [r] is answered with: its own status when
    the route can read its error (the parsed body is not [null]) and
    [NextResponse.json] accepts that status; 500 in every other case. *)
Definition refusal_status (r : FetchResponse) : Z :=
  match error_body r with
  | VNull | VUndefined => 500
  | _ => if NextResponse.accepts (status r) then status r else 500
  end.

(** A response that reports the attempt as refused by the answer [r]:
    [synced: false], with the refusal status of the answer. *)
Definition refused (resp : HttpResponse) (r : FetchResponse) : Prop :=
  lookup_field "synced" (resp_body resp) = VBool false /\
  resp_status resp = refusal_status r.

(** The [Authorization] header of a request. *)
Definition authorization (r : Request) : option string :=
  snd <$> find (fun h => String.eqb (fst h) "Authorization") (req_headers r).

(* ===================================================================== *)
(** * Concrete sessions and worlds *)
(* ===================================================================== *)

Module Examples.

Definition profile : obj :=
  [("sub", VString "idp|42"); ("email", VString "a@b.com")].

(** A session with all three tiers available. *)
Definition session_all : Session :=
  {| accessToken := Some "api-token"; access_token := None; token := None;
     idToken := Some "id-token"; id_token := None;
     user := Some profile;
     session_keys := ["user"; "accessToken"; "idToken"] |}.

(** Identity credential and profile only. *)
Definition session_id : Session :=
  {| accessToken := None; access_token := None; token := None;
     idToken := Some "id-token"; id_token := None;
     user := Some profile;
     session_keys := ["user"; "idToken"] |}.

(** Profile only. *)
Definition session_profile : Session :=
  {| accessToken := None; access_token := None; token := None;
     idToken := None; id_token := None;
     user := Some profile;
     session_keys := ["user"] |}.

(** No credential and no subject. *)
Definition session_bare : Session :=
  {| accessToken := None; access_token := None; token := None;
     idToken := None; id_token := None;
     user := Some [("email", VString "a@b.com")];
     session_keys := ["user"] |}.

Definition userRecord : value :=
  VObject [("id", VNumber 7); ("auth0_sub", VString "idp|42");
           ("email", VString "a@b.com")].

(** A resource server that accepts every credential. *)
Definition accepting : list Request -> Request -> outcome FetchResponse :=
  fun _ _ => Ret {| status := 200; json_body := Ret userRecord |}.

(** A resource server that answers every call with 401. *)
Definition rejecting : list Request -> Request -> outcome FetchResponse :=
  fun _ _ => Ret {| status := 401;
                    json_body := Ret (VObject [("detail", VString "Invalid token")]) |}.

(** A resource server that answers every call with 304 and no body. *)
Definition not_modified : list Request -> Request -> outcome FetchResponse :=
  fun _ _ => Ret {| status := 304;
                    json_body := Throw (TypeError "Unexpected end of JSON input") |}.

(** A resource server that answers every call with 403 and the JSON text
    [null]. *)
Definition refusing_null : list Request -> Request -> outcome FetchResponse :=
  fun _ _ => Ret {| status := 403; json_body := Ret VNull |}.

(** A resource server that cannot be reached. *)
Definition unreachable : list Request -> Request -> outcome FetchResponse :=
  fun _ _ => Throw (TypeError "fetch failed").

(** A clock that ticks over a second boundary between its first and its
    second reading. *)
Definition ticking : nat -> Z :=
  fun k => match k with O => 1999 | S _ => 2000 end.

Definition steady : nat -> Z := fun _ => 1700000000000.

Definition world (s : Session) (env : gmap string string)
    (nw : list Request -> Request -> outcome FetchResponse)
    (clock : nat -> Z) : Env :=
  {| getSession := Ret (Some s); process_env := env;
     network := nw; Date_now := clock |}.

(** All three tiers available, resource server accepting. *)
Definition E_all : Env := world session_all ∅ accepting steady.

(** All three tiers available, resource server answering 401. *)
Definition E_rejected : Env := world session_all ∅ rejecting steady.

(** Identity credential only, resource server accepting. *)
Definition E_id : Env := world session_id ∅ accepting steady.

(** Profile only, resource server accepting. *)
Definition E_profile : Env := world session_profile ∅ accepting steady.

(** All three tiers available, resource server unreachable. *)
Definition E_unreachable : Env := world session_all ∅ unreachable steady.

(** Identity credential only; the resource server is configured through
    [BACKEND_URL] alone and is unreachable. *)
Definition E_unreachable_id : Env :=
  world session_id {[ "BACKEND_URL" := "http://api.internal:9000" ]}
        unreachable steady.

(** Identity credential only, seen by the credential endpoint. *)
Definition E_bare : Env := world session_bare ∅ accepting steady.

(** Profile only; the clock ticks over a second boundary between the two
    readings of the synthesized token. *)
Definition E_ticking : Env := world session_profile ∅ accepting ticking.

(** The error a corrupted session cookie raises. *)
Definition jwe_error : JsError :=
  {| err_name := Some "JWEInvalid"; err_code := Some "ERR_JWE_INVALID";
     err_message := Some "Invalid Compact JWE" |}.

(** A request whose session cookie cannot be decrypted. *)
Definition E_corrupt : Env :=
  {| getSession := Throw jwe_error; process_env := ∅;
     network := accepting; Date_now := steady |}.

(** A resource server that answers 200 with the JSON text [null]. *)
Definition answering_null : list Request -> Request -> outcome FetchResponse :=
  fun _ _ => Ret {| status := 200; json_body := Ret VNull |}.

Definition E_null : Env := world session_id ∅ answering_null steady.

(** Profile only, resource server unreachable. *)
Definition E_unreachable_profile : Env :=
  world session_profile ∅ unreachable steady.

(** Identity credential only, resource server answering 401. *)
Definition E_rejected_id : Env := world session_id ∅ rejecting steady.

(** All three tiers available, resource server answering 304. *)
Definition E_not_modified : Env := world session_all ∅ not_modified steady.

(** Identity credential only, resource server answering 304. *)
Definition E_not_modified_id : Env := world session_id ∅ not_modified steady.

(** Profile only, resource server answering 401. *)
Definition E_rejected_profile : Env := world session_profile ∅ rejecting steady.

(** Profile only, resource server answering 304. *)
Definition E_not_modified_profile : Env :=
  world session_profile ∅ not_modified steady.

(** Identity credential only, resource server answering 403 with [null]. *)
Definition E_refused_null : Env := world session_id ∅ refusing_null steady.

(** An error that mentions JWE in its message only. *)
Definition jwe_by_message : JsError :=
  {| err_name := Some "JOSEError"; err_code := None;
     err_message := Some "JWE Protected Header is invalid" |}.

(** A session read that fails with it. *)
Definition E_jwe_by_message : Env :=
  {| getSession := Throw jwe_by_message; process_env := ∅;
     network := accepting; Date_now := steady |}.

End Examples.

(** Files and staging lists of the uploader. *)
Module UploaderExamples.
Import ResumeUploader.

Definition cv : File :=
  {| file_name := "cv.pdf"; file_type := "application/pdf";
     file_size := 1000 |}.

Definition letter : File :=
  {| file_name := "letter.pdf"; file_type := "application/pdf";
     file_size := 2000 |}.

Definition staged_cv : StagedFile :=
  {| id := "1-0.1"; file := cv; size := 1000; name := "cv.pdf" |}.

Definition staged_letter : StagedFile :=
  {| id := "1-0.2"; file := letter; size := 2000; name := "letter.pdf" |}.

(** One selection of the two documents. *)
Definition two_staged : State :=
  run [SelectFiles (Some [(cv, "1-0.1"); (letter, "1-0.2")])].

(** One selection of the first document. *)
Definition one_staged : State :=
  run [SelectFiles (Some [(cv, "1-0.1")])].

End UploaderExamples.

(* ===================================================================== *)
(** * Properties *)
(* ===================================================================== *)

(** ** The monad: stepping through a handler *)

(** The constant statuses of the handlers are accepted. *)
Ltac accept_constants :=
  change (NextResponse.accepts 200) with true in *;
  change (NextResponse.accepts 401) with true in *;
  change (NextResponse.accepts 500) with true in *.

Ltac unfold_M :=
  unfold try_catch, bind, ret, throw, lift, response_json, get_prop,
    fetch, Date_now_call, NextResponse.json in *;
  accept_constants.

(** Case analysis on whatever the handler branches on next. *)
Ltac branch :=
  match goal with
  | |- context [match ?x with _ => _ end] =>
      lazymatch x with
      | context [match _ with _ => _ end] => fail
      | _ => destruct x eqn:?
      end
  end.

Ltac run_M := unfold_M; simpl; repeat (branch; simpl in *; subst); try congruence.

(** The synthesized token is carried through a handler as it is. *)
Ltac hide_token :=
  repeat match goal with
         | |- context [SyncUser.minimalToken_of ?c] =>
             let tok := fresh "tok" in
             set (tok := SyncUser.minimalToken_of c) in *; clearbody tok
         end.

(** A handler that only builds a response leaves the world as the guarded
    block left it. *)
Lemma try_catch_ret_world {A} (m : M A) (f : JsError -> A) w :
  snd (try_catch m (fun e => ret (f e)) w) = snd (m w).
Proof. unfold try_catch, ret. destruct (m w) as [[a|e] w']; reflexivity. Qed.

Lemma try_catch_ret_returns {A} (m : M A) (f : JsError -> A) w :
  exists a, fst (try_catch m (fun e => ret (f e)) w) = Ret a.
Proof. unfold try_catch, ret. destruct (m w) as [[a|e] w']; simpl; eauto. Qed.

Lemma bind_lift_ret {A B} (a : A) (k : A -> M B) w :
  bind (lift (Ret a)) k w = k a w.
Proof. reflexivity. Qed.

(** The handlers with the constant statuses of their responses checked:
    200, 401 and 500 are statuses [NextResponse.json] accepts. *)
Lemma SyncUser_GET_eq (E : Env) :
  SyncUser.GET E =
    try_catch
      (session <- lift (getSession E) ;;
       match session with
       | None => ret SyncUser.not_authenticated
       | Some session =>
           match user session with
           | None => ret SyncUser.not_authenticated
           | Some u =>
               let accessToken := SyncUser.accessToken_of session in
               if negb (truthy accessToken) then
                 let idToken := SyncUser.idToken_of session in
                 if truthy idToken then SyncUser.id_token_tier E idToken
                 else
                   let userSub := lookup_field "sub" u in
                   if truthy userSub
                   then SyncUser.session_data_tier E u userSub
                   else ret (SyncUser.no_token_response u)
               else SyncUser.access_token_tier E accessToken
           end
       end)
      (fun error =>
         ret (HttpResponse_of
                [("synced", VBool false);
                 ("error", VString "Failed to sync user");
                 ("detail", of_opt (err_message error))] 500)).
Proof. reflexivity. Qed.

Lemma AuthToken_GET_eq (E : Env) :
  AuthToken.GET E =
    try_catch
      (session <- lift (getSession E) ;;
       match session with
       | None =>
           ret (HttpResponse_of [("error", VString "Not authenticated")] 401)
       | Some session =>
           let accessToken := AuthToken.accessToken_of session in
           if truthy accessToken then
             ret (HttpResponse_of [("accessToken", accessToken)] 200)
           else
             ret (AuthToken.no_token_response E session)
       end)
      (fun error =>
         ret (HttpResponse_of
                [("error", VString "Failed to get access token");
                 ("detail", of_opt (err_message error))] 500)).
Proof. reflexivity. Qed.


(** The three-way [||] chains over optional strings. *)
Lemma js_or3_first_held (a b c : option string) :
  js_or (js_or (of_opt a) (of_opt b)) (of_opt c) =
    match Spec.first_held [a; b; c] with
    | Some s => VString s
    | None => of_opt c
    end /\
  truthy (js_or (js_or (of_opt a) (of_opt b)) (of_opt c)) =
    match Spec.first_held [a; b; c] with Some _ => true | None => false end.
Proof.
  unfold Spec.first_held, js_or.
  destruct a as [[|? ?]|], b as [[|? ?]|], c as [[|? ?]|]; simpl; auto.
Qed.

Lemma js_or2_first_held (a b : option string) :
  js_or (of_opt a) (of_opt b) =
    match Spec.first_held [a; b] with
    | Some s => VString s
    | None => of_opt b
    end /\
  truthy (js_or (of_opt a) (of_opt b)) =
    match Spec.first_held [a; b] with Some _ => true | None => false end.
Proof.
  unfold Spec.first_held, js_or.
  destruct a as [[|? ?]|], b as [[|? ?]|]; simpl; auto.
Qed.

Lemma first_held_holds l c : Spec.first_held l = Some c -> c <> "".
Proof.
  unfold Spec.first_held. destruct (find Spec.holds l) as [o|] eqn:F; [|discriminate].
  apply find_some in F. destruct F as [_ H]. intros ->.
  destruct c; [discriminate | congruence].
Qed.

Module SyncUserFacts.
Import SyncUser.

Section Facts.
Context (E : Env).

Lemma accessToken_of_held session :
  accessToken_of session =
    match Spec.first_held (Spec.api_locations session) with
    | Some c => VString c
    | None => accessToken_of session
    end /\
  truthy (accessToken_of session) =
    match Spec.first_held (Spec.api_locations session) with
    | Some _ => true
    | None => false
    end.
Proof.
  unfold accessToken_of, Spec.api_locations.
  destruct (token session) as [t|].
  - destruct (js_or3_first_held (accessToken session) (access_token session)
                (token_access_token t)) as [H1 H2].
    rewrite H2. split; [|reflexivity].
    rewrite H1 at 1. destruct (Spec.first_held _); [reflexivity|].
    symmetry; exact H1.
  - destruct (js_or3_first_held (accessToken session) (access_token session) None)
      as [H1 H2].
    simpl of_opt in *. rewrite H2. split; [|reflexivity].
    rewrite H1 at 1. destruct (Spec.first_held _); [reflexivity|].
    symmetry; exact H1.
Qed.

Lemma idToken_of_held session :
  idToken_of session =
    match Spec.first_held (Spec.id_locations session) with
    | Some c => VString c
    | None => idToken_of session
    end /\
  truthy (idToken_of session) =
    match Spec.first_held (Spec.id_locations session) with
    | Some _ => true
    | None => false
    end.
Proof.
  unfold idToken_of, Spec.id_locations.
  destruct (js_or2_first_held (idToken session) (id_token session)) as [H1 H2].
  rewrite H2. split; [|reflexivity].
  rewrite H1 at 1. destruct (Spec.first_held _); [reflexivity|].
  symmetry; exact H1.
Qed.

(** Each tier issues exactly one call, whatever the network answers. *)
Lemma id_token_tier_calls v w :
  snd (id_token_tier E v w) =
    {| net := net w ++ [auth_me E v]; clock_reads := clock_reads w |}.
Proof. unfold id_token_tier, errorData_of, error_of, log_user. run_M. Qed.

Lemma access_token_tier_calls v w :
  snd (access_token_tier E v w) =
    {| net := net w ++ [auth_me E v]; clock_reads := clock_reads w |}.
Proof. unfold access_token_tier, errorData_of, error_of, log_user. run_M. Qed.

(** The claims object: the two clock readings are the next two of the
    world. *)
Lemma claims_run u v w :
  claims E u v w =
    (Ret (VObject
            [("sub", v);
             ("email", js_or (lookup_field "email" u) (VString ""));
             ("name", js_or (js_or (lookup_field "name" u)
                                   (lookup_field "nickname" u)) VNull);
             ("picture", js_or (lookup_field "picture" u) VNull);
             ("iat", VNumber (Date_now E (clock_reads w) / 1000));
             ("exp", VNumber (Date_now E (S (clock_reads w)) / 1000 + 3600))]),
     {| net := net w; clock_reads := S (S (clock_reads w)) |}).
Proof. reflexivity. Qed.

Lemma session_data_tier_calls u v w :
  exists c,
    fst (claims E u v w) = Ret c /\
    snd (session_data_tier E u v w) =
      {| net := net w ++ [auth_me E (VString (minimalToken_of c))];
         clock_reads := S (S (clock_reads w)) |}.
Proof.
  eexists. split; [rewrite claims_run; reflexivity|].
  unfold session_data_tier, bind at 1. rewrite claims_run.
  hide_token. unfold errorData_of, error_of, log_user. run_M.
Qed.

End Facts.
End SyncUserFacts.

(** ** Credential selection *)

Section Selection.
Context (E : Env) (session : Session) (u : obj).
Hypothesis Hsession : getSession E = Ret (Some session).
Hypothesis Huser : user session = Some u.

(** The calls of one run of the handler: none, or the single call that
    presents the selected credential. *)
Lemma calls_selected :
  SyncUser.calls_of E =
    match Spec.credential_of
            (Spec.CredentialSelector session u (synthesized E u)) with
    | Some c => [SyncUser.auth_me E (VString c)]
    | None => []
    end.
Proof.
  unfold SyncUser.calls_of, SyncUser.run. rewrite SyncUser_GET_eq. unfold Spec.CredentialSelector.
  rewrite try_catch_ret_world, Hsession, bind_lift_ret, Huser.
  destruct (SyncUserFacts.accessToken_of_held session) as [Ha Hat].
  destruct (SyncUserFacts.idToken_of_held session) as [Hi Hit].
  rewrite Hat.
  destruct (Spec.first_held (Spec.api_locations session)) as [a|]; cbn [negb].
  - rewrite Ha, SyncUserFacts.access_token_tier_calls. reflexivity.
  - rewrite Hit.
    destruct (Spec.first_held (Spec.id_locations session)) as [i|].
    + rewrite Hi, SyncUserFacts.id_token_tier_calls. reflexivity.
    + destruct (truthy (lookup_field "sub" u)) eqn:Hsub.
      * destruct (SyncUserFacts.session_data_tier_calls E u
                    (lookup_field "sub" u) world0) as (c & Hc & Hcalls).
        rewrite Hcalls. unfold synthesized. rewrite Hc. reflexivity.
      * reflexivity.
Qed.

End Selection.

(** C1. For every authenticated session, GET /api/sync-user presents the
    API access credential when one of the three session locations holds
    one; otherwise the identity credential when one of its two locations
    holds one; otherwise, when the subject [sub] of the session user is
    non-empty, the synthesized credential; and when all three tiers are
    available, the credential presented is the API credential. *)
Theorem sync_presents_by_preference (E : Env) (session : Session) (u : obj) :
  getSession E = Ret (Some session) ->
  user session = Some u ->
  (forall a, Spec.first_held (Spec.api_locations session) = Some a ->
     SyncUser.calls_of E = [SyncUser.auth_me E (VString a)])
  /\ (Spec.first_held (Spec.api_locations session) = None ->
      forall i, Spec.first_held (Spec.id_locations session) = Some i ->
        SyncUser.calls_of E = [SyncUser.auth_me E (VString i)])
  /\ (Spec.first_held (Spec.api_locations session) = None ->
      Spec.first_held (Spec.id_locations session) = None ->
      truthy (lookup_field "sub" u) = true ->
        SyncUser.calls_of E = [SyncUser.auth_me E (VString (synthesized E u))])
  /\ (forall a i,
        Spec.first_held (Spec.api_locations session) = Some a ->
        Spec.first_held (Spec.id_locations session) = Some i ->
        truthy (lookup_field "sub" u) = true ->
        map authorization (SyncUser.calls_of E) = [Some ("Bearer " +:+ a)]).
Proof.
  intros Hs Hu.
  pose proof (calls_selected E session u Hs Hu) as H.
  unfold Spec.CredentialSelector in H.
  repeat split.
  - intros a Ha. rewrite Ha in H. exact H.
  - intros Ha i Hi. rewrite Ha, Hi in H. exact H.
  - intros Ha Hi Hsub. rewrite Ha, Hi, Hsub in H. exact H.
  - intros a i Ha _ _. rewrite Ha in H. rewrite H. reflexivity.
Qed.

Lemma sync_presents_by_preference_witness :
  getSession Examples.E_all = Ret (Some Examples.session_all) /\
  user Examples.session_all = Some Examples.profile /\
  Spec.first_held (Spec.api_locations Examples.session_all) = Some "api-token" /\
  Spec.first_held (Spec.id_locations Examples.session_all) = Some "id-token" /\
  truthy (lookup_field "sub" Examples.profile) = true /\
  map authorization (SyncUser.calls_of Examples.E_all) = [Some "Bearer api-token"].
Proof.
  do 5 (split; [reflexivity|]).
  destruct (sync_presents_by_preference Examples.E_all Examples.session_all
              Examples.profile eq_refl eq_refl) as (_ & _ & _ & H).
  apply (H "api-token" "id-token"); reflexivity.
Defined.

(** ** One call per attempt *)

Module SyncUserAnswers.
Import SyncUser.
Section Answers.
Context (E : Env).

Lemma access_token_tier_refused v w r :
  network E (net w) (auth_me E v) = Ret r -> ok r = false ->
  match fst (access_token_tier E v w) with
  | Ret resp => refused resp r
  | Throw _ => refusal_status r = 500
  end.
Proof.
  intros Hn Hok. unfold access_token_tier, bind at 1, fetch. rewrite Hn, Hok.
  unfold errorData_of, error_of, refused, refusal_status, error_body.
  run_M; auto.
Qed.

Lemma id_token_tier_refused v w r :
  network E (net w) (auth_me E v) = Ret r -> ok r = false ->
  exists resp, fst (id_token_tier E v w) = Ret resp /\ refused resp r.
Proof.
  intros Hn Hok. unfold id_token_tier, try_catch at 1, bind at 1, fetch.
  rewrite Hn, Hok.
  unfold errorData_of, error_of, refused, refusal_status, error_body.
  run_M; eexists; (split; [reflexivity|]); simpl; auto.
Qed.

Lemma session_data_tier_refused u v w r c :
  fst (claims E u v w) = Ret c ->
  network E (net w) (auth_me E (VString (minimalToken_of c))) = Ret r ->
  ok r = false ->
  exists resp, fst (session_data_tier E u v w) = Ret resp /\ refused resp r.
Proof.
  rewrite SyncUserFacts.claims_run. intros [= <-] Hn Hok.
  unfold session_data_tier, bind at 1. rewrite SyncUserFacts.claims_run.
  unfold try_catch at 1, bind at 1, fetch. cbn [net clock_reads].
  rewrite Hn, Hok. hide_token.
  unfold errorData_of, error_of, refused, refusal_status, error_body.
  run_M; eexists; (split; [reflexivity|]); simpl; auto.
Qed.

End Answers.
End SyncUserAnswers.

(** C2, as stated, fails: with all three tiers available and a resource
    server that answers 401, the handler presents the API credential and
    stops; the identity credential is never tried, whereas the cascade of
    the claim goes on to it. *)
Lemma sync_cascade_counterexample :
  Spec.available Examples.session_all Examples.profile
    (synthesized Examples.E_rejected Examples.profile) =
    ["api-token"; "id-token"; synthesized Examples.E_rejected Examples.profile]
  /\ Spec.authentication_failure
       (network Examples.E_rejected []
          (SyncUser.auth_me Examples.E_rejected (VString "api-token"))) = true
  /\ SyncUser.calls_of Examples.E_rejected =
       [SyncUser.auth_me Examples.E_rejected (VString "api-token")]
  /\ SyncUser.calls_of Examples.E_rejected <>
       cascade Examples.E_rejected []
         (Spec.available Examples.session_all Examples.profile
            (synthesized Examples.E_rejected Examples.profile)).
Proof.
  split; [reflexivity|]. split; [reflexivity|]. split; [reflexivity|].
  vm_compute. discriminate.
Qed.

(** C2 (amended). For every sync attempt of an authenticated session, the
    calls issued are the first call of the preference order and no other:
    at most one network call, presenting the highest-preference available
    credential.  When the resource server answers that call with a non-2xx
    status (an authentication failure such as 401 included), the attempt
    ends there with [synced: false] and no other credential is tried.  The
    response has the status of the answer when the route can read its error
    (the parsed body is not [null]) and [NextResponse.json] accepts that
    status (300..599 except 304); in every other case it has status 500. *)
Theorem sync_single_call (E : Env) (session : Session) (u : obj) :
  getSession E = Ret (Some session) ->
  user session = Some u ->
  SyncUser.calls_of E =
    firstn 1 (map (fun c => SyncUser.auth_me E (VString c))
                  (Spec.available session u (synthesized E u)))
  /\ (forall call r,
        SyncUser.calls_of E = [call] ->
        network E [] call = Ret r ->
        ok r = false ->
        exists resp,
          SyncUser.response_of E = Ret resp /\
          lookup_field "synced" (resp_body resp) = VBool false /\
          resp_status resp = refusal_status r).
Proof.
  intros Hs Hu. split.
  - rewrite (calls_selected E session u Hs Hu).
    unfold Spec.CredentialSelector, Spec.available.
    destruct (Spec.first_held (Spec.api_locations session)); [reflexivity|].
    destruct (Spec.first_held (Spec.id_locations session)); [reflexivity|].
    destruct (truthy (lookup_field "sub" u)); reflexivity.
  - intros call r Hcalls Hn Hok.
    change (exists resp, SyncUser.response_of E = Ret resp /\ refused resp r).
    rewrite (calls_selected E session u Hs Hu) in Hcalls.
    unfold Spec.CredentialSelector in Hcalls.
    unfold SyncUser.response_of, SyncUser.run. rewrite SyncUser_GET_eq.
    unfold try_catch at 1. rewrite Hs, bind_lift_ret, Hu.
    destruct (SyncUserFacts.accessToken_of_held session) as [Ha Hat].
    destruct (SyncUserFacts.idToken_of_held session) as [Hi Hit].
    rewrite Hat.
    destruct (Spec.first_held (Spec.api_locations session)) as [a|]; cbn [negb].
    + injection Hcalls as <-. rewrite Ha.
      pose proof (SyncUserAnswers.access_token_tier_refused E (VString a) world0 r
                    Hn Hok) as H.
      destruct (SyncUser.access_token_tier E (VString a) world0) as [[resp|e] w'];
        simpl in *.
      * eauto.
      * eexists; split; [reflexivity|]. split; simpl; auto.
    + rewrite Hit.
      destruct (Spec.first_held (Spec.id_locations session)) as [i|].
      * injection Hcalls as <-. rewrite Hi.
        destruct (SyncUserAnswers.id_token_tier_refused E (VString i) world0 r
                    Hn Hok) as (resp & Hr & Href).
        destruct (SyncUser.id_token_tier E (VString i) world0) as [[resp'|e] w'];
          simpl in *; [|discriminate].
        injection Hr as ->. eauto.
      * destruct (truthy (lookup_field "sub" u)) eqn:Hsub; [|discriminate].
        injection Hcalls as <-. unfold synthesized in Hn.
        rewrite SyncUserFacts.claims_run in Hn. cbn [fst] in Hn.
        destruct (SyncUserAnswers.session_data_tier_refused E u
                    (lookup_field "sub" u) world0 r _
                    (f_equal fst (SyncUserFacts.claims_run E u _ world0)) Hn Hok)
          as (resp & Hr & Href).
        destruct (SyncUser.session_data_tier E u (lookup_field "sub" u) world0)
          as [[resp'|e] w']; simpl in *; [|discriminate].
        injection Hr as ->. eauto.
Qed.

Lemma sync_single_call_witness :
  (getSession Examples.E_rejected = Ret (Some Examples.session_all) /\
   user Examples.session_all = Some Examples.profile /\
   SyncUser.calls_of Examples.E_rejected =
     [SyncUser.auth_me Examples.E_rejected (VString "api-token")] /\
   network Examples.E_rejected []
     (SyncUser.auth_me Examples.E_rejected (VString "api-token")) =
     Ret {| status := 401;
            json_body := Ret (VObject [("detail", VString "Invalid token")]) |} /\
   exists resp,
     SyncUser.response_of Examples.E_rejected = Ret resp /\
     lookup_field "synced" (resp_body resp) = VBool false /\
     resp_status resp = 401)
  /\
  (getSession Examples.E_not_modified = Ret (Some Examples.session_all) /\
   SyncUser.calls_of Examples.E_not_modified =
     [SyncUser.auth_me Examples.E_not_modified (VString "api-token")] /\
   network Examples.E_not_modified []
     (SyncUser.auth_me Examples.E_not_modified (VString "api-token")) =
     Ret {| status := 304;
            json_body := Throw (TypeError "Unexpected end of JSON input") |} /\
   exists resp,
     SyncUser.response_of Examples.E_not_modified = Ret resp /\
     lookup_field "synced" (resp_body resp) = VBool false /\
     resp_status resp = 500)
  /\
  (getSession Examples.E_refused_null = Ret (Some Examples.session_id) /\
   SyncUser.calls_of Examples.E_refused_null =
     [SyncUser.auth_me Examples.E_refused_null (VString "id-token")] /\
   network Examples.E_refused_null []
     (SyncUser.auth_me Examples.E_refused_null (VString "id-token")) =
     Ret {| status := 403; json_body := Ret VNull |} /\
   exists resp,
     SyncUser.response_of Examples.E_refused_null = Ret resp /\
     lookup_field "synced" (resp_body resp) = VBool false /\
     resp_status resp = 500).
Proof.
  split; [|split].
  - do 4 (split; [reflexivity|]).
    destruct (sync_single_call Examples.E_rejected Examples.session_all
                Examples.profile eq_refl eq_refl) as [_ H].
    apply (H (SyncUser.auth_me Examples.E_rejected (VString "api-token"))
             {| status := 401;
                json_body := Ret (VObject [("detail", VString "Invalid token")]) |});
      reflexivity.
  - do 3 (split; [reflexivity|]).
    destruct (sync_single_call Examples.E_not_modified Examples.session_all
                Examples.profile eq_refl eq_refl) as [_ H].
    apply (H (SyncUser.auth_me Examples.E_not_modified (VString "api-token"))
             {| status := 304;
                json_body := Throw (TypeError "Unexpected end of JSON input") |});
      reflexivity.
  - do 3 (split; [reflexivity|]).
    destruct (sync_single_call Examples.E_refused_null Examples.session_id
                Examples.profile eq_refl eq_refl) as [_ H].
    apply (H (SyncUser.auth_me Examples.E_refused_null (VString "id-token"))
             {| status := 403; json_body := Ret VNull |});
      reflexivity.
Defined.

(** ** The success response *)

Module SyncUserSuccess.
Import SyncUser.
Section Success.
Context (E : Env).

Lemma access_token_tier_synced v w resp :
  fst (access_token_tier E v w) = Ret resp ->
  lookup_field "synced" (resp_body resp) = VBool true ->
  exists userData,
    accepted E (auth_me E v) (net w) userData /\
    resp = HttpResponse_of [("synced", VBool true); ("user", userData)] 200.
Proof.
  unfold access_token_tier, errorData_of, error_of, log_user, accepted.
  unfold bind at 1, fetch.
  destruct (network E (net w) (auth_me E v)) as [r|e]; [|discriminate].
  destruct (ok r) eqn:Hok; cbn [negb].
  - destruct (json_body r) as [userData|e] eqn:Hb;
      run_M; intros [= <-] Hsynced; try discriminate;
      eexists; (split; [eexists; eauto|reflexivity]).
  - run_M; intros [= <-] Hsynced; discriminate.
Qed.

Lemma id_token_tier_synced v w resp :
  fst (id_token_tier E v w) = Ret resp ->
  lookup_field "synced" (resp_body resp) = VBool true ->
  exists userData,
    accepted E (auth_me E v) (net w) userData /\
    resp = HttpResponse_of
             [("synced", VBool true); ("user", userData);
              ("method", VString "id_token")] 200.
Proof.
  unfold id_token_tier, errorData_of, error_of, log_user, accepted.
  unfold try_catch at 1, bind at 1, fetch.
  destruct (network E (net w) (auth_me E v)) as [r|e];
    [|simpl; intros [= <-]; discriminate].
  destruct (ok r) eqn:Hok.
  - destruct (json_body r) as [userData|e] eqn:Hb;
      run_M; intros [= <-] Hsynced; try discriminate;
      eexists; (split; [eexists; eauto|reflexivity]).
  - run_M; intros [= <-] Hsynced; discriminate.
Qed.

Lemma session_data_tier_synced u v w resp c :
  fst (claims E u v w) = Ret c ->
  fst (session_data_tier E u v w) = Ret resp ->
  lookup_field "synced" (resp_body resp) = VBool true ->
  exists userData,
    accepted E (auth_me E (VString (minimalToken_of c))) (net w) userData /\
    resp = HttpResponse_of
             [("synced", VBool true); ("user", userData);
              ("method", VString "session_data")] 200.
Proof.
  rewrite SyncUserFacts.claims_run. intros [= <-].
  unfold session_data_tier, bind at 1. rewrite SyncUserFacts.claims_run.
  unfold errorData_of, error_of, log_user, accepted.
  unfold try_catch at 1, bind at 1, fetch. cbn [net clock_reads].
  hide_token.
  match goal with
  | |- context [network E (net w) ?req] =>
      destruct (network E (net w) req) as [r|e];
        [|simpl; intros [= <-]; discriminate]
  end.
  destruct (ok r) eqn:Hok.
  - destruct (json_body r) as [userData|e] eqn:Hb;
      run_M; intros [= <-] Hsynced; try discriminate;
      eexists; (split; [eexists; eauto|reflexivity]).
  - run_M; intros [= <-] Hsynced; discriminate.
Qed.

End Success.
End SyncUserSuccess.

(** C4, as stated, fails: a sync that succeeds with the API credential
    answers without any method tag, and one that succeeds with the identity
    credential is tagged [id_token]. *)
Lemma sync_success_method_counterexample :
  (exists resp,
     SyncUser.response_of Examples.E_all = Ret resp /\
     lookup_field "synced" (resp_body resp) = VBool true /\
     lookup_field "method" (resp_body resp) = VUndefined /\
     ~ documented_success resp)
  /\
  (exists resp,
     SyncUser.response_of Examples.E_id = Ret resp /\
     lookup_field "synced" (resp_body resp) = VBool true /\
     lookup_field "method" (resp_body resp) = VString "id_token" /\
     ~ documented_success resp).
Proof.
  split; eexists; (split; [reflexivity|]); (split; [reflexivity|]);
    (split; [reflexivity|]); intros (_ & _ & Hin); simpl in Hin;
    intuition discriminate.
Qed.

(** C4 (amended). On every successful sync, GET /api/sync-user returns 200
    with the record the resource server returned under [user] and
    [synced: true]; the body carries no method tag when the API credential
    succeeded, the tag [id_token] when the identity credential succeeded,
    and the tag [session_data] when the synthesized credential succeeded. *)
Theorem sync_success_response (E : Env) (resp : HttpResponse) :
  SyncUser.response_of E = Ret resp ->
  lookup_field "synced" (resp_body resp) = VBool true ->
  exists session u userData,
    getSession E = Ret (Some session) /\
    user session = Some u /\
    let tier := Spec.CredentialSelector session u (synthesized E u) in
    (exists c, Spec.credential_of tier = Some c /\
               accepted E (SyncUser.auth_me E (VString c)) [] userData) /\
    resp = HttpResponse_of (success_body tier userData) 200.
Proof.
  unfold SyncUser.response_of, SyncUser.run. rewrite SyncUser_GET_eq.
  unfold try_catch at 1, bind at 1, lift.
  destruct (getSession E) as [[session|]|e] eqn:Hs;
    try (simpl; intros [= <-]; discriminate).
  destruct (user session) as [u|] eqn:Hu;
    try (simpl; intros [= <-]; discriminate).
  intros Hresp Hsynced. exists session, u.
  unfold Spec.CredentialSelector.
  destruct (SyncUserFacts.accessToken_of_held session) as [Ha Hat].
  destruct (SyncUserFacts.idToken_of_held session) as [Hi Hit].
  rewrite Hat in Hresp.
  destruct (Spec.first_held (Spec.api_locations session)) as [a|];
    cbn [negb] in Hresp.
  - rewrite Ha in Hresp.
    destruct (SyncUser.access_token_tier E (VString a) world0) as [[r0|e] w'] eqn:Ht;
      simpl in Hresp; injection Hresp as <-; [|discriminate].
    destruct (SyncUserSuccess.access_token_tier_synced E (VString a) world0 r0
                (f_equal fst Ht) Hsynced) as (userData & Hacc & ->).
    exists userData. repeat split; eauto.
  - rewrite Hit in Hresp.
    destruct (Spec.first_held (Spec.id_locations session)) as [i|].
    + rewrite Hi in Hresp.
      destruct (SyncUser.id_token_tier E (VString i) world0) as [[r0|e] w'] eqn:Ht;
        simpl in Hresp; injection Hresp as <-; [|discriminate].
      destruct (SyncUserSuccess.id_token_tier_synced E (VString i) world0 r0
                  (f_equal fst Ht) Hsynced) as (userData & Hacc & ->).
      exists userData. repeat split; eauto.
    + destruct (truthy (lookup_field "sub" u)) eqn:Hsub.
      * destruct (SyncUser.session_data_tier E u (lookup_field "sub" u) world0)
          as [[r0|e] w'] eqn:Ht;
          simpl in Hresp; injection Hresp as <-; [|discriminate].
        destruct (SyncUserSuccess.session_data_tier_synced E u
                    (lookup_field "sub" u) world0 r0 _
                    (f_equal fst (SyncUserFacts.claims_run E u _ world0))
                    (f_equal fst Ht) Hsynced) as (userData & Hacc & ->).
        exists userData. repeat split; eauto.
      * simpl in Hresp. injection Hresp as <-. discriminate.
Qed.

Lemma sync_success_response_witness :
  SyncUser.response_of Examples.E_id =
    Ret (HttpResponse_of
           [("synced", VBool true); ("user", Examples.userRecord);
            ("method", VString "id_token")] 200)
  /\ exists session u userData,
       getSession Examples.E_id = Ret (Some session) /\
       user session = Some u /\
       (exists c,
          Spec.credential_of
            (Spec.CredentialSelector session u (synthesized Examples.E_id u)) =
            Some c /\
          accepted Examples.E_id (SyncUser.auth_me Examples.E_id (VString c)) []
            userData) /\
       HttpResponse_of
         [("synced", VBool true); ("user", Examples.userRecord);
          ("method", VString "id_token")] 200 =
       HttpResponse_of
         (success_body
            (Spec.CredentialSelector session u (synthesized Examples.E_id u))
            userData) 200.
Proof.
  split; [reflexivity|].
  apply (sync_success_response Examples.E_id
           (HttpResponse_of
              [("synced", VBool true); ("user", Examples.userRecord);
               ("method", VString "id_token")] 200)); reflexivity.
Defined.

(** ** Transport errors *)

Section Transport.
Context (E : Env).

(** In the two fallback tiers a call that cannot reach the resource server
    is reported with the hint. *)
Lemma id_token_tier_unreachable v w e :
  network E (net w) (SyncUser.auth_me E v) = Throw e ->
  fst (SyncUser.id_token_tier E v w) =
    Ret (HttpResponse_of
           [("synced", VBool false);
            ("error", VString "Failed to connect to backend");
            ("detail", of_opt (err_message e));
            ("hint", VString (SyncUser.fallback_hint E))] 500).
Proof.
  intros Hn. unfold SyncUser.id_token_tier, try_catch, bind at 1, fetch.
  rewrite Hn. reflexivity.
Qed.

Lemma session_data_tier_unreachable u v w e c :
  fst (SyncUser.claims E u v w) = Ret c ->
  network E (net w) (SyncUser.auth_me E (VString (SyncUser.minimalToken_of c)))
    = Throw e ->
  fst (SyncUser.session_data_tier E u v w) =
    Ret (HttpResponse_of
           [("synced", VBool false);
            ("error", VString "Failed to connect to backend");
            ("detail", of_opt (err_message e));
            ("hint", VString (SyncUser.fallback_hint E))] 500).
Proof.
  rewrite SyncUserFacts.claims_run. intros [= <-] Hn.
  unfold SyncUser.session_data_tier, bind at 1.
  rewrite SyncUserFacts.claims_run.
  unfold try_catch, bind at 1, fetch. cbn [net clock_reads]. rewrite Hn.
  reflexivity.
Qed.

(** In the access-token tier the same failure reaches the handler of
    [GET], whose response has no hint. *)
Lemma access_token_tier_unreachable v w e :
  network E (net w) (SyncUser.auth_me E v) = Throw e ->
  fst (SyncUser.access_token_tier E v w) = Throw e.
Proof.
  intros Hn. unfold SyncUser.access_token_tier, bind at 1, fetch.
  rewrite Hn. reflexivity.
Qed.

(** The hint names the base URL the call went to, unless that base URL
    came from [BACKEND_URL]. *)
Lemma fallback_hint_base_url :
  truthy (getenv E "NEXT_PUBLIC_BACKEND_URL") = true \/
  truthy (getenv E "BACKEND_URL") = false ->
  SyncUser.fallback_hint E =
    "Make sure the backend is running on " +:+ to_str (SyncUser.backendUrl E).
Proof.
  unfold SyncUser.fallback_hint, SyncUser.backendUrl, js_or.
  intros [H|H].
  - rewrite H. simpl. rewrite H. reflexivity.
  - destruct (truthy (getenv E "NEXT_PUBLIC_BACKEND_URL")) eqn:Hp; simpl.
    + rewrite Hp. reflexivity.
    + rewrite H. reflexivity.
Qed.

End Transport.

(** C5 fails on the code.  When the resource server is unreachable while
    the API credential is presented, the failure response has no hint at
    all; and in the fallback tiers the hint names the default base URL when
    the resource server is configured through [BACKEND_URL]. *)
Theorem sync_transport_error_hint :
  (SyncUser.calls_of Examples.E_unreachable =
     [SyncUser.auth_me Examples.E_unreachable (VString "api-token")] /\
   SyncUser.response_of Examples.E_unreachable =
     Ret (HttpResponse_of
            [("synced", VBool false);
             ("error", VString "Failed to sync user");
             ("detail", VString "fetch failed")] 500) /\
   forall resp, SyncUser.response_of Examples.E_unreachable = Ret resp ->
                lookup_field "hint" (resp_body resp) = VUndefined)
  /\
  (map req_url (SyncUser.calls_of Examples.E_unreachable_id) =
     ["http://api.internal:9000/api/v1/auth/me"] /\
   forall resp, SyncUser.response_of Examples.E_unreachable_id = Ret resp ->
                lookup_field "hint" (resp_body resp) =
                  VString "Make sure the backend is running on http://localhost:8000").
Proof.
  split; [split; [|split]|split].
  - vm_compute. reflexivity.
  - vm_compute. reflexivity.
  - intros resp. vm_compute. intros [= <-]. reflexivity.
  - vm_compute. reflexivity.
  - intros resp. vm_compute. intros [= <-]. reflexivity.
Qed.

(** ** The credential endpoint *)

Lemma auth_token_accessToken_of_held session :
  AuthToken.accessToken_of session =
    match Spec.first_held (Spec.api_locations session) with
    | Some c => VString c
    | None => AuthToken.accessToken_of session
    end /\
  truthy (AuthToken.accessToken_of session) =
    match Spec.first_held (Spec.api_locations session) with
    | Some _ => true
    | None => false
    end.
Proof. exact (SyncUserFacts.accessToken_of_held session). Qed.

Lemma auth_token_response (E : Env) (session : Session) :
  getSession E = Ret (Some session) ->
  AuthToken.run E =
    (Ret (match Spec.first_held (Spec.api_locations session) with
          | Some c => HttpResponse_of [("accessToken", VString c)] 200
          | None => AuthToken.no_token_response E session
          end), world0).
Proof.
  intros Hs. unfold AuthToken.run. rewrite AuthToken_GET_eq.
  unfold try_catch, bind, lift. rewrite Hs.
  destruct (auth_token_accessToken_of_held session) as [Ha Hat].
  rewrite Hat.
  destruct (Spec.first_held (Spec.api_locations session)) as [c|].
  - rewrite Ha. reflexivity.
  - reflexivity.
Qed.

(** C7. For every request to GET /api/auth-token made with a session, the
    response has status 200 and a body of the shape
    [{accessToken: string|null, error?, hint?, debug?}]; when no location of
    the session holds an access credential the status is still 200, with
    [accessToken: null] and the fields [error], [hint] and [debug]. *)
Theorem auth_token_always_200 (E : Env) (session : Session) :
  getSession E = Ret (Some session) ->
  exists resp,
    AuthToken.response_of E = Ret resp /\
    resp_status resp = 200 /\
    auth_token_shape (resp_body resp) = true /\
    AuthToken.calls_of E = [] /\
    match Spec.first_held (Spec.api_locations session) with
    | Some c => resp_body resp = [("accessToken", VString c)]
    | None => resp = AuthToken.no_token_response E session
    end.
Proof.
  intros Hs.
  unfold AuthToken.response_of, AuthToken.calls_of.
  rewrite (auth_token_response E session Hs).
  eexists. split; [reflexivity|].
  destruct (Spec.first_held (Spec.api_locations session)) as [c|];
    repeat split.
Qed.

Lemma auth_token_always_200_witness :
  getSession Examples.E_id = Ret (Some Examples.session_id) /\
  exists resp,
    AuthToken.response_of Examples.E_id = Ret resp /\
    resp_status resp = 200 /\
    auth_token_shape (resp_body resp) = true /\
    AuthToken.calls_of Examples.E_id = [] /\
    match Spec.first_held (Spec.api_locations Examples.session_id) with
    | Some c => resp_body resp = [("accessToken", VString c)]
    | None => resp = AuthToken.no_token_response Examples.E_id Examples.session_id
    end.
Proof.
  split; [reflexivity|].
  apply (auth_token_always_200 Examples.E_id Examples.session_id eq_refl).
Defined.

(** C9. For every session none of whose three locations holds an API
    access credential, GET /api/auth-token answers [accessToken: null],
    whatever the identity-credential locations and the session user hold:
    the endpoint never answers with the identity credential or with a
    synthesized one. *)
Theorem auth_token_no_fallback (E : Env) (session : Session) :
  getSession E = Ret (Some session) ->
  Spec.first_held (Spec.api_locations session) = None ->
  exists resp,
    AuthToken.response_of E = Ret resp /\
    resp_status resp = 200 /\
    lookup_field "accessToken" (resp_body resp) = VNull.
Proof.
  intros Hs Hnone. unfold AuthToken.response_of.
  rewrite (auth_token_response E session Hs), Hnone.
  eexists. split; [reflexivity|]. split; reflexivity.
Qed.

Lemma auth_token_no_fallback_witness :
  getSession Examples.E_id = Ret (Some Examples.session_id) /\
  Spec.first_held (Spec.api_locations Examples.session_id) = None /\
  Spec.first_held (Spec.id_locations Examples.session_id) = Some "id-token" /\
  exists resp,
    AuthToken.response_of Examples.E_id = Ret resp /\
    resp_status resp = 200 /\
    lookup_field "accessToken" (resp_body resp) = VNull.
Proof.
  do 3 (split; [reflexivity|]).
  apply (auth_token_no_fallback Examples.E_id Examples.session_id eq_refl eq_refl).
Defined.

(** ** No credential at all *)

(** C10. For every authenticated session that holds no API access
    credential, no identity credential and no subject, GET /api/sync-user
    issues no network call and returns 200 with a body that has
    [synced: false], a [message] and the session user object as it is
    (and a [hint], but no [error]). *)
Theorem sync_no_credential_deferred (E : Env) (session : Session) (u : obj) :
  getSession E = Ret (Some session) ->
  user session = Some u ->
  Spec.first_held (Spec.api_locations session) = None ->
  Spec.first_held (Spec.id_locations session) = None ->
  truthy (lookup_field "sub" u) = false ->
  SyncUser.calls_of E = [] /\
  exists resp,
    SyncUser.response_of E = Ret resp /\
    resp_status resp = 200 /\
    map fst (resp_body resp) = ["synced"; "message"; "hint"; "user"] /\
    lookup_field "synced" (resp_body resp) = VBool false /\
    (exists m, lookup_field "message" (resp_body resp) = VString m) /\
    lookup_field "user" (resp_body resp) = VObject u.
Proof.
  intros Hs Hu Ha Hi Hsub. split.
  - rewrite (calls_selected E session u Hs Hu).
    unfold Spec.CredentialSelector. rewrite Ha, Hi, Hsub. reflexivity.
  - unfold SyncUser.response_of, SyncUser.run. rewrite SyncUser_GET_eq.
    unfold try_catch at 1. rewrite Hs, bind_lift_ret, Hu.
    destruct (SyncUserFacts.accessToken_of_held session) as [_ Hat].
    destruct (SyncUserFacts.idToken_of_held session) as [_ Hit].
    rewrite Hat, Ha. cbn [negb]. rewrite Hit, Hi, Hsub.
    eexists. split; [reflexivity|]. simpl. repeat split. eauto.
Qed.

Lemma sync_no_credential_deferred_witness :
  getSession Examples.E_bare = Ret (Some Examples.session_bare) /\
  user Examples.session_bare = Some [("email", VString "a@b.com")] /\
  Spec.first_held (Spec.api_locations Examples.session_bare) = None /\
  Spec.first_held (Spec.id_locations Examples.session_bare) = None /\
  truthy (lookup_field "sub" [("email", VString "a@b.com")]) = false /\
  SyncUser.calls_of Examples.E_bare = [] /\
  exists resp,
    SyncUser.response_of Examples.E_bare = Ret resp /\
    resp_status resp = 200 /\
    map fst (resp_body resp) = ["synced"; "message"; "hint"; "user"] /\
    lookup_field "synced" (resp_body resp) = VBool false /\
    (exists m, lookup_field "message" (resp_body resp) = VString m) /\
    lookup_field "user" (resp_body resp) = VObject [("email", VString "a@b.com")].
Proof.
  do 5 (split; [reflexivity|]).
  apply (sync_no_credential_deferred Examples.E_bare Examples.session_bare
           [("email", VString "a@b.com")]); reflexivity.
Defined.

(** ** Corrupted session cookies *)

Lemma receive_deleted jar r name :
  In name (Middleware.deleted_cookies r) ->
  Middleware.receive jar r !! name = None.
Proof.
  unfold Middleware.receive.
  induction (Middleware.deleted_cookies r) as [|d ds IH]; simpl; [tauto|].
  intros [->|Hin].
  - apply lookup_delete_eq.
  - destruct (decide (d = name)) as [->|Hne].
    + apply lookup_delete_eq.
    + rewrite lookup_delete_ne by exact Hne. auto.
Qed.

(** C8. For every request whose session cookie makes the identity library
    throw a JWEInvalid error: the middleware does not throw, lets the
    request through and tells the browser to delete the session cookies;
    the dashboard page treats the request as unauthenticated and redirects
    to the landing page, without any network call and without throwing. *)
Theorem jwe_invalid_is_unauthenticated (e : JsError) :
  err_name e = Some "JWEInvalid" ->
  (exists r,
     Middleware.middleware (Throw e) = Ret r /\
     Middleware.disposition r = Middleware.Next /\
     forall jar name, In name Middleware.session_cookies ->
                      Middleware.receive jar r !! name = None)
  /\
  (forall E, getSession E = Throw e ->
     Dashboard.DashboardPage E world0 = (Ret (Dashboard.Redirect "/"), world0)).
Proof.
  intros Hname. split.
  - unfold Middleware.middleware, Middleware.is_JWE_error. rewrite Hname.
    simpl. eexists. split; [reflexivity|]. split; [reflexivity|].
    intros jar name Hin. apply receive_deleted. exact Hin.
  - intros E Hs.
    unfold Dashboard.DashboardPage, Dashboard.read_user, Dashboard.is_JWE_error.
    unfold bind, try_catch, lift. rewrite Hs, Hname. reflexivity.
Qed.

Lemma jwe_invalid_is_unauthenticated_witness :
  err_name {| err_name := Some "JWEInvalid"; err_code := Some "ERR_JWE_INVALID";
              err_message := Some "Invalid Compact JWE" |} = Some "JWEInvalid" /\
  (exists r,
     Middleware.middleware
       (Throw {| err_name := Some "JWEInvalid"; err_code := Some "ERR_JWE_INVALID";
                 err_message := Some "Invalid Compact JWE" |}) = Ret r /\
     Middleware.disposition r = Middleware.Next /\
     forall jar name, In name Middleware.session_cookies ->
                      Middleware.receive jar r !! name = None).
Proof.
  split; [reflexivity|].
  apply (jwe_invalid_is_unauthenticated
           {| err_name := Some "JWEInvalid"; err_code := Some "ERR_JWE_INVALID";
              err_message := Some "Invalid Compact JWE" |} eq_refl).
Defined.

(** ** The client-side retry *)

Module UserSyncFacts.
Import UserSync.

Lemma mount_attempted_once : attempted_once mount.
Proof. left. split; reflexivity. Qed.

Lemma step_attempted_once c e : attempted_once c -> attempted_once (step c e).
Proof.
  intros Hinv. destruct e as [u isLoading|settled]; simpl.
  - unfold syncUser_start.
    destruct (isLoading || negb match u with Some _ => true | None => false end);
      [exact Hinv|].
    destruct Hinv as [[Ha Hc]|[Ha Hc]].
    + rewrite Ha. destruct (hasSyncedRef c); simpl; [left; auto|].
      right. simpl. rewrite Hc. split; reflexivity.
    + rewrite Ha, orb_true_r. right. auto.
  - unfold settle. destruct (in_flight c); [exact Hinv|].
    destruct Hinv as [[Ha Hc]|[Ha Hc]]; [left|right]; simpl; auto.
Qed.

Lemma reachable_attempted_once c : reachable c -> attempted_once c.
Proof.
  induction 1 as [|c e _ IH].
  - exact mount_attempted_once.
  - apply step_attempted_once, IH.
Qed.

Lemma fold_step_reachable es : forall c, reachable c -> reachable (fold_left step es c).
Proof.
  induction es as [|e es IH]; intros c Hc; simpl; [exact Hc|].
  apply IH. constructor. exact Hc.
Qed.

Lemma lifecycle_reachable es : reachable (lifecycle es).
Proof. apply fold_step_reachable. constructor. Qed.

(** A mounted instance never holds "synced" without "attempted". *)
Lemma reachable_synced_attempted c :
  reachable c ->
  (hasSyncedRef c = true -> hasAttemptedRef c = true) /\
  (in_flight c <> O -> hasAttemptedRef c = true).
Proof.
  induction 1 as [|c e _ [IH1 IH2]];
    [split; [discriminate|intros H; exfalso; apply H; reflexivity]|].
  destruct e as [u isLoading|settled]; simpl.
  - unfold syncUser_start.
    destruct (isLoading || negb match u with Some _ => true | None => false end);
      [auto|].
    destruct (hasSyncedRef c || hasAttemptedRef c); [auto|]. simpl. auto.
  - unfold settle. destruct (in_flight c) eqn:Hf; [auto|]. simpl.
    split; intros _; apply IH2; congruence.
Qed.

(** Once the call has been issued, nothing issues another. *)
Lemma calls_stable es : forall c,
  calls c = [sync_request] -> attempted_once c ->
  calls (fold_left step es c) = [sync_request].
Proof.
  induction es as [|e es IH]; intros c Hc Hinv; simpl; [exact Hc|].
  apply IH; [|apply step_attempted_once, Hinv].
  destruct (step_attempted_once c e Hinv) as [[Ha' Hc']|[_ Hc']]; [|exact Hc'].
  exfalso. destruct Hinv as [[_ H0]|[Ha _]]; [congruence|].
  destruct e as [u isLoading|settled]; simpl in Ha'.
  - unfold syncUser_start in Ha'.
    destruct (isLoading || negb match u with Some _ => true | None => false end);
      [congruence|].
    rewrite Ha, orb_true_r in Ha'. congruence.
  - unfold settle in Ha'. destruct (in_flight c); simpl in Ha'; congruence.
Qed.

End UserSyncFacts.

(** C6. In every page lifecycle of the component, whatever the sequence of
    effect runs and settled calls, at most one call to /api/sync-user is
    issued; and once the effect has run with an authenticated, non-loading
    user, the calls of the lifecycle are that one call, whatever follows:
    further effect runs, or the call settling with a failure, issue no
    second one. *)
Theorem user_sync_at_most_once :
  (forall es : list UserSync.event,
     (length (UserSync.calls (UserSync.lifecycle es)) <= 1)%nat)
  /\
  (forall (es1 : list UserSync.event) (u : obj) (es2 : list UserSync.event),
     UserSync.calls
       (UserSync.lifecycle (es1 ++ UserSync.RunEffect (Some u) false :: es2))
     = [UserSync.sync_request]).
Proof.
  split.
  - intros es.
    destruct (UserSyncFacts.reachable_attempted_once _
                (UserSyncFacts.lifecycle_reachable es)) as [[_ ->]|[_ ->]];
      simpl; lia.
  - intros es1 u es2. unfold UserSync.lifecycle.
    rewrite fold_left_app. simpl.
    pose proof (UserSyncFacts.lifecycle_reachable es1) as Hr.
    unfold UserSync.lifecycle in Hr.
    set (c := fold_left UserSync.step es1 UserSync.mount) in *.
    pose proof (UserSyncFacts.reachable_attempted_once c Hr) as Hinv.
    pose proof (UserSyncFacts.reachable_synced_attempted c Hr) as [Hsa _].
    apply UserSyncFacts.calls_stable;
      [|apply (UserSyncFacts.step_attempted_once c (UserSync.RunEffect (Some u) false)),
          Hinv].
    unfold UserSync.syncUser_start. simpl.
    destruct Hinv as [[Ha Hc]|[Ha Hc]].
    + rewrite Ha. destruct (UserSync.hasSyncedRef c) eqn:Hsy.
      * specialize (Hsa eq_refl). congruence.
      * simpl. rewrite Hc. reflexivity.
    + rewrite Ha, orb_true_r. exact Hc.
Qed.

(** ** The synthesized credential *)

Ltac div_lia := zify; Z.to_euclidean_division_equations; lia.

Lemma string_ind3 (P : string -> Prop) :
  P "" ->
  (forall a, P (String a "")) ->
  (forall a b, P (String a (String b ""))) ->
  (forall a b c s, P s -> P (String a (String b (String c s)))) ->
  forall s, P s.
Proof.
  intros H0 H1 H2 H3.
  assert (H : forall s, P s /\ (forall a, P (String a s)) /\
                        (forall a b, P (String a (String b s)))).
  { induction s as [|c s (IH0 & IH1 & IH2)].
    - repeat apply conj; auto.
    - repeat apply conj; auto. }
  intros s. apply H.
Qed.

Lemma b64_index_char (n : N) : (n < 64)%N -> b64_index (b64_char n) = Some n.
Proof.
  intros H.
  assert (Hall : forallb (fun k => match b64_index (b64_char (N.of_nat k)) with
                                   | Some m => (m =? N.of_nat k)%N
                                   | None => false
                                   end) (seq 0 64) = true)
    by (vm_compute; reflexivity).
  rewrite forallb_forall in Hall.
  specialize (Hall (N.to_nat n)). rewrite N2Nat.id in Hall.
  assert (Hin : In (N.to_nat n) (seq 0 64)) by (apply in_seq; lia).
  specialize (Hall Hin).
  destruct (b64_index (b64_char n)); [|discriminate].
  apply N.eqb_eq in Hall. congruence.
Qed.

Lemma sextets (x y z : N) :
  (x < 256 -> y < 256 -> z < 256 ->
   x / 4 < 64 /\ (x mod 4) * 16 + y / 16 < 64 /\ (y mod 16) * 4 + z / 64 < 64 /\
   z mod 64 < 64 /\ (x mod 4) * 16 < 64 /\ (y mod 16) * 4 < 64)%N.
Proof. intros. repeat apply conj; div_lia. Qed.

Lemma regroup (x y z : N) :
  (x < 256 -> y < 256 -> z < 256 ->
   (x / 4) * 4 + ((x mod 4) * 16 + y / 16) / 16 = x /\
   (((x mod 4) * 16 + y / 16) mod 16) * 16 + ((y mod 16) * 4 + z / 64) / 4 = y /\
   (((y mod 16) * 4 + z / 64) mod 4) * 64 + z mod 64 = z /\
   (x / 4) * 4 + ((x mod 4) * 16) / 16 = x /\
   (((x mod 4) * 16 + y / 16) mod 16) * 16 + ((y mod 16) * 4) / 4 = y)%N.
Proof. intros. repeat apply conj; div_lia. Qed.

(** Decoding undoes encoding. *)
Lemma base64url_decode_encode (s : string) :
  base64url_decode (base64url s) = Some s.
Proof.
  induction s as [|a|a b|a b c s IH] using string_ind3.
  - reflexivity.
  - pose proof (N_ascii_bounded a) as Ha.
    destruct (sextets _ _ _ Ha Ha Ha) as (S1 & _ & _ & _ & S5 & _).
    destruct (regroup _ _ _ Ha Ha Ha) as (_ & _ & _ & R4 & _).
    cbn [base64url base64url_decode].
    rewrite !b64_index_char by assumption.
    rewrite R4, ascii_N_embedding. reflexivity.
  - pose proof (N_ascii_bounded a) as Ha. pose proof (N_ascii_bounded b) as Hb.
    destruct (sextets _ _ _ Ha Hb Hb) as (S1 & S2 & _ & _ & _ & S6).
    destruct (regroup _ _ _ Ha Hb Hb) as (R1 & _ & _ & _ & R5).
    cbn [base64url base64url_decode].
    rewrite !b64_index_char by assumption.
    rewrite R1, R5, !ascii_N_embedding. reflexivity.
  - pose proof (N_ascii_bounded a) as Ha. pose proof (N_ascii_bounded b) as Hb.
    pose proof (N_ascii_bounded c) as Hc.
    destruct (sextets _ _ _ Ha Hb Hc) as (S1 & S2 & S3 & S4 & _ & _).
    destruct (regroup _ _ _ Ha Hb Hc) as (R1 & R2 & R3 & _ & _).
    cbn [base64url base64url_decode].
    rewrite !b64_index_char by assumption.
    fold base64url_decode. rewrite IH.
    rewrite R1, R2, R3, !ascii_N_embedding. reflexivity.
Qed.

Lemma get_beyond (s : string) : forall k,
  (String.length s <= k)%nat -> String.get k s = None.
Proof.
  induction s as [|c s IH]; intros k Hk; [destruct k; reflexivity|].
  destruct k; simpl in *; [lia|]. apply IH. lia.
Qed.

(** Every character [base64url] produces has a value in the alphabet. *)
Lemma b64_char_index (n : N) : b64_index (b64_char n) <> None.
Proof.
  destruct (N.lt_ge_cases n 64) as [H|H].
  - rewrite b64_index_char by exact H. discriminate.
  - unfold b64_char. rewrite get_beyond by (simpl; lia). discriminate.
Qed.

Lemma base64url_free_of (c : ascii) (s : string) :
  b64_index c = None -> free_of c (base64url s) = true.
Proof.
  intros Hc.
  assert (Hne : forall n, negb (Ascii.eqb (b64_char n) c) = true).
  { intros n. destruct (Ascii.eqb (b64_char n) c) eqn:Heq; [|reflexivity].
    apply Ascii.eqb_eq in Heq. exfalso. apply (b64_char_index n).
    rewrite Heq. exact Hc. }
  induction s as [|a|a b|a b d s IH] using string_ind3;
    cbn [base64url free_of]; rewrite ?Hne; auto.
Qed.

Lemma remove_char_free_of (c : ascii) (s : string) :
  free_of c s = true -> remove_char c s = s.
Proof.
  induction s as [|d s IH]; simpl; [reflexivity|].
  destruct (Ascii.eqb d c); simpl; [discriminate|].
  intros H. rewrite IH by exact H. reflexivity.
Qed.

Lemma split_on_free_of (c : ascii) (s : string) :
  free_of c s = true -> split_on c s = [s].
Proof.
  induction s as [|d s IH]; simpl; [reflexivity|].
  destruct (Ascii.eqb d c); simpl; [discriminate|].
  intros H. rewrite IH by exact H. reflexivity.
Qed.

Lemma split_on_app (c : ascii) (s rest : string) :
  free_of c s = true ->
  split_on c (s +:+ String c rest) = s :: split_on c rest.
Proof.
  induction s as [|d s IH]; simpl.
  - rewrite Ascii.eqb_refl. reflexivity.
  - destruct (Ascii.eqb d c); simpl; [discriminate|].
    intros H. rewrite IH by exact H. reflexivity.
Qed.

(** The payload segment of the token built for the claims [c]. *)
Lemma minimalToken_segments (c : value) :
  split_on "."%char (SyncUser.minimalToken_of c) =
    [SyncUser.header; base64url (JSON_stringify c); ""].
Proof.
  unfold SyncUser.minimalToken_of, SyncUser.header.
  rewrite !remove_char_free_of by (apply base64url_free_of; reflexivity).
  change ("." +:+ ?x) with (String "."%char x).
  rewrite split_on_app by (apply base64url_free_of; reflexivity).
  change (base64url (JSON_stringify c) +:+ ".")
    with (base64url (JSON_stringify c) +:+ String "."%char "").
  rewrite split_on_app by (apply base64url_free_of; reflexivity).
  reflexivity.
Qed.

(** C3 fails on the code.  The handler reads the clock once for [iat] and
    once more for [exp]: when a second boundary falls between the two
    readings (here 1999 ms and 2000 ms) the synthesized credential still
    has its three segments, the unsigned header and all six claims, but its
    payload decodes to [iat = 1] and [exp = 3602], which is not
    [iat + 3600]. *)
Theorem synthesized_expiry_drift :
  SyncUser.calls_of Examples.E_ticking =
    [SyncUser.auth_me Examples.E_ticking
       (VString (synthesized Examples.E_ticking Examples.profile))]
  /\ exists payload,
       split_on "."%char (synthesized Examples.E_ticking Examples.profile) =
         [SyncUser.header; payload; ""] /\
       base64url_decode SyncUser.header =
         Some (JSON_stringify
                 (VObject [("alg", VString "none"); ("typ", VString "JWT")])) /\
       base64url_decode payload =
         Some (JSON_stringify
                 (VObject [("sub", VString "idp|42");
                           ("email", VString "a@b.com");
                           ("name", VNull);
                           ("picture", VNull);
                           ("iat", VNumber 1);
                           ("exp", VNumber 3602)])) /\
       3602 <> 1 + 3600.
Proof.
  split; [vm_compute; reflexivity|].
  eexists. split; [vm_compute; reflexivity|].
  split; [vm_compute; reflexivity|].
  split; [vm_compute; reflexivity|]. lia.
Qed.

(* ===================================================================== *)
(** * Further properties of the handlers *)
(* ===================================================================== *)

(** ** The sync route on every input *)

Lemma sync_calls_shape (E : Env) :
  SyncUser.calls_of E = [] \/
  exists credential, SyncUser.calls_of E = [SyncUser.auth_me E credential].
Proof.
  remember (SyncUser.calls_of E) as l eqn:Hl.
  unfold SyncUser.calls_of, SyncUser.run in Hl. rewrite SyncUser_GET_eq in Hl.
  rewrite try_catch_ret_world in Hl. unfold bind at 1, lift in Hl.
  destruct (getSession E) as [[session|]|e]; [|left; exact Hl..].
  destruct (user session) as [u|]; [|left; exact Hl].
  cbv zeta in Hl.
  destruct (truthy (SyncUser.accessToken_of session)); cbn [negb] in Hl.
  - right. rewrite SyncUserFacts.access_token_tier_calls in Hl.
    eexists. exact Hl.
  - destruct (truthy (SyncUser.idToken_of session)).
    + right. rewrite SyncUserFacts.id_token_tier_calls in Hl.
      eexists. exact Hl.
    + destruct (truthy (lookup_field "sub" u)); [|left; exact Hl].
      right.
      destruct (SyncUserFacts.session_data_tier_calls E u
                  (lookup_field "sub" u) world0) as (c & _ & Hc).
      rewrite Hc in Hl. eexists. exact Hl.
Qed.

(** X1. GET /api/sync-user never throws: whatever the session read, the
    environment, the network and the clock do, it returns a response; it
    issues at most one network call, and that call is an uncached GET of
    [<base URL>/api/v1/auth/me] carrying a Bearer authorization header. *)
Theorem sync_total_single_call (E : Env) :
  (exists resp, SyncUser.response_of E = Ret resp)
  /\ (length (SyncUser.calls_of E) <= 1)%nat
  /\ (forall call, In call (SyncUser.calls_of E) ->
        req_url call = SyncUser.apiUrl E /\
        req_method call = "GET" /\
        req_cache call = "no-store" /\
        exists credential,
          authorization call = Some ("Bearer " +:+ credential)).
Proof.
  split; [|split].
  - unfold SyncUser.response_of, SyncUser.run. rewrite SyncUser_GET_eq.
    apply try_catch_ret_returns.
  - destruct (sync_calls_shape E) as [->|[c ->]]; simpl; lia.
  - intros call Hin.
    destruct (sync_calls_shape E) as [H|[c H]]; rewrite H in Hin;
      [destruct Hin|].
    destruct Hin as [<-|[]]. repeat apply conj; try reflexivity.
    eexists. reflexivity.
Qed.

(** X2. Without a session, or with a session that has no user, the sync
    route answers 401 [{error: "Not authenticated"}] and touches neither
    the network nor the clock. *)
Theorem sync_unauthenticated (E : Env) :
  getSession E = Ret None \/
  (exists session, getSession E = Ret (Some session) /\ user session = None) ->
  SyncUser.run E =
    (Ret {| resp_status := 401;
            resp_body := [("error", VString "Not authenticated")] |},
     world0).
Proof.
  unfold SyncUser.run. rewrite SyncUser_GET_eq. unfold try_catch, bind, lift.
  intros [H|(session & H & Hu)]; rewrite H; [reflexivity|].
  rewrite Hu. reflexivity.
Qed.

Lemma sync_unauthenticated_witness :
  (getSession (Examples.world
                 {| accessToken := Some "api-token"; access_token := None;
                    token := None; idToken := None; id_token := None;
                    user := None; session_keys := [] |}
                 ∅ Examples.accepting Examples.steady) = Ret None \/
   exists session,
     getSession (Examples.world
                   {| accessToken := Some "api-token"; access_token := None;
                      token := None; idToken := None; id_token := None;
                      user := None; session_keys := [] |}
                   ∅ Examples.accepting Examples.steady) = Ret (Some session) /\
     user session = None)
  /\ SyncUser.run (Examples.world
                     {| accessToken := Some "api-token"; access_token := None;
                        token := None; idToken := None; id_token := None;
                        user := None; session_keys := [] |}
                     ∅ Examples.accepting Examples.steady) =
       (Ret {| resp_status := 401;
               resp_body := [("error", VString "Not authenticated")] |},
        world0).
Proof.
  assert (H : getSession (Examples.world
                 {| accessToken := Some "api-token"; access_token := None;
                    token := None; idToken := None; id_token := None;
                    user := None; session_keys := [] |}
                 ∅ Examples.accepting Examples.steady) = Ret None \/
   exists session,
     getSession (Examples.world
                   {| accessToken := Some "api-token"; access_token := None;
                      token := None; idToken := None; id_token := None;
                      user := None; session_keys := [] |}
                   ∅ Examples.accepting Examples.steady) = Ret (Some session) /\
     user session = None).
  { right. eexists. split; reflexivity. }
  split; [exact H|].
  exact (sync_unauthenticated _ H).
Defined.

(** X3. When reading the session throws, the sync route answers 500 with
    [synced: false], the error "Failed to sync user" and the message of
    the exception as [detail]; it issues no network call. *)
Theorem sync_session_read_failure (E : Env) (e : JsError) :
  getSession E = Throw e ->
  SyncUser.run E =
    (Ret {| resp_status := 500;
            resp_body := [("synced", VBool false);
                          ("error", VString "Failed to sync user");
                          ("detail", of_opt (err_message e))] |},
     world0).
Proof.
  intros H. unfold SyncUser.run. rewrite SyncUser_GET_eq. unfold try_catch, bind, lift.
  rewrite H. reflexivity.
Qed.

Lemma sync_session_read_failure_witness :
  getSession Examples.E_corrupt = Throw Examples.jwe_error /\
  SyncUser.run Examples.E_corrupt =
    (Ret {| resp_status := 500;
            resp_body := [("synced", VBool false);
                          ("error", VString "Failed to sync user");
                          ("detail", VString "Invalid Compact JWE")] |},
     world0).
Proof.
  split; [reflexivity|].
  exact (sync_session_read_failure Examples.E_corrupt Examples.jwe_error eq_refl).
Defined.

(** ** The text of the synthesized credential *)

Lemma join_cons (sep x : string) (l : list string) :
  l <> [] -> join sep (x :: l) = x +:+ sep +:+ join sep l.
Proof. destruct l; [congruence|reflexivity]. Qed.

Lemma string_app_assoc (a b c : string) : (a +:+ b) +:+ c = a +:+ (b +:+ c).
Proof.
  induction a as [|x a IH]; [reflexivity|].
  change (String x ((a +:+ b) +:+ c) = String x (a +:+ (b +:+ c))).
  f_equal. exact IH.
Qed.

Lemma string_app_nil_r (a : string) : a +:+ "" = a.
Proof.
  induction a as [|x a IH]; [reflexivity|].
  change (String x (a +:+ "") = String x a). f_equal. exact IH.
Qed.

(** [JSON.stringify] of an object: braces around its printed members,
    separated by commas. *)
Lemma JSON_stringify_object (fields : list (string * value)) :
  JSON_stringify (VObject fields) =
    "{" +:+ join "," (printed_members fields) +:+ "}".
Proof.
  cbn [JSON_stringify]. f_equal. f_equal.
  assert (H : forall first,
    (fix members (first : bool) (l : list (string * value)) : string :=
       match l with
       | [] => ""
       | (k, x) :: l' =>
           match x with
           | VUndefined => members first l'
           | _ => (if first then "" else ",") +:+ json_quote k +:+ ":"
                    +:+ JSON_stringify x +:+ members false l'
           end
       end) first fields =
    match printed_members fields with
    | [] => ""
    | ms => (if first then "" else ",") +:+ join "," ms
    end).
  { induction fields as [|[k x] fields IH]; intros first; [reflexivity|].
    assert (Hcons : forall ms, printed_members fields = ms ->
      (if first then "" else ",") +:+ json_quote k +:+ ":" +:+ JSON_stringify x
        +:+ match ms with [] => "" | _ => "," +:+ join "," ms end =
      (if first then "" else ",") +:+ join "," (json_member (k, x) :: ms)).
    { intros ms _. f_equal. destruct ms as [|m ms].
      - cbn [join]. unfold json_member. cbn [fst snd].
        rewrite string_app_nil_r. reflexivity.
      - rewrite (join_cons "," (json_member (k, x)) (m :: ms)) by (intro; discriminate).
        unfold json_member. cbn [fst snd].
        rewrite !string_app_assoc. reflexivity. }
    destruct x; unfold printed_members in *; cbn [List.filter snd is_undefined negb map];
      try (rewrite IH; rewrite <- (Hcons _ eq_refl);
           destruct (map json_member _); reflexivity).
    apply IH. }
  rewrite H. destruct (printed_members fields); reflexivity.
Qed.

Lemma truthy_defined (v : value) : truthy v = true -> is_undefined v = false.
Proof. destruct v; simpl; auto. Qed.

Lemma js_or_cases (a b : value) : js_or a b = a \/ js_or a b = b.
Proof. unfold js_or. destruct (truthy a); auto. Qed.

Lemma js_or_defined (a b : value) :
  is_undefined b = false -> is_undefined (js_or a b) = false.
Proof.
  unfold js_or. intros Hb.
  destruct (truthy a) eqn:Ha; [apply truthy_defined, Ha|exact Hb].
Qed.

(** X4. For every session user object and every clock, the synthesized
    credential is [header.payload.] with exactly three dot-separated
    segments, the last one empty; the header decodes to the JSON text of
    [{alg: "none", typ: "JWT"}] and the payload decodes to the JSON text of
    the claims object, whose [iat] is the first clock reading in seconds and
    whose [exp] is the second clock reading in seconds plus 3600. *)
Theorem synthesized_token_structure (E : Env) (u : obj) :
  exists payload,
    synthesized E u = SyncUser.header +:+ "." +:+ payload +:+ "." /\
    split_on "."%char (synthesized E u) = [SyncUser.header; payload; ""] /\
    base64url_decode SyncUser.header =
      Some (JSON_stringify
              (VObject [("alg", VString "none"); ("typ", VString "JWT")])) /\
    base64url_decode payload =
      Some (JSON_stringify
              (VObject
                 [("sub", lookup_field "sub" u);
                  ("email", js_or (lookup_field "email" u) (VString ""));
                  ("name", js_or (js_or (lookup_field "name" u)
                                        (lookup_field "nickname" u)) VNull);
                  ("picture", js_or (lookup_field "picture" u) VNull);
                  ("iat", VNumber (Date_now E 0 / 1000));
                  ("exp", VNumber (Date_now E 1 / 1000 + 3600))])).
Proof.
  unfold synthesized. rewrite SyncUserFacts.claims_run. cbn [fst clock_reads world0].
  match goal with
  | |- context [SyncUser.minimalToken_of ?c] => set (claims := c)
  end.
  exists (base64url (JSON_stringify claims)).
  split; [|split; [|split]].
  - unfold SyncUser.minimalToken_of.
    rewrite remove_char_free_of by (apply base64url_free_of; reflexivity).
    reflexivity.
  - apply minimalToken_segments.
  - vm_compute. reflexivity.
  - apply base64url_decode_encode.
Qed.

(** X5. When the subject of the session user is truthy, the JSON text of
    the payload has all six members, in the order sub, email, name,
    picture, iat, exp: none of them is dropped as [undefined], whatever the
    user object lacks. *)
Theorem synthesized_payload_members (E : Env) (u : obj) (w : World) :
  truthy (lookup_field "sub" u) = true ->
  exists c sub email name picture iat exp,
    fst (SyncUser.claims E u (lookup_field "sub" u) w) = Ret c /\
    JSON_stringify c =
      "{" +:+ join ","
                [json_member ("sub", sub); json_member ("email", email);
                 json_member ("name", name); json_member ("picture", picture);
                 json_member ("iat", VNumber iat);
                 json_member ("exp", VNumber exp)] +:+ "}" /\
    sub = lookup_field "sub" u /\
    (email = lookup_field "email" u \/ email = VString "") /\
    (name = lookup_field "name" u \/ name = lookup_field "nickname" u \/
     name = VNull) /\
    (picture = lookup_field "picture" u \/ picture = VNull).
Proof.
  intros Hsub. rewrite SyncUserFacts.claims_run. cbn [fst].
  do 7 eexists. split; [reflexivity|]. split; [|split; [reflexivity|]].
  - rewrite JSON_stringify_object. unfold printed_members.
    cbn [List.filter snd].
    rewrite (truthy_defined _ Hsub).
    rewrite !js_or_defined by reflexivity.
    cbn [negb is_undefined map]. reflexivity.
  - repeat apply conj.
    + apply js_or_cases.
    + destruct (js_or_cases (js_or (lookup_field "name" u)
                                   (lookup_field "nickname" u)) VNull) as [H|H]; rewrite H;
        [|auto].
      destruct (js_or_cases (lookup_field "name" u) (lookup_field "nickname" u))
        as [H'|H']; rewrite H'; auto.
    + apply js_or_cases.
Qed.

Lemma synthesized_payload_members_witness :
  truthy (lookup_field "sub" Examples.profile) = true /\
  exists c sub email name picture iat exp,
    fst (SyncUser.claims Examples.E_profile Examples.profile
           (lookup_field "sub" Examples.profile) world0) = Ret c /\
    JSON_stringify c =
      "{" +:+ join ","
                [json_member ("sub", sub); json_member ("email", email);
                 json_member ("name", name); json_member ("picture", picture);
                 json_member ("iat", VNumber iat);
                 json_member ("exp", VNumber exp)] +:+ "}" /\
    sub = lookup_field "sub" Examples.profile /\
    (email = lookup_field "email" Examples.profile \/ email = VString "") /\
    (name = lookup_field "name" Examples.profile \/
     name = lookup_field "nickname" Examples.profile \/ name = VNull) /\
    (picture = lookup_field "picture" Examples.profile \/ picture = VNull).
Proof.
  split; [reflexivity|].
  exact (synthesized_payload_members Examples.E_profile Examples.profile world0
           eq_refl).
Defined.

(** X6. The expiry of the synthesized claims is one hour after their issue
    time whenever the two clock readings fall in the same second, and at
    least one hour after it whenever the clock does not run backwards
    between the two readings. *)
Theorem synthesized_expiry_same_second (E : Env) (u : obj) (v : value) (w : World) :
  exists fields iat exp,
    fst (SyncUser.claims E u v w) = Ret (VObject fields) /\
    lookup_field "iat" fields = VNumber iat /\
    lookup_field "exp" fields = VNumber exp /\
    (Date_now E (clock_reads w) / 1000 = Date_now E (S (clock_reads w)) / 1000 ->
     exp = iat + 3600) /\
    (Date_now E (clock_reads w) <= Date_now E (S (clock_reads w)) ->
     iat + 3600 <= exp).
Proof.
  rewrite SyncUserFacts.claims_run. cbn [fst].
  do 3 eexists. split; [reflexivity|]. split; [reflexivity|].
  split; [reflexivity|]. split.
  - intros ->. reflexivity.
  - intros H. apply Z.add_le_mono_r. apply Z.div_le_mono; lia.
Qed.

Lemma synthesized_expiry_same_second_witness :
  Date_now Examples.E_profile 0 / 1000 = Date_now Examples.E_profile 1 / 1000 /\
  exists fields iat exp,
    fst (SyncUser.claims Examples.E_profile Examples.profile
           (VString "idp|42") world0) = Ret (VObject fields) /\
    lookup_field "iat" fields = VNumber iat /\
    lookup_field "exp" fields = VNumber exp /\
    exp = iat + 3600.
Proof.
  split; [reflexivity|].
  destruct (synthesized_expiry_same_second Examples.E_profile Examples.profile
              (VString "idp|42") world0)
    as (fields & iat & exp & H1 & H2 & H3 & H4 & _).
  exists fields, iat, exp. repeat apply conj; try assumption.
  apply H4. reflexivity.
Defined.

(** ** The tiers, answer by answer *)

(** For an authenticated session the route is the block of the selected
    tier, inside the handler of [GET]. *)
Lemma GET_selected (E : Env) (session : Session) (u : obj) :
  getSession E = Ret (Some session) ->
  user session = Some u ->
  SyncUser.GET E world0 =
    try_catch
      (tier_of E u (Spec.CredentialSelector session u (synthesized E u)))
      (fun error => ret (sync_failure error)) world0.
Proof.
  intros Hs Hu. rewrite SyncUser_GET_eq. unfold Spec.CredentialSelector.
  unfold try_catch. rewrite Hs, bind_lift_ret, Hu.
  destruct (SyncUserFacts.accessToken_of_held session) as [Ha Hat].
  destruct (SyncUserFacts.idToken_of_held session) as [Hi Hit].
  rewrite Hat.
  destruct (Spec.first_held (Spec.api_locations session)) as [a|]; cbn [negb].
  - rewrite Ha. reflexivity.
  - rewrite Hit.
    destruct (Spec.first_held (Spec.id_locations session)) as [i|].
    + rewrite Hi. reflexivity.
    + destruct (truthy (lookup_field "sub" u)); reflexivity.
Qed.


Lemma selected_synthesized (session : Session) (u : obj) (synth c : string) :
  Spec.CredentialSelector session u synth = Spec.SynthesizedCredential c ->
  c = synth.
Proof.
  unfold Spec.CredentialSelector.
  destruct (Spec.first_held (Spec.api_locations session)); [discriminate|].
  destruct (Spec.first_held (Spec.id_locations session)); [discriminate|].
  destruct (truthy (lookup_field "sub" u)); [|discriminate].
  intros [= <-]. reflexivity.
Qed.

Lemma log_user_returns (userData : value) w :
  userData <> VNull -> userData <> VUndefined ->
  exists v, SyncUser.log_user userData w = (Ret v, w).
Proof.
  intros Hn Hu. unfold SyncUser.log_user.
  destruct userData; try congruence; run_M; eauto.
Qed.

Lemma log_user_null w :
  exists e, SyncUser.log_user VNull w = (Throw e, w).
Proof. unfold SyncUser.log_user. run_M. eauto. Qed.

Section TierAnswers.
Context (E : Env) (session : Session) (u : obj).

Let sel := Spec.CredentialSelector session u (synthesized E u).

(** The first step of the selected tier is the call that presents the
    selected credential; [k] is what the tier does with its answer. *)
Lemma tier_of_accepted c userData :
  Spec.credential_of sel = Some c ->
  accepted E (SyncUser.auth_me E (VString c)) [] userData ->
  userData <> VNull -> userData <> VUndefined ->
  fst (tier_of E u sel world0) =
    Ret (HttpResponse_of (success_body sel userData) 200).
Proof.
  intros Hc (r & Hn & Hok & Hb) Hnn Hnu.
  destruct sel as [a|i|s|] eqn:Hsel; cbn [Spec.credential_of] in Hc;
    try discriminate; injection Hc as ->; cbn [tier_of success_body].
  - unfold SyncUser.access_token_tier, bind at 1, fetch. cbn [net world0].
    rewrite Hn, Hok. cbn [negb]. unfold bind, response_json, lift.
    rewrite Hb.
    match goal with
    | |- context [SyncUser.log_user userData ?w] =>
        destruct (log_user_returns userData w Hnn Hnu) as [v Hv]
    end.
    rewrite Hv. reflexivity.
  - unfold SyncUser.id_token_tier, try_catch, bind at 1, fetch. cbn [net world0].
    rewrite Hn, Hok. unfold bind, response_json, lift. rewrite Hb.
    match goal with
    | |- context [SyncUser.log_user userData ?w] =>
        destruct (log_user_returns userData w Hnn Hnu) as [v Hv]
    end.
    rewrite Hv. reflexivity.
  - apply selected_synthesized in Hsel. subst c.
    unfold synthesized in Hn. rewrite SyncUserFacts.claims_run in Hn.
    cbn [fst] in Hn.
    unfold SyncUser.session_data_tier, bind at 1.
    rewrite SyncUserFacts.claims_run. hide_token.
    unfold try_catch, bind at 1, fetch. cbn [net world0 clock_reads].
    rewrite Hn, Hok. unfold bind, response_json, lift. rewrite Hb.
    match goal with
    | |- context [SyncUser.log_user userData ?w] =>
        destruct (log_user_returns userData w Hnn Hnu) as [v Hv]
    end.
    rewrite Hv. reflexivity.
Qed.

End TierAnswers.

(** X7. A 2xx answer whose body parses to a record (anything but [null])
    makes the sync succeed, whatever the tier: the response is 200 with the
    success body of that tier around the record. *)
Theorem sync_accepted_synced (E : Env) (session : Session) (u : obj)
    (c : string) (userData : value) :
  getSession E = Ret (Some session) ->
  user session = Some u ->
  Spec.credential_of (Spec.CredentialSelector session u (synthesized E u)) =
    Some c ->
  accepted E (SyncUser.auth_me E (VString c)) [] userData ->
  userData <> VNull -> userData <> VUndefined ->
  SyncUser.response_of E =
    Ret (HttpResponse_of
           (success_body (Spec.CredentialSelector session u (synthesized E u))
                         userData) 200).
Proof.
  intros Hs Hu Hc Hacc Hnn Hnu.
  unfold SyncUser.response_of, SyncUser.run.
  rewrite (GET_selected E session u Hs Hu). unfold try_catch.
  pose proof (tier_of_accepted E session u c userData Hc Hacc Hnn Hnu) as H.
  destruct (tier_of E u _ world0) as [[resp|e] w']; simpl in *; congruence.
Qed.

Lemma sync_accepted_synced_witness :
  getSession Examples.E_profile = Ret (Some Examples.session_profile) /\
  user Examples.session_profile = Some Examples.profile /\
  accepted Examples.E_profile
    (SyncUser.auth_me Examples.E_profile
       (VString (synthesized Examples.E_profile Examples.profile))) []
    Examples.userRecord /\
  SyncUser.response_of Examples.E_profile =
    Ret (HttpResponse_of
           [("synced", VBool true); ("user", Examples.userRecord);
            ("method", VString "session_data")] 200).
Proof.
  assert (Hacc : accepted Examples.E_profile
    (SyncUser.auth_me Examples.E_profile
       (VString (synthesized Examples.E_profile Examples.profile))) []
    Examples.userRecord).
  { eexists. repeat apply conj; reflexivity. }
  do 2 (split; [reflexivity|]). split; [exact Hacc|].
  apply (sync_accepted_synced Examples.E_profile Examples.session_profile
           Examples.profile
           (synthesized Examples.E_profile Examples.profile)
           Examples.userRecord eq_refl eq_refl eq_refl Hacc);
    discriminate.
Defined.

Section TierRefusals.
Context (E : Env) (session : Session) (u : obj).

Let sel := Spec.CredentialSelector session u (synthesized E u).

Lemma tier_of_unusable_record c r :
  Spec.credential_of sel = Some c ->
  network E [] (SyncUser.auth_me E (VString c)) = Ret r ->
  ok r = true ->
  (json_body r = Ret VNull \/ exists e, json_body r = Throw e) ->
  exists e, fst (tier_of E u sel world0) =
            match sel with
            | Spec.ApiCredential _ => Throw e
            | _ => Ret (connect_failure E e)
            end.
Proof.
  intros Hc Hn Hok Hb.
  destruct sel as [a|i|s|] eqn:Hsel; cbn [Spec.credential_of] in Hc;
    try discriminate; injection Hc as ->; cbn [tier_of].
  - unfold SyncUser.access_token_tier, bind at 1, fetch. cbn [net world0].
    rewrite Hn, Hok. cbn [negb]. unfold bind, response_json, lift.
    destruct Hb as [Hb|[e Hb]]; rewrite Hb.
    + match goal with
      | |- context [SyncUser.log_user VNull ?w] =>
          destruct (log_user_null w) as [e He]
      end.
      rewrite He. eauto.
    + eauto.
  - unfold SyncUser.id_token_tier, try_catch, bind at 1, fetch. cbn [net world0].
    rewrite Hn, Hok. unfold bind, response_json, lift.
    destruct Hb as [Hb|[e Hb]]; rewrite Hb.
    + match goal with
      | |- context [SyncUser.log_user VNull ?w] =>
          destruct (log_user_null w) as [e He]
      end.
      rewrite He. eauto.
    + eauto.
  - apply selected_synthesized in Hsel. subst c.
    unfold synthesized in Hn. rewrite SyncUserFacts.claims_run in Hn.
    cbn [fst] in Hn.
    unfold SyncUser.session_data_tier, bind at 1.
    rewrite SyncUserFacts.claims_run. hide_token.
    unfold try_catch, bind at 1, fetch. cbn [net world0 clock_reads].
    rewrite Hn, Hok. unfold bind, response_json, lift.
    destruct Hb as [Hb|[e Hb]]; rewrite Hb.
    + match goal with
      | |- context [SyncUser.log_user VNull ?w] =>
          destruct (log_user_null w) as [e He]
      end.
      rewrite He. eauto.
    + eauto.
Qed.

Lemma tier_of_unreachable c e :
  Spec.credential_of sel = Some c ->
  network E [] (SyncUser.auth_me E (VString c)) = Throw e ->
  fst (tier_of E u sel world0) =
    match sel with
    | Spec.ApiCredential _ => Throw e
    | _ => Ret (connect_failure E e)
    end.
Proof.
  intros Hc Hn.
  destruct sel as [a|i|s|] eqn:Hsel; cbn [Spec.credential_of] in Hc;
    try discriminate; injection Hc as ->; cbn [tier_of].
  - apply access_token_tier_unreachable. exact Hn.
  - apply id_token_tier_unreachable. exact Hn.
  - apply selected_synthesized in Hsel. subst c.
    unfold synthesized in Hn. rewrite SyncUserFacts.claims_run in Hn.
    cbn [fst] in Hn.
    eapply session_data_tier_unreachable;
      [rewrite SyncUserFacts.claims_run; reflexivity|exact Hn].
Qed.

Lemma tier_of_refused_fields c r fields :
  Spec.credential_of sel = Some c ->
  network E [] (SyncUser.auth_me E (VString c)) = Ret r ->
  ok r = false ->
  error_body r = VObject fields ->
  if NextResponse.accepts (status r) then
    exists resp,
      fst (tier_of E u sel world0) = Ret resp /\
      resp_status resp = status r /\
      lookup_field "synced" (resp_body resp) = VBool false /\
      lookup_field "error" (resp_body resp) =
        js_or (lookup_field "detail" fields)
              (VString ("HTTP " +:+ decimal (status r))) /\
      lookup_field "backendUrl" (resp_body resp) = VString (SyncUser.apiUrl E) /\
      lookup_field "method" (resp_body resp) =
        match sel with
        | Spec.IdentityCredential _ => VString "id_token_failed"
        | Spec.SynthesizedCredential _ => VString "session_data_failed"
        | _ => VUndefined
        end
  else
    fst (tier_of E u sel world0) =
      match sel with
      | Spec.ApiCredential _ => Throw (NextResponse.rejection (status r))
      | _ => Ret (connect_failure E (NextResponse.rejection (status r)))
      end.
Proof.
  intros Hc Hn Hok Hb.
  assert (Herr : forall w, SyncUser.errorData_of r w = (Ret (VObject fields), w)).
  { intros w. unfold SyncUser.errorData_of, try_catch, response_json, lift, ret.
    unfold error_body in Hb. destruct (json_body r); rewrite Hb; reflexivity. }
  destruct sel as [a|i|s|] eqn:Hsel; cbn [Spec.credential_of] in Hc;
    try discriminate; injection Hc as ->; cbn [tier_of];
    destruct (NextResponse.accepts (status r)) eqn:Hacc.
  - eexists. split; [|repeat apply conj].
    + unfold SyncUser.access_token_tier, bind at 1, fetch. cbn [net world0].
      rewrite Hn, Hok. cbn [negb]. unfold bind at 1. rewrite Herr.
      unfold SyncUser.error_of, bind, get_prop, ret, NextResponse.json.
      rewrite Hacc. reflexivity.
    + reflexivity.
    + reflexivity.
    + reflexivity.
    + reflexivity.
    + reflexivity.
  - unfold SyncUser.access_token_tier, bind at 1, fetch. cbn [net world0].
    rewrite Hn, Hok. cbn [negb]. unfold bind at 1. rewrite Herr.
    unfold SyncUser.error_of, bind, get_prop, ret, NextResponse.json.
    rewrite Hacc. reflexivity.
  - eexists. split; [|repeat apply conj].
    + unfold SyncUser.id_token_tier, try_catch at 1, bind at 1, fetch.
      cbn [net world0]. rewrite Hn, Hok. unfold bind at 1. rewrite Herr.
      unfold SyncUser.error_of, bind, get_prop, ret, NextResponse.json.
      rewrite Hacc. reflexivity.
    + reflexivity.
    + reflexivity.
    + reflexivity.
    + reflexivity.
    + reflexivity.
  - unfold SyncUser.id_token_tier, try_catch at 1, bind at 1, fetch.
    cbn [net world0]. rewrite Hn, Hok. unfold bind at 1. rewrite Herr.
    unfold SyncUser.error_of, bind, get_prop, ret, NextResponse.json.
    rewrite Hacc. accept_constants. reflexivity.
  - apply selected_synthesized in Hsel. subst c.
    unfold synthesized in Hn. rewrite SyncUserFacts.claims_run in Hn.
    cbn [fst] in Hn.
    unfold SyncUser.session_data_tier, bind at 1.
    rewrite SyncUserFacts.claims_run. hide_token.
    eexists. split; [|repeat apply conj].
    + unfold try_catch at 1, bind at 1, fetch. cbn [net world0 clock_reads].
      rewrite Hn, Hok. unfold bind at 1. rewrite Herr.
      unfold SyncUser.error_of, bind, get_prop, ret, NextResponse.json.
      rewrite Hacc. reflexivity.
    + reflexivity.
    + reflexivity.
    + reflexivity.
    + reflexivity.
    + reflexivity.
  - apply selected_synthesized in Hsel. subst c.
    unfold synthesized in Hn. rewrite SyncUserFacts.claims_run in Hn.
    cbn [fst] in Hn.
    unfold SyncUser.session_data_tier, bind at 1.
    rewrite SyncUserFacts.claims_run. hide_token.
    unfold try_catch at 1, bind at 1, fetch. cbn [net world0 clock_reads].
    rewrite Hn, Hok. unfold bind at 1. rewrite Herr.
    unfold SyncUser.error_of, bind, get_prop, ret, NextResponse.json.
    rewrite Hacc. accept_constants. reflexivity.
Qed.

End TierRefusals.

(** X8. A 2xx answer whose body is the JSON [null], or does not parse, is
    not a success: the route answers 500 with [synced: false], under the
    error "Failed to sync user" when the API credential was presented and
    under "Failed to connect to backend" (although the resource server
    answered) when a fallback credential was. *)
Theorem sync_unusable_record (E : Env) (session : Session) (u : obj)
    (c : string) (r : FetchResponse) :
  getSession E = Ret (Some session) ->
  user session = Some u ->
  Spec.credential_of (Spec.CredentialSelector session u (synthesized E u)) =
    Some c ->
  network E [] (SyncUser.auth_me E (VString c)) = Ret r ->
  ok r = true ->
  (json_body r = Ret VNull \/ exists e, json_body r = Throw e) ->
  exists resp,
    SyncUser.response_of E = Ret resp /\
    resp_status resp = 500 /\
    lookup_field "synced" (resp_body resp) = VBool false /\
    lookup_field "error" (resp_body resp) =
      match Spec.CredentialSelector session u (synthesized E u) with
      | Spec.ApiCredential _ => VString "Failed to sync user"
      | _ => VString "Failed to connect to backend"
      end.
Proof.
  intros Hs Hu Hc Hn Hok Hb.
  unfold SyncUser.response_of, SyncUser.run.
  rewrite (GET_selected E session u Hs Hu). unfold try_catch.
  destruct (tier_of_unusable_record E session u c r Hc Hn Hok Hb) as [e H].
  destruct (tier_of E u _ world0) as [[resp|e'] w']; simpl in H;
    destruct (Spec.CredentialSelector session u (synthesized E u));
    try discriminate; injection H as ->;
    eexists; (split; [reflexivity|]); repeat apply conj; reflexivity.
Qed.

Lemma sync_unusable_record_witness :
  getSession Examples.E_null = Ret (Some Examples.session_id) /\
  user Examples.session_id = Some Examples.profile /\
  network Examples.E_null []
    (SyncUser.auth_me Examples.E_null (VString "id-token")) =
    Ret {| status := 200; json_body := Ret VNull |} /\
  exists resp,
    SyncUser.response_of Examples.E_null = Ret resp /\
    resp_status resp = 500 /\
    lookup_field "synced" (resp_body resp) = VBool false /\
    lookup_field "error" (resp_body resp) =
      VString "Failed to connect to backend".
Proof.
  do 3 (split; [reflexivity|]).
  apply (sync_unusable_record Examples.E_null Examples.session_id
           Examples.profile "id-token"
           {| status := 200; json_body := Ret VNull |}
           eq_refl eq_refl eq_refl eq_refl eq_refl).
  left. reflexivity.
Defined.

(** X9. In the two fallback tiers a call that cannot reach the resource
    server is answered 500 with the error "Failed to connect to backend",
    the message of the failure as [detail], and the hint; the hint names
    the base URL the call went to whenever NEXT_PUBLIC_BACKEND_URL is set or
    BACKEND_URL is not. *)
Theorem sync_fallback_unreachable (E : Env) (session : Session) (u : obj)
    (c : string) (e : JsError) :
  getSession E = Ret (Some session) ->
  user session = Some u ->
  Spec.first_held (Spec.api_locations session) = None ->
  Spec.credential_of (Spec.CredentialSelector session u (synthesized E u)) =
    Some c ->
  network E [] (SyncUser.auth_me E (VString c)) = Throw e ->
  SyncUser.response_of E =
    Ret {| resp_status := 500;
           resp_body :=
             [("synced", VBool false);
              ("error", VString "Failed to connect to backend");
              ("detail", of_opt (err_message e));
              ("hint", VString (SyncUser.fallback_hint E))] |}
  /\ (truthy (getenv E "NEXT_PUBLIC_BACKEND_URL") = true \/
      truthy (getenv E "BACKEND_URL") = false ->
      SyncUser.fallback_hint E =
        "Make sure the backend is running on " +:+ to_str (SyncUser.backendUrl E)
      /\ SyncUser.apiUrl E = to_str (SyncUser.backendUrl E) +:+ "/api/v1/auth/me").
Proof.
  intros Hs Hu Ha Hc Hn. split.
  - unfold SyncUser.response_of, SyncUser.run.
    rewrite (GET_selected E session u Hs Hu). unfold try_catch.
    pose proof (tier_of_unreachable E session u c e Hc Hn) as H.
    unfold Spec.CredentialSelector in *. rewrite Ha in *.
    destruct (tier_of E u _ world0) as [[resp|e'] w']; simpl in H;
      destruct (Spec.first_held (Spec.id_locations session));
      try destruct (truthy (lookup_field "sub" u));
      try discriminate; injection H as ->; reflexivity.
  - intros H. split; [apply fallback_hint_base_url, H|reflexivity].
Qed.

Lemma sync_fallback_unreachable_witness :
  getSession Examples.E_unreachable_profile =
    Ret (Some Examples.session_profile) /\
  user Examples.session_profile = Some Examples.profile /\
  Spec.first_held (Spec.api_locations Examples.session_profile) = None /\
  network Examples.E_unreachable_profile []
    (SyncUser.auth_me Examples.E_unreachable_profile
       (VString (synthesized Examples.E_unreachable_profile Examples.profile)))
    = Throw (TypeError "fetch failed") /\
  truthy (getenv Examples.E_unreachable_profile "BACKEND_URL") = false /\
  SyncUser.response_of Examples.E_unreachable_profile =
    Ret {| resp_status := 500;
           resp_body :=
             [("synced", VBool false);
              ("error", VString "Failed to connect to backend");
              ("detail", VString "fetch failed");
              ("hint", VString (SyncUser.fallback_hint
                                  Examples.E_unreachable_profile))] |} /\
  SyncUser.fallback_hint Examples.E_unreachable_profile =
    "Make sure the backend is running on " +:+
    to_str (SyncUser.backendUrl Examples.E_unreachable_profile).
Proof.
  do 5 (split; [reflexivity|]).
  destruct (sync_fallback_unreachable Examples.E_unreachable_profile
              Examples.session_profile Examples.profile
              (synthesized Examples.E_unreachable_profile Examples.profile)
              (TypeError "fetch failed") eq_refl eq_refl eq_refl eq_refl eq_refl)
    as [H1 H2].
  split; [exact H1|]. apply H2. right. reflexivity.
Defined.

(** X10. A non-2xx answer whose error can be read ends the attempt with
    [synced: false].  When its status is one [NextResponse.json] accepts
    (300..599 except 304) it is passed on with that status: the error text
    is the [detail] of the answer when it has a truthy one, ["HTTP <status>"]
    when the body parses to an object without one, and "Unknown error" when
    the body does not parse; the method tag is absent in the API tier,
    [id_token_failed] in the identity tier and [session_data_failed] in the
    session-data tier.  For any other status (below 200, 304, above 599)
    building the response throws, and the route answers 500 instead, under
    "Failed to sync user" in the API tier and "Failed to connect to backend"
    in the fallback tiers. *)
Theorem sync_refusal_passed_on (E : Env) (session : Session) (u : obj)
    (c : string) (r : FetchResponse) (fields : obj) :
  getSession E = Ret (Some session) ->
  user session = Some u ->
  Spec.credential_of (Spec.CredentialSelector session u (synthesized E u)) =
    Some c ->
  network E [] (SyncUser.auth_me E (VString c)) = Ret r ->
  ok r = false ->
  error_body r = VObject fields ->
  exists resp,
    SyncUser.response_of E = Ret resp /\
    lookup_field "synced" (resp_body resp) = VBool false /\
    if NextResponse.accepts (status r) then
      resp_status resp = status r /\
      lookup_field "error" (resp_body resp) =
        js_or (lookup_field "detail" fields)
              (VString ("HTTP " +:+ decimal (status r))) /\
      truthy (lookup_field "error" (resp_body resp)) = true /\
      lookup_field "backendUrl" (resp_body resp) = VString (SyncUser.apiUrl E) /\
      lookup_field "method" (resp_body resp) =
        match Spec.CredentialSelector session u (synthesized E u) with
        | Spec.IdentityCredential _ => VString "id_token_failed"
        | Spec.SynthesizedCredential _ => VString "session_data_failed"
        | _ => VUndefined
        end
    else
      resp_status resp = 500 /\
      lookup_field "error" (resp_body resp) =
        match Spec.CredentialSelector session u (synthesized E u) with
        | Spec.ApiCredential _ => VString "Failed to sync user"
        | _ => VString "Failed to connect to backend"
        end.
Proof.
  intros Hs Hu Hc Hn Hok Hb.
  unfold SyncUser.response_of, SyncUser.run.
  rewrite (GET_selected E session u Hs Hu). unfold try_catch.
  pose proof (tier_of_refused_fields E session u c r fields Hc Hn Hok Hb) as H.
  destruct (NextResponse.accepts (status r)).
  - destruct H as (resp & Hr & Hst & Hsy & Her & Hurl & Hm).
    destruct (tier_of E u _ world0) as [[resp'|e'] w']; simpl in Hr;
      [|discriminate].
    injection Hr as ->. exists resp. split; [reflexivity|].
    repeat apply conj; try assumption.
    rewrite Her. unfold js_or.
    destruct (truthy (lookup_field "detail" fields)) eqn:Hd;
      [exact Hd|reflexivity].
  - destruct (tier_of E u _ world0) as [[resp'|e'] w']; simpl in H;
      destruct (Spec.CredentialSelector session u (synthesized E u));
      try discriminate; injection H as ->;
      eexists; (split; [reflexivity|]); repeat apply conj; reflexivity.
Qed.

Lemma sync_refusal_passed_on_witness :
  (getSession Examples.E_rejected_id = Ret (Some Examples.session_id) /\
   user Examples.session_id = Some Examples.profile /\
   network Examples.E_rejected_id []
     (SyncUser.auth_me Examples.E_rejected_id (VString "id-token")) =
     Ret {| status := 401;
            json_body := Ret (VObject [("detail", VString "Invalid token")]) |} /\
   NextResponse.accepts 401 = true /\
   exists resp,
     SyncUser.response_of Examples.E_rejected_id = Ret resp /\
     lookup_field "synced" (resp_body resp) = VBool false /\
     resp_status resp = 401 /\
     lookup_field "error" (resp_body resp) = VString "Invalid token" /\
     truthy (lookup_field "error" (resp_body resp)) = true /\
     lookup_field "backendUrl" (resp_body resp) =
       VString (SyncUser.apiUrl Examples.E_rejected_id) /\
     lookup_field "method" (resp_body resp) = VString "id_token_failed")
  /\
  (getSession Examples.E_not_modified = Ret (Some Examples.session_all) /\
   network Examples.E_not_modified []
     (SyncUser.auth_me Examples.E_not_modified (VString "api-token")) =
     Ret {| status := 304;
            json_body := Throw (TypeError "Unexpected end of JSON input") |} /\
   NextResponse.accepts 304 = false /\
   exists resp,
     SyncUser.response_of Examples.E_not_modified = Ret resp /\
     lookup_field "synced" (resp_body resp) = VBool false /\
     resp_status resp = 500 /\
     lookup_field "error" (resp_body resp) = VString "Failed to sync user")
  /\
  (getSession Examples.E_not_modified_id = Ret (Some Examples.session_id) /\
   exists resp,
     SyncUser.response_of Examples.E_not_modified_id = Ret resp /\
     lookup_field "synced" (resp_body resp) = VBool false /\
     resp_status resp = 500 /\
     lookup_field "error" (resp_body resp) =
       VString "Failed to connect to backend").
Proof.
  split; [|split].
  - do 4 (split; [reflexivity|]).
    apply (sync_refusal_passed_on Examples.E_rejected_id Examples.session_id
             Examples.profile "id-token"
             {| status := 401;
                json_body := Ret (VObject [("detail", VString "Invalid token")]) |}
             [("detail", VString "Invalid token")]); reflexivity.
  - do 3 (split; [reflexivity|]).
    apply (sync_refusal_passed_on Examples.E_not_modified Examples.session_all
             Examples.profile "api-token"
             {| status := 304;
                json_body := Throw (TypeError "Unexpected end of JSON input") |}
             [("detail", VString "Unknown error")]); reflexivity.
  - split; [reflexivity|].
    apply (sync_refusal_passed_on Examples.E_not_modified_id Examples.session_id
             Examples.profile "id-token"
             {| status := 304;
                json_body := Throw (TypeError "Unexpected end of JSON input") |}
             [("detail", VString "Unknown error")]); reflexivity.
Defined.

(** ** The credential endpoint on every input *)

(** X11. GET /api/auth-token never throws, issues no network call and
    reads no clock: it answers 401 without a session, 500 (with the message
    of the exception as [detail]) when reading the session throws, and 200
    for every session. *)
Theorem auth_token_total (E : Env) :
  exists resp,
    AuthToken.run E = (Ret resp, world0) /\
    match getSession E with
    | Throw e =>
        resp = {| resp_status := 500;
                  resp_body := [("error", VString "Failed to get access token");
                                ("detail", of_opt (err_message e))] |}
    | Ret None =>
        resp = {| resp_status := 401;
                  resp_body := [("error", VString "Not authenticated")] |}
    | Ret (Some _) => resp_status resp = 200
    end.
Proof.
  destruct (getSession E) as [[session|]|e] eqn:Hs.
  - rewrite (auth_token_response E session Hs). eexists. split; [reflexivity|].
    destruct (Spec.first_held (Spec.api_locations session)); reflexivity.
  - unfold AuthToken.run. rewrite AuthToken_GET_eq. unfold try_catch, bind, lift. rewrite Hs.
    eexists. split; reflexivity.
  - unfold AuthToken.run. rewrite AuthToken_GET_eq. unfold try_catch, bind, lift. rewrite Hs.
    eexists. split; reflexivity.
Qed.

(** X12. The two routes disagree on a session that has no user: the sync
    route rejects it as unauthenticated (401), while the credential
    endpoint answers 200, handing out the API credential when the session
    holds one and reporting [hasUser: false] in its debug data
    otherwise. *)
Theorem userless_session_routes (E : Env) (session : Session) :
  getSession E = Ret (Some session) ->
  user session = None ->
  (exists resp, SyncUser.response_of E = Ret resp /\ resp_status resp = 401)
  /\
  (exists resp,
     AuthToken.response_of E = Ret resp /\ resp_status resp = 200 /\
     match Spec.first_held (Spec.api_locations session) with
     | Some c => lookup_field "accessToken" (resp_body resp) = VString c
     | None =>
         exists debug,
           lookup_field "debug" (resp_body resp) = VObject debug /\
           lookup_field "hasUser" debug = VBool false
     end).
Proof.
  intros Hs Hu. split.
  - unfold SyncUser.response_of, SyncUser.run. rewrite SyncUser_GET_eq. unfold try_catch, bind, lift.
    rewrite Hs, Hu. eexists. split; reflexivity.
  - unfold AuthToken.response_of. rewrite (auth_token_response E session Hs).
    eexists. split; [reflexivity|].
    destruct (Spec.first_held (Spec.api_locations session)).
    + split; reflexivity.
    + split; [reflexivity|].
      unfold AuthToken.no_token_response, AuthToken.no_token_body. rewrite Hu.
      eexists. split; reflexivity.
Qed.

Lemma userless_session_routes_witness :
  getSession (Examples.world
                {| accessToken := Some "api-token"; access_token := None;
                   token := None; idToken := None; id_token := None;
                   user := None; session_keys := ["accessToken"] |}
                ∅ Examples.accepting Examples.steady) =
    Ret (Some {| accessToken := Some "api-token"; access_token := None;
                 token := None; idToken := None; id_token := None;
                 user := None; session_keys := ["accessToken"] |}) /\
  (exists resp,
     SyncUser.response_of
       (Examples.world
          {| accessToken := Some "api-token"; access_token := None;
             token := None; idToken := None; id_token := None;
             user := None; session_keys := ["accessToken"] |}
          ∅ Examples.accepting Examples.steady) = Ret resp /\
     resp_status resp = 401).
Proof.
  split; [reflexivity|].
  apply (userless_session_routes
           (Examples.world
              {| accessToken := Some "api-token"; access_token := None;
                 token := None; idToken := None; id_token := None;
                 user := None; session_keys := ["accessToken"] |}
              ∅ Examples.accepting Examples.steady) _ eq_refl eq_refl).
Defined.

(** ** The middleware on every input *)

Lemma prefix_spec (t s : string) :
  String.prefix t s = true <-> exists post, s = t +:+ post.
Proof.
  revert s. induction t as [|c t IH]; intros s.
  - split; [intros _; exists s; reflexivity|intros _; destruct s; reflexivity].
  - destruct s as [|d s]; simpl.
    + split; [discriminate|intros [post H]; discriminate].
    + destruct (ascii_dec c d) as [->|Hne].
      * rewrite IH. split; intros [post H]; exists post.
        -- change (String d s = String d (t +:+ post)). f_equal. exact H.
        -- change (String d s = String d (t +:+ post)) in H. congruence.
      * split; [discriminate|]. intros [post H].
        change (String d s = String c (t +:+ post)) in H. congruence.
Qed.

(** [includes] finds exactly the strings that contain the pattern. *)
Lemma includes_spec (s t : string) :
  includes s t = true <-> exists pre post, s = pre +:+ t +:+ post.
Proof.
  induction s as [|c s IH].
  - cbn [includes]. rewrite orb_false_r, prefix_spec. split.
    + intros [post H]. exists "", post. exact H.
    + intros ([|c pre] & post & H); [exists post; exact H|discriminate].
  - cbn [includes]. rewrite orb_true_iff, prefix_spec, IH. split.
    + intros [[post H]|(pre & post & H)].
      * exists "", post. exact H.
      * exists (String c pre), post.
        change (String c s = String c (pre +:+ t +:+ post)). f_equal. exact H.
    + intros ([|d pre] & post & H).
      * left. exists post. exact H.
      * right. exists pre, post.
        change (String c s = String d (pre +:+ t +:+ post)) in H. congruence.
Qed.

Lemma middleware_is_JWE_error_spec (e : JsError) :
  Middleware.is_JWE_error e = true <->
  (err_name e = Some "JWEInvalid" \/
   exists pre post, err_message e = Some (pre +:+ "JWE" +:+ post)).
Proof.
  unfold Middleware.is_JWE_error. rewrite orb_true_iff. split.
  - intros [H|H].
    + left. destruct (err_name e) as [n|]; [|discriminate].
      apply String.eqb_eq in H. congruence.
    + right. destruct (err_message e) as [m|]; [|discriminate].
      apply includes_spec in H. destruct H as (pre & post & H).
      exists pre, post. congruence.
  - intros [H|(pre & post & H)]; rewrite H.
    + left. reflexivity.
    + right. apply includes_spec. eauto.
Qed.

Lemma dashboard_is_JWE_error_spec (e : JsError) :
  Dashboard.is_JWE_error e = true <->
  (err_name e = Some "JWEInvalid" \/ err_code e = Some "ERR_JWE_INVALID").
Proof.
  unfold Dashboard.is_JWE_error. rewrite orb_true_iff. split.
  - intros [H|H].
    + left. destruct (err_name e) as [n|]; [|discriminate].
      apply String.eqb_eq in H. congruence.
    + right. destruct (err_code e) as [c|]; [|discriminate].
      apply String.eqb_eq in H. congruence.
  - intros [H|H]; rewrite H; [left|right]; reflexivity.
Qed.

(** X13. The middleware changes nothing unless the identity library threw
    a JWE error: a library response is returned as it is, any other error
    is thrown on unchanged, and only an error named JWEInvalid or whose
    message contains "JWE" is answered by letting the request through with
    the three session cookies deleted. *)
Theorem middleware_cases (o : outcome Middleware.Response) :
  match Middleware.middleware o with
  | Ret r =>
      o = Ret r \/
      exists e, o = Throw e /\ r = Middleware.cleared /\
                (err_name e = Some "JWEInvalid" \/
                 exists pre post, err_message e = Some (pre +:+ "JWE" +:+ post))
  | Throw e =>
      o = Throw e /\ err_name e <> Some "JWEInvalid" /\
      forall pre post, err_message e <> Some (pre +:+ "JWE" +:+ post)
  end.
Proof.
  destruct o as [r|e]; [left; reflexivity|].
  unfold Middleware.middleware.
  destruct (Middleware.is_JWE_error e) eqn:H.
  - right. exists e. apply middleware_is_JWE_error_spec in H. auto.
  - assert (Hn : ~ (err_name e = Some "JWEInvalid" \/
                    exists pre post,
                      err_message e = Some (pre +:+ "JWE" +:+ post))).
    { intros Hc. apply middleware_is_JWE_error_spec in Hc. congruence. }
    repeat split.
    + intros Hc. apply Hn. auto.
    + intros pre post Hc. apply Hn. eauto.
Qed.

(** ** The dashboard page on every input *)

(** X15. Without a session, or with a session that has no user, the
    dashboard page redirects to the landing page and issues no network
    call. *)
Theorem dashboard_unauthenticated (E : Env) :
  getSession E = Ret None \/
  (exists session, getSession E = Ret (Some session) /\ user session = None) ->
  Dashboard.DashboardPage E world0 = (Ret (Dashboard.Redirect "/"), world0).
Proof.
  unfold Dashboard.DashboardPage, Dashboard.read_user, bind, try_catch, lift.
  intros [H|(session & H & Hu)]; rewrite H; [reflexivity|].
  unfold ret. rewrite Hu. reflexivity.
Qed.

Lemma dashboard_unauthenticated_witness :
  (getSession
     {| getSession := Ret None; process_env := ∅;
        network := Examples.accepting; Date_now := Examples.steady |} = Ret None \/
   exists session,
     getSession
       {| getSession := Ret None; process_env := ∅;
          network := Examples.accepting; Date_now := Examples.steady |} =
       Ret (Some session) /\ user session = None)
  /\ Dashboard.DashboardPage
       {| getSession := Ret None; process_env := ∅;
          network := Examples.accepting; Date_now := Examples.steady |} world0 =
     (Ret (Dashboard.Redirect "/"), world0).
Proof.
  assert (H : getSession
     {| getSession := Ret None; process_env := ∅;
        network := Examples.accepting; Date_now := Examples.steady |} = Ret None \/
   exists session,
     getSession
       {| getSession := Ret None; process_env := ∅;
          network := Examples.accepting; Date_now := Examples.steady |} =
       Ret (Some session) /\ user session = None) by (left; reflexivity).
  split; [exact H|]. exact (dashboard_unauthenticated _ H).
Defined.

(** X16. For an authenticated user the dashboard page always renders: it
    issues exactly one uncached GET of [<APP_BASE_URL>/api/sync-user],
    without any header, and whatever that call does (reject, answer any
    status, answer a body that does not parse or is [null]) the page
    neither throws nor redirects. *)
Theorem dashboard_renders (E : Env) (session : Session) (u : obj) :
  getSession E = Ret (Some session) ->
  user session = Some u ->
  Dashboard.DashboardPage E world0 =
    (Ret Dashboard.Rendered,
     {| net := [{| req_url := Dashboard.sync_url E; req_method := "GET";
                   req_headers := []; req_cache := "no-store" |}];
        clock_reads := 0 |}).
Proof.
  intros Hs Hu.
  unfold Dashboard.DashboardPage, Dashboard.read_user.
  unfold bind at 1, try_catch at 1, bind at 1, lift. rewrite Hs. unfold ret at 1.
  rewrite Hu. unfold Dashboard.render_time_sync.
  unfold bind at 1, try_catch, bind at 1, fetch. cbn [net world0 clock_reads app].
  destruct (network E [] _) as [r|e]; [|reflexivity].
  destruct (ok r); [|reflexivity].
  unfold bind, response_json, lift.
  destruct (json_body r) as [v|e]; [|reflexivity].
  destruct v; reflexivity.
Qed.

Lemma dashboard_renders_witness :
  getSession Examples.E_unreachable = Ret (Some Examples.session_all) /\
  user Examples.session_all = Some Examples.profile /\
  Dashboard.DashboardPage Examples.E_unreachable world0 =
    (Ret Dashboard.Rendered,
     {| net := [{| req_url := "http://localhost:3000/api/sync-user";
                   req_method := "GET";
                   req_headers := []; req_cache := "no-store" |}];
        clock_reads := 0 |}).
Proof.
  do 2 (split; [reflexivity|]).
  exact (dashboard_renders Examples.E_unreachable Examples.session_all
           Examples.profile eq_refl eq_refl).
Defined.

(** X17. The dashboard page swallows a failed session read only when the
    error is named JWEInvalid or has the code ERR_JWE_INVALID; every other
    error is thrown on, before any network call.  The middleware also
    treats an error as a JWE error when its message merely contains "JWE":
    for such an error (with another name and code) the middleware clears
    the cookies and lets the request through, and the page then throws. *)
Theorem dashboard_rethrows (E : Env) (e : JsError) :
  getSession E = Throw e ->
  err_name e <> Some "JWEInvalid" ->
  err_code e <> Some "ERR_JWE_INVALID" ->
  Dashboard.DashboardPage E world0 = (Throw e, world0)
  /\ (forall pre post, err_message e = Some (pre +:+ "JWE" +:+ post) ->
      Middleware.middleware (Throw e) = Ret Middleware.cleared).
Proof.
  intros Hs Hn Hc. split.
  - unfold Dashboard.DashboardPage, Dashboard.read_user.
    unfold bind, try_catch, lift. rewrite Hs.
    destruct (Dashboard.is_JWE_error e) eqn:H; [|reflexivity].
    apply dashboard_is_JWE_error_spec in H. tauto.
  - intros pre post Hm. unfold Middleware.middleware.
    assert (H : Middleware.is_JWE_error e = true)
      by (apply middleware_is_JWE_error_spec; eauto).
    rewrite H. reflexivity.
Qed.

Lemma dashboard_rethrows_witness :
  getSession Examples.E_jwe_by_message = Throw Examples.jwe_by_message /\
  err_name Examples.jwe_by_message <> Some "JWEInvalid" /\
  err_code Examples.jwe_by_message <> Some "ERR_JWE_INVALID" /\
  err_message Examples.jwe_by_message =
    Some ("" +:+ "JWE" +:+ " Protected Header is invalid") /\
  Dashboard.DashboardPage Examples.E_jwe_by_message world0 =
    (Throw Examples.jwe_by_message, world0) /\
  Middleware.middleware (Throw Examples.jwe_by_message) = Ret Middleware.cleared.
Proof.
  assert (H1 : err_name Examples.jwe_by_message <> Some "JWEInvalid")
    by discriminate.
  assert (H2 : err_code Examples.jwe_by_message <> Some "ERR_JWE_INVALID")
    by discriminate.
  split; [reflexivity|]. split; [exact H1|]. split; [exact H2|].
  split; [reflexivity|].
  destruct (dashboard_rethrows Examples.E_jwe_by_message Examples.jwe_by_message
              eq_refl H1 H2) as [Hp Hm].
  split; [exact Hp|].
  apply (Hm "" " Protected Header is invalid"). reflexivity.
Defined.

(** ** The landing route *)

(** X18. The landing route renders the landing page on every request and
    never throws or calls the network: a failed session read is swallowed
    by its handler, and so is the redirect raised for an authenticated
    user, because [redirect] is called inside the same [try] block. *)
Theorem home_always_landing (E : Env) :
  Home.Home E world0 = (Ret Home.LandingPage, world0).
Proof.
  unfold Home.Home, bind, try_catch, lift, ret, throw.
  destruct (getSession E) as [[session|]|e]; [|reflexivity..].
  destruct (user session); reflexivity.
Qed.

(** ** The client-side retry, further *)

Module UserSyncMore.
Import UserSync.

(** What a settled call must look like for the component to record the
    user as synced. *)
Lemma resume_synced (settled : outcome FetchResponse) (w : World) :
  fst (syncUser_resume settled w) = Ret true <->
  exists r fields,
    settled = Ret r /\ ok r = true /\ json_body r = Ret (VObject fields) /\
    truthy (lookup_field "synced" fields) = true.
Proof.
  unfold syncUser_resume. split.
  - destruct settled as [r|e]; run_M; try discriminate.
    intros _. apply negb_false_iff in Heqb. eauto 6.
  - intros (r & fields & -> & Hok & Hb & Ht).
    unfold try_catch, bind, lift, response_json, get_prop, ret.
    rewrite Hok. cbn [negb]. rewrite Hb. cbn. rewrite Ht. reflexivity.
Qed.

Lemma resume_returns (settled : outcome FetchResponse) (w : World) :
  exists b, syncUser_resume settled w = (Ret b, w).
Proof. unfold syncUser_resume. run_M; eauto. Qed.

Lemma idle_step (c : Instance) (e : event) :
  idle_event e ->
  calls (step c e) = calls c /\
  hasAttemptedRef (step c e) = hasAttemptedRef c /\
  (in_flight c = O -> step c e = c).
Proof.
  destruct e as [user isLoading|settled]; simpl.
  - intros [->| ->]; unfold syncUser_start.
    + simpl. auto.
    + rewrite orb_true_r. auto.
  - intros _. unfold settle. destruct (in_flight c); simpl; auto.
    repeat split. discriminate.
Qed.

Lemma synced_step (c : Instance) (e : event) :
  hasSyncedRef (step c e) = true ->
  hasSyncedRef c = true \/
  exists r fields,
    e = Settle (Ret r) /\ ok r = true /\
    json_body r = Ret (VObject fields) /\
    truthy (lookup_field "synced" fields) = true.
Proof.
  destruct e as [user isLoading|settled]; simpl.
  - unfold syncUser_start.
    destruct (isLoading || _); [auto|].
    destruct (hasSyncedRef c || hasAttemptedRef c); simpl; auto.
  - unfold settle. destruct (in_flight c); [auto|]. simpl.
    destruct (hasSyncedRef c); [auto|]. simpl.
    destruct (fst (syncUser_resume settled world0)) as [[|]|] eqn:Hr;
      try discriminate.
    intros _. right. apply resume_synced in Hr.
    destruct Hr as (r & fields & -> & H). eauto.
Qed.

Lemma synced_fold (es : list event) : forall c,
  hasSyncedRef (fold_left step es c) = true ->
  hasSyncedRef c = true \/
  exists r fields,
    In (Settle (Ret r)) es /\ ok r = true /\
    json_body r = Ret (VObject fields) /\
    truthy (lookup_field "synced" fields) = true.
Proof.
  induction es as [|e es IH]; intros c H; simpl in *; [auto|].
  destruct (IH _ H) as [Hs|(r & fields & Hin & Hrest)].
  - destruct (synced_step c e Hs) as [Hc|(r & fields & -> & Hrest)]; [auto|].
    right. exists r, fields. auto.
  - right. exists r, fields. auto.
Qed.

End UserSyncMore.

(** X19. As long as every run of the effect sees a loading state or no
    user, the component issues no call and marks nothing as attempted,
    however often the effect runs. *)
Theorem user_sync_waits_for_user (es : list UserSync.event) :
  Forall UserSync.idle_event es ->
  UserSync.lifecycle es = UserSync.mount.
Proof.
  unfold UserSync.lifecycle.
  assert (H : forall c, UserSync.in_flight c = O ->
                Forall UserSync.idle_event es -> fold_left UserSync.step es c = c).
  { induction es as [|e es IH]; intros c Hc Hall; [reflexivity|].
    inversion Hall as [|? ? He Hes]; subst. simpl.
    destruct (UserSyncMore.idle_step c e He) as (_ & _ & Hstep).
    rewrite (Hstep Hc). apply IH; assumption. }
  apply H. reflexivity.
Qed.

Lemma user_sync_waits_for_user_witness :
  Forall UserSync.idle_event
    [UserSync.RunEffect None true; UserSync.RunEffect None false;
     UserSync.RunEffect (Some Examples.profile) true] /\
  UserSync.lifecycle
    [UserSync.RunEffect None true; UserSync.RunEffect None false;
     UserSync.RunEffect (Some Examples.profile) true] = UserSync.mount.
Proof.
  assert (H : Forall UserSync.idle_event
    [UserSync.RunEffect None true; UserSync.RunEffect None false;
     UserSync.RunEffect (Some Examples.profile) true]).
  { repeat (constructor; [simpl; auto|]). constructor. }
  split; [exact H|]. exact (user_sync_waits_for_user _ H).
Defined.

(** X20. The component records the user as synced only after one of its
    calls settled with a 2xx response whose body is an object with a truthy
    [synced]; in particular a deferred answer (200 with [synced: false]), a
    non-2xx answer and a rejected call all leave it unsynced, and it has
    then issued exactly one call. *)
Theorem user_sync_synced_only_on_success (es : list UserSync.event) :
  UserSync.hasSyncedRef (UserSync.lifecycle es) = true ->
  UserSync.calls (UserSync.lifecycle es) = [UserSync.sync_request] /\
  exists r fields,
    In (UserSync.Settle (Ret r)) es /\ ok r = true /\
    json_body r = Ret (VObject fields) /\
    truthy (lookup_field "synced" fields) = true.
Proof.
  intros H. split.
  - pose proof (UserSyncFacts.lifecycle_reachable es) as Hr.
    destruct (UserSyncFacts.reachable_synced_attempted _ Hr) as [Hsa _].
    destruct (UserSyncFacts.reachable_attempted_once _ Hr) as [[Ha _]|[_ Hc]];
      [|exact Hc].
    rewrite (Hsa H) in Ha. discriminate.
  - destruct (UserSyncMore.synced_fold es UserSync.mount H) as [Hm|Hex];
      [discriminate|exact Hex].
Qed.

Lemma user_sync_synced_only_on_success_witness :
  UserSync.hasSyncedRef
    (UserSync.lifecycle
       [UserSync.RunEffect (Some Examples.profile) false;
        UserSync.Settle
          (Ret {| status := 200;
                  json_body := Ret (VObject [("synced", VBool true)]) |})]) = true
  /\ UserSync.calls
       (UserSync.lifecycle
          [UserSync.RunEffect (Some Examples.profile) false;
           UserSync.Settle
             (Ret {| status := 200;
                     json_body := Ret (VObject [("synced", VBool true)]) |})]) =
     [UserSync.sync_request].
Proof.
  split; [reflexivity|].
  apply (user_sync_synced_only_on_success
           [UserSync.RunEffect (Some Examples.profile) false;
            UserSync.Settle
              (Ret {| status := 200;
                      json_body := Ret (VObject [("synced", VBool true)]) |})]).
  reflexivity.
Defined.


(** ** The resume uploader *)

Module UploaderFacts.
Import ResumeUploader.

Lemma validateFile_valid (f : File) :
  valid (validateFile f) = true <->
  file_type f = PDF_MIME_TYPE /\ file_size f <= MAX_FILE_SIZE.
Proof.
  unfold validateFile.
  destruct (String.eqb_spec (file_type f) PDF_MIME_TYPE) as [Ht|Ht]; cbn [negb].
  - destruct (Z.gtb_spec (file_size f) MAX_FILE_SIZE); simpl; split;
      try discriminate; intuition lia.
  - simpl. split; [discriminate|tauto].
Qed.

(** What the [forEach] of a selection produces. *)
Lemma sort_files_spec (files : list (File * string)) :
  Forall well_staged (fst (sort_files files)) /\
  map file (fst (sort_files files)) =
    List.filter (fun f => valid (validateFile f)) (map fst files) /\
  (length (fst (sort_files files)) + length (snd (sort_files files)) =
   length files)%nat.
Proof.
  induction files as [|[f fresh] files (IH1 & IH2 & IH3)]; [repeat split; constructor|].
  cbn [sort_files map fst List.filter].
  destruct (sort_files files) as [newFiles errors]. cbn [fst snd] in *.
  destruct (valid (validateFile f)) eqn:Hv; cbn [fst snd map length].
  - apply validateFile_valid in Hv. repeat split.
    + constructor; [|exact IH1]. unfold well_staged. simpl. tauto.
    + f_equal. exact IH2.
    + lia.
  - repeat split; [exact IH1|exact IH2|lia].
Qed.

(** [filter] keeps a sublist, the greatest one its test holds on. *)
Lemma filter_sublist {A} (p : A -> bool) (l : list A) :
  sublist (List.filter p l) l.
Proof.
  induction l as [|x l IH]; simpl; [constructor|].
  destruct (p x); [apply sublist_skip|apply sublist_cons]; exact IH.
Qed.

Lemma sublist_filter {A} (p : A -> bool) (l' l : list A) :
  sublist l' l ->
  (forall x, In x l' -> p x = true) ->
  sublist l' (List.filter p l).
Proof.
  induction 1 as [|x l1 l2 Hsub IH|x l1 l2 Hsub IH]; intros Hall; simpl.
  - constructor.
  - rewrite (Hall x) by (left; reflexivity).
    apply sublist_skip, IH. intros y Hy. apply Hall. right. exact Hy.
  - destruct (p x); [apply sublist_cons|]; apply IH, Hall.
Qed.

Lemma sublist_same_length {A} (l' l : list A) :
  sublist l' l -> length l' = length l -> l' = l.
Proof.
  induction 1 as [|x l1 l2 Hsub IH|x l1 l2 Hsub IH]; simpl; intros Hlen.
  - reflexivity.
  - f_equal. apply IH. lia.
  - apply sublist_length in Hsub. lia.
Qed.

(** The entries a removal drops are those that carry the identifier. *)
Lemma filter_id_count (i : string) (l : list StagedFile) :
  (length (List.filter (fun f => negb (String.eqb (id f) i)) l) +
   count_occ string_dec (map id l) i = length l)%nat.
Proof.
  induction l as [|f l IH]; simpl; [reflexivity|].
  destruct (string_dec (id f) i) as [He|Hne].
  - rewrite (proj2 (String.eqb_eq _ _) He). simpl. lia.
  - rewrite (proj2 (String.eqb_neq _ _) Hne). simpl. lia.
Qed.

Lemma step_well_staged (s : State) (e : event) :
  Forall well_staged (stagedFiles s) ->
  Forall well_staged (stagedFiles (step s e)).
Proof.
  assert (Hsel : forall files s0,
            Forall well_staged (stagedFiles s0) ->
            Forall well_staged (stagedFiles (handleFileSelection files s0))).
  { intros [[|p files]|] s0 H0; try exact H0.
    unfold handleFileSelection.
    pose proof (sort_files_spec (p :: files)) as (Hw & _ & _).
    destruct (sort_files (p :: files)) as [newFiles errors]. cbn [fst] in Hw.
    cbn [stagedFiles]. destruct newFiles; [exact H0|].
    apply List.Forall_app. split; assumption. }
  intros H. destruct e as [files| | |files|i| |[message|]|]; simpl;
    try exact H; try (apply Hsel; exact H).
  - apply List.incl_Forall with (l1 := stagedFiles s); [|exact H].
    intros x Hx. apply List.filter_In in Hx. tauto.
  - unfold handleProcess. destruct (stagedFiles s) eqn:Hst; simpl;
      try rewrite Hst; exact H.
  - constructor.
Qed.

Lemma selection_keeps_rest (files : option (list (File * string))) (s : State) :
  mutated (handleFileSelection files s) = mutated s /\
  mutation (handleFileSelection files s) = mutation s /\
  isDragging (handleFileSelection files s) = isDragging s.
Proof.
  unfold handleFileSelection.
  destruct files as [[|p files]|]; try (repeat split; reflexivity).
  destruct (sort_files (p :: files)). repeat split; reflexivity.
Qed.

Lemma step_batches (s : State) (e : event) :
  Forall well_staged (stagedFiles s) ->
  Forall (fun batch => batch <> [] /\ Forall well_staged batch) (mutated s) ->
  Forall (fun batch => batch <> [] /\ Forall well_staged batch)
         (mutated (step s e)).
Proof.
  intros Hs Hm.
  destruct e as [files| | |files|i| |[message|]|]; cbn [step];
    try exact Hm.
  - rewrite (proj1 (selection_keeps_rest files s)). exact Hm.
  - unfold handleDrop. rewrite (proj1 (selection_keeps_rest files _)). exact Hm.
  - unfold handleProcess. destruct (stagedFiles s) eqn:Hst; [exact Hm|].
    cbn [mutated]. apply List.Forall_app. split; [exact Hm|].
    constructor; [|constructor]. split; [congruence|exact Hs].
Qed.

End UploaderFacts.

(** X21. A file is accepted for staging exactly when its type is
    [application/pdf] and its size is at most 5 MiB (5242880 bytes): a PDF
    of exactly 5 MiB is accepted although the error text reads "must be
    less than 5MB", and the type is checked first, so a file of another
    type is reported as "Only PDF files are allowed" whatever its size. *)
Theorem validateFile_spec (f : ResumeUploader.File) :
  (ResumeUploader.valid (ResumeUploader.validateFile f) = true <->
   ResumeUploader.file_type f = "application/pdf" /\
   ResumeUploader.file_size f <= 5242880)
  /\ (ResumeUploader.file_type f <> "application/pdf" ->
      ResumeUploader.validateFile f =
        {| ResumeUploader.valid := false;
           ResumeUploader.error := Some "Only PDF files are allowed" |})
  /\ (ResumeUploader.file_type f = "application/pdf" ->
      5242880 < ResumeUploader.file_size f ->
      ResumeUploader.validateFile f =
        {| ResumeUploader.valid := false;
           ResumeUploader.error := Some "File size must be less than 5MB" |}).
Proof.
  split; [exact (UploaderFacts.validateFile_valid f)|].
  unfold ResumeUploader.validateFile, ResumeUploader.PDF_MIME_TYPE,
    ResumeUploader.MAX_FILE_SIZE.
  split.
  - intros Ht. apply String.eqb_neq in Ht. rewrite Ht. reflexivity.
  - intros Ht Hs. apply String.eqb_eq in Ht. rewrite Ht. cbn [negb].
    destruct (Z.gtb_spec (ResumeUploader.file_size f) (5 * 1024 * 1024));
      [reflexivity|lia].
Qed.

Lemma validateFile_spec_witness :
  ResumeUploader.file_type
    {| ResumeUploader.file_name := "cv.pdf";
       ResumeUploader.file_type := "application/pdf";
       ResumeUploader.file_size := 5242880 |} = "application/pdf" /\
  ResumeUploader.file_size
    {| ResumeUploader.file_name := "cv.pdf";
       ResumeUploader.file_type := "application/pdf";
       ResumeUploader.file_size := 5242880 |} <= 5242880 /\
  ResumeUploader.valid
    (ResumeUploader.validateFile
       {| ResumeUploader.file_name := "cv.pdf";
          ResumeUploader.file_type := "application/pdf";
          ResumeUploader.file_size := 5242880 |}) = true.
Proof.
  split; [reflexivity|]. split; [simpl; lia|].
  apply (validateFile_spec
           {| ResumeUploader.file_name := "cv.pdf";
              ResumeUploader.file_type := "application/pdf";
              ResumeUploader.file_size := 5242880 |}).
  split; [reflexivity|simpl; lia].
Defined.

(** X22. Whatever the user does (select, drag, drop, remove, process,
    dismiss) and however the processing settles, every staged entry is a
    PDF of at most 5 MiB whose recorded name and size are those of its
    file, and every batch ever submitted for processing is non-empty and
    made of such entries. *)
Theorem uploader_invariant (es : list ResumeUploader.event) :
  Forall ResumeUploader.well_staged
         (ResumeUploader.stagedFiles (ResumeUploader.run es))
  /\ Forall (fun batch => batch <> [] /\
                          Forall ResumeUploader.well_staged batch)
            (ResumeUploader.mutated (ResumeUploader.run es)).
Proof.
  unfold ResumeUploader.run.
  assert (H : forall s,
    Forall ResumeUploader.well_staged (ResumeUploader.stagedFiles s) ->
    Forall (fun batch => batch <> [] /\ Forall ResumeUploader.well_staged batch)
           (ResumeUploader.mutated s) ->
    Forall ResumeUploader.well_staged
           (ResumeUploader.stagedFiles (fold_left ResumeUploader.step es s))
    /\ Forall (fun batch => batch <> [] /\
                            Forall ResumeUploader.well_staged batch)
              (ResumeUploader.mutated (fold_left ResumeUploader.step es s))).
  { induction es as [|e es IH]; intros s Hs Hm; simpl; [auto|].
    apply IH.
    - apply UploaderFacts.step_well_staged. exact Hs.
    - apply UploaderFacts.step_batches; assumption. }
  apply H; constructor.
Qed.

(** X23. A selection of files stages the acceptable ones after the entries
    already staged, in selection order, and drops nothing that was staged;
    each file is either staged or reported, and the error message is the
    report lines joined by ". " (none when every file was accepted).  An
    empty or missing selection changes nothing, a previous error message
    included. *)
Theorem selection_stages_valid_files (files : list (ResumeUploader.File * string))
    (s : ResumeUploader.State) :
  files <> [] ->
  let s' := ResumeUploader.handleFileSelection (Some files) s in
  exists newFiles errors,
    ResumeUploader.sort_files files = (newFiles, errors) /\
    ResumeUploader.stagedFiles s' = ResumeUploader.stagedFiles s ++ newFiles /\
    map ResumeUploader.file newFiles =
      List.filter (fun f => ResumeUploader.valid (ResumeUploader.validateFile f))
                  (map fst files) /\
    (length newFiles + length errors = length files)%nat /\
    ResumeUploader.errorMessage s' =
      match errors with
      | [] => None
      | _ => Some (join ". " errors)
      end /\
    ResumeUploader.handleFileSelection (Some []) s = s /\
    ResumeUploader.handleFileSelection None s = s.
Proof.
  intros Hne s'. subst s'.
  pose proof (UploaderFacts.sort_files_spec files) as (_ & Hmap & Hlen).
  destruct (ResumeUploader.sort_files files) as [newFiles errors] eqn:Hsort.
  cbn [fst snd] in *.
  exists newFiles, errors. split; [reflexivity|].
  unfold ResumeUploader.handleFileSelection.
  destruct files as [|p files]; [congruence|]. rewrite Hsort.
  cbn [ResumeUploader.stagedFiles ResumeUploader.errorMessage].
  repeat split; try assumption.
  destruct newFiles; [rewrite List.app_nil_r|]; reflexivity.
Qed.

Lemma selection_stages_valid_files_witness :
  [({| ResumeUploader.file_name := "cv.pdf";
       ResumeUploader.file_type := "application/pdf";
       ResumeUploader.file_size := 1000 |}, "1-0.1");
   ({| ResumeUploader.file_name := "photo.png";
       ResumeUploader.file_type := "image/png";
       ResumeUploader.file_size := 1000 |}, "1-0.2")] <> [] /\
  exists (newFiles : list ResumeUploader.StagedFile) (errors : list string),
    ResumeUploader.stagedFiles
      (ResumeUploader.handleFileSelection
         (Some [({| ResumeUploader.file_name := "cv.pdf";
                    ResumeUploader.file_type := "application/pdf";
                    ResumeUploader.file_size := 1000 |}, "1-0.1");
                ({| ResumeUploader.file_name := "photo.png";
                    ResumeUploader.file_type := "image/png";
                    ResumeUploader.file_size := 1000 |}, "1-0.2")])
         ResumeUploader.initial) =
      ResumeUploader.stagedFiles ResumeUploader.initial ++ newFiles /\
    (length newFiles + length errors = 2)%nat.
Proof.
  assert (Hne : [({| ResumeUploader.file_name := "cv.pdf";
       ResumeUploader.file_type := "application/pdf";
       ResumeUploader.file_size := 1000 |}, "1-0.1");
   ({| ResumeUploader.file_name := "photo.png";
       ResumeUploader.file_type := "image/png";
       ResumeUploader.file_size := 1000 |}, "1-0.2")] <> [])
    by discriminate.
  split; [exact Hne|].
  destruct (selection_stages_valid_files _ ResumeUploader.initial Hne)
    as (newFiles & errors & _ & H1 & _ & H2 & _).
  exists newFiles, errors. split; [exact H1|exact H2].
Defined.

(** X24. Removing by identifier keeps the staged entries with another
    identifier in the order they were staged in: what is kept is a sublist
    of the staging list, holds exactly its entries with another identifier,
    and is the greatest such sublist (every sublist of the staging list
    without that identifier is a sublist of it); the entries dropped are
    as many as carry the identifier.  The error message is cleared and the
    rest of the state is left alone.  An identifier that no staged entry
    has leaves the list as it is, and when the identifiers are pairwise
    distinct, removing a staged one shortens the list by exactly one. *)
Theorem removeFile_spec (i : string) (s : ResumeUploader.State) :
  sublist (ResumeUploader.stagedFiles (ResumeUploader.removeFile i s))
          (ResumeUploader.stagedFiles s)
  /\ (forall f, In f (ResumeUploader.stagedFiles (ResumeUploader.removeFile i s)) <->
                In f (ResumeUploader.stagedFiles s) /\ ResumeUploader.id f <> i)
  /\ (forall l,
        sublist l (ResumeUploader.stagedFiles s) ->
        (forall f, In f l -> ResumeUploader.id f <> i) ->
        sublist l (ResumeUploader.stagedFiles (ResumeUploader.removeFile i s)))
  /\ (length (ResumeUploader.stagedFiles (ResumeUploader.removeFile i s)) +
      count_occ string_dec
        (map ResumeUploader.id (ResumeUploader.stagedFiles s)) i =
      length (ResumeUploader.stagedFiles s))%nat
  /\ ResumeUploader.errorMessage (ResumeUploader.removeFile i s) = None
  /\ ResumeUploader.isDragging (ResumeUploader.removeFile i s) =
       ResumeUploader.isDragging s
  /\ ResumeUploader.mutation (ResumeUploader.removeFile i s) =
       ResumeUploader.mutation s
  /\ ResumeUploader.mutated (ResumeUploader.removeFile i s) =
       ResumeUploader.mutated s
  /\ (~ In i (map ResumeUploader.id (ResumeUploader.stagedFiles s)) ->
      ResumeUploader.stagedFiles (ResumeUploader.removeFile i s) =
      ResumeUploader.stagedFiles s)
  /\ (List.NoDup (map ResumeUploader.id (ResumeUploader.stagedFiles s)) ->
      In i (map ResumeUploader.id (ResumeUploader.stagedFiles s)) ->
      S (length (ResumeUploader.stagedFiles (ResumeUploader.removeFile i s))) =
      length (ResumeUploader.stagedFiles s)).
Proof.
  unfold ResumeUploader.removeFile. cbn [ResumeUploader.stagedFiles
    ResumeUploader.errorMessage ResumeUploader.isDragging
    ResumeUploader.mutation ResumeUploader.mutated].
  generalize (ResumeUploader.stagedFiles s) as l. intros l.
  repeat apply conj; try reflexivity.
  - apply UploaderFacts.filter_sublist.
  - intros f. rewrite List.filter_In, negb_true_iff, String.eqb_neq. tauto.
  - intros l' Hsub Hall. apply UploaderFacts.sublist_filter; [exact Hsub|].
    intros f Hin. apply negb_true_iff, String.eqb_neq, Hall, Hin.
  - apply UploaderFacts.filter_id_count.
  - intros Hnot. pose proof (UploaderFacts.filter_id_count i l) as Hc.
    rewrite (proj1 (count_occ_not_In string_dec _ i) Hnot), Nat.add_0_r in Hc.
    apply UploaderFacts.sublist_same_length;
      [apply UploaderFacts.filter_sublist|exact Hc].
  - intros Hnd Hin. pose proof (UploaderFacts.filter_id_count i l) as Hc.
    rewrite (proj1 (List.NoDup_count_occ' string_dec _) Hnd i Hin) in Hc. lia.
Qed.

Lemma removeFile_spec_witness :
  (List.NoDup (map ResumeUploader.id
                 (ResumeUploader.stagedFiles UploaderExamples.two_staged)) /\
   In "1-0.1" (map ResumeUploader.id
                 (ResumeUploader.stagedFiles UploaderExamples.two_staged)) /\
   S (length (ResumeUploader.stagedFiles
                (ResumeUploader.removeFile "1-0.1" UploaderExamples.two_staged))) =
     length (ResumeUploader.stagedFiles UploaderExamples.two_staged) /\
   sublist [UploaderExamples.staged_letter]
     (ResumeUploader.stagedFiles
        (ResumeUploader.removeFile "1-0.1" UploaderExamples.two_staged)) /\
   ~ In UploaderExamples.staged_cv
       (ResumeUploader.stagedFiles
          (ResumeUploader.removeFile "1-0.1" UploaderExamples.two_staged)))
  /\
  (~ In "9-0.9" (map ResumeUploader.id
                   (ResumeUploader.stagedFiles UploaderExamples.two_staged)) /\
   ResumeUploader.stagedFiles
     (ResumeUploader.removeFile "9-0.9" UploaderExamples.two_staged) =
   ResumeUploader.stagedFiles UploaderExamples.two_staged).
Proof.
  assert (Hnd : List.NoDup (map ResumeUploader.id
                  (ResumeUploader.stagedFiles UploaderExamples.two_staged))).
  { repeat constructor; simpl; intuition discriminate. }
  assert (Hin : In "1-0.1" (map ResumeUploader.id
                  (ResumeUploader.stagedFiles UploaderExamples.two_staged)))
    by (simpl; auto).
  assert (Hnot : ~ In "9-0.9" (map ResumeUploader.id
                   (ResumeUploader.stagedFiles UploaderExamples.two_staged)))
    by (simpl; intuition discriminate).
  split.
  - destruct (removeFile_spec "1-0.1" UploaderExamples.two_staged)
      as (_ & Hmem & Hmax & _ & _ & _ & _ & _ & _ & Hlen).
    split; [exact Hnd|]. split; [exact Hin|]. split; [exact (Hlen Hnd Hin)|].
    split.
    + apply Hmax.
      * apply sublist_cons, sublist_skip, sublist_nil.
      * intros f [<-|[]]. discriminate.
    + intros Hc. apply Hmem in Hc. destruct Hc as [_ Hc]. apply Hc. reflexivity.
  - split; [exact Hnot|].
    apply (removeFile_spec "9-0.9" UploaderExamples.two_staged). exact Hnot.
Defined.

(** X25. Processing does nothing while nothing is staged; otherwise it
    submits exactly the staged entries.  When the processing succeeds the
    staging list is emptied as a whole: entries staged after the
    submission are dropped with it although they were never submitted.
    When it fails the staged entries are all kept. *)
Theorem process_submits_staged (s : ResumeUploader.State)
    (later : option (list (ResumeUploader.File * string)))
    (message : option string) :
  (ResumeUploader.stagedFiles s = [] -> ResumeUploader.handleProcess s = s)
  /\ (ResumeUploader.stagedFiles s <> [] ->
      let submitted := ResumeUploader.handleProcess s in
      let more := ResumeUploader.handleFileSelection later submitted in
      ResumeUploader.mutated submitted =
        ResumeUploader.mutated s ++ [ResumeUploader.stagedFiles s] /\
      ResumeUploader.stagedFiles submitted = ResumeUploader.stagedFiles s /\
      ResumeUploader.stagedFiles (ResumeUploader.onSuccess more) = [] /\
      ResumeUploader.mutated (ResumeUploader.onSuccess more) =
        ResumeUploader.mutated s ++ [ResumeUploader.stagedFiles s] /\
      ResumeUploader.stagedFiles (ResumeUploader.onError message more) =
        ResumeUploader.stagedFiles more /\
      exists text,
        ResumeUploader.errorMessage (ResumeUploader.onError message more) =
          Some text /\ text <> "").
Proof.
  split.
  - intros H. unfold ResumeUploader.handleProcess. rewrite H. reflexivity.
  - intros Hne submitted more. subst submitted more.
    destruct (UploaderFacts.selection_keeps_rest later
                (ResumeUploader.handleProcess s)) as (Hm & _ & _).
    cbn [ResumeUploader.onSuccess ResumeUploader.onError
         ResumeUploader.stagedFiles ResumeUploader.mutated
         ResumeUploader.errorMessage].
    rewrite Hm. unfold ResumeUploader.handleProcess.
    destruct (ResumeUploader.stagedFiles s) eqn:Hst; [congruence|].
    cbn [ResumeUploader.stagedFiles ResumeUploader.mutated].
    repeat split.
    eexists. split; [reflexivity|].
    unfold js_or. destruct message as [[|c m]|]; simpl; discriminate.
Qed.

Lemma process_submits_staged_witness :
  (ResumeUploader.stagedFiles UploaderExamples.one_staged <> [] /\
   ResumeUploader.mutated
     (ResumeUploader.handleProcess UploaderExamples.one_staged) =
     [[UploaderExamples.staged_cv]] /\
   ResumeUploader.stagedFiles
     (ResumeUploader.handleProcess UploaderExamples.one_staged) =
     [UploaderExamples.staged_cv] /\
   ResumeUploader.stagedFiles
     (ResumeUploader.handleFileSelection
        (Some [(UploaderExamples.letter, "1-0.2")])
        (ResumeUploader.handleProcess UploaderExamples.one_staged)) =
     [UploaderExamples.staged_cv; UploaderExamples.staged_letter] /\
   ResumeUploader.stagedFiles
     (ResumeUploader.onSuccess
        (ResumeUploader.handleFileSelection
           (Some [(UploaderExamples.letter, "1-0.2")])
           (ResumeUploader.handleProcess UploaderExamples.one_staged))) = [] /\
   ResumeUploader.mutated
     (ResumeUploader.onSuccess
        (ResumeUploader.handleFileSelection
           (Some [(UploaderExamples.letter, "1-0.2")])
           (ResumeUploader.handleProcess UploaderExamples.one_staged))) =
     [[UploaderExamples.staged_cv]] /\
   ResumeUploader.stagedFiles
     (ResumeUploader.onError (Some "Network Error")
        (ResumeUploader.handleFileSelection
           (Some [(UploaderExamples.letter, "1-0.2")])
           (ResumeUploader.handleProcess UploaderExamples.one_staged))) =
     [UploaderExamples.staged_cv; UploaderExamples.staged_letter])
  /\
  (ResumeUploader.stagedFiles ResumeUploader.initial = [] /\
   ResumeUploader.handleProcess ResumeUploader.initial = ResumeUploader.initial).
Proof.
  split.
  - assert (Hne : ResumeUploader.stagedFiles UploaderExamples.one_staged <> [])
      by discriminate.
    destruct (process_submits_staged UploaderExamples.one_staged
                (Some [(UploaderExamples.letter, "1-0.2")])
                (Some "Network Error")) as [_ H].
    destruct (H Hne) as (H1 & H2 & H3 & H4 & H5 & _).
    split; [exact Hne|]. split; [exact H1|]. split; [exact H2|].
    split; [reflexivity|]. split; [exact H3|]. split; [exact H4|exact H5].
  - split; [reflexivity|].
    apply (process_submits_staged ResumeUploader.initial None None). reflexivity.
Defined.

(** ** Encoding of the segments *)

(** X26. The base64url text of the two token segments decodes back to the
    bytes it was made from, so distinct JSON texts give distinct segments;
    it contains neither a dot nor a padding character, so the
    [replace(/=/g, '')] applied to it changes nothing. *)
Theorem base64url_round_trip (s : string) :
  base64url_decode (base64url s) = Some s
  /\ free_of "."%char (base64url s) = true
  /\ remove_char "="%char (base64url s) = base64url s
  /\ (forall t, base64url t = base64url s -> t = s).
Proof.
  split; [apply base64url_decode_encode|].
  split; [apply base64url_free_of; reflexivity|].
  split; [apply remove_char_free_of, base64url_free_of; reflexivity|].
  intros t H.
  pose proof (base64url_decode_encode t) as Ht. rewrite H in Ht.
  rewrite base64url_decode_encode in Ht. congruence.
Qed.

(** ** The two routes together *)

(** X27. The two routes read the API credential from the same three
    session locations in the same order: for an authenticated session that
    holds one, the credential the credential endpoint hands out is the one
    the sync route presents to the resource server. *)
Theorem routes_agree_on_api_credential (E : Env) (session : Session) (u : obj)
    (a : string) :
  getSession E = Ret (Some session) ->
  user session = Some u ->
  Spec.first_held (Spec.api_locations session) = Some a ->
  AuthToken.response_of E =
    Ret {| resp_status := 200; resp_body := [("accessToken", VString a)] |}
  /\ map authorization (SyncUser.calls_of E) = [Some ("Bearer " +:+ a)]
  /\ a <> "".
Proof.
  intros Hs Hu Ha. split; [|split].
  - unfold AuthToken.response_of. rewrite (auth_token_response E session Hs), Ha.
    reflexivity.
  - rewrite (calls_selected E session u Hs Hu).
    unfold Spec.CredentialSelector. rewrite Ha. reflexivity.
  - apply (first_held_holds _ _ Ha).
Qed.

Lemma routes_agree_on_api_credential_witness :
  getSession Examples.E_all = Ret (Some Examples.session_all) /\
  user Examples.session_all = Some Examples.profile /\
  Spec.first_held (Spec.api_locations Examples.session_all) = Some "api-token" /\
  AuthToken.response_of Examples.E_all =
    Ret {| resp_status := 200;
           resp_body := [("accessToken", VString "api-token")] |} /\
  map authorization (SyncUser.calls_of Examples.E_all) =
    [Some "Bearer api-token"].
Proof.
  do 3 (split; [reflexivity|]).
  destruct (routes_agree_on_api_credential Examples.E_all Examples.session_all
              Examples.profile "api-token" eq_refl eq_refl eq_refl)
    as (H1 & H2 & _).
  split; [exact H1|exact H2].
Defined.

(** ** The diagnostics of a refused synthesized credential *)

(** X28. When the resource server refuses the synthesized credential with
    a status [NextResponse.json] accepts (300..599 except 304), the
    response has that status and carries diagnostics of the token that was
    sent: its length, its first 50 characters, and a count of its
    dot-separated parts, which is always 3.  For any other status building
    that response throws; the handler of the tier answers 500 under
    "Failed to connect to backend", and the diagnostics are lost. *)
Theorem session_data_refusal_debug (E : Env) (session : Session) (u : obj)
    (r : FetchResponse) (fields : obj) :
  getSession E = Ret (Some session) ->
  user session = Some u ->
  Spec.first_held (Spec.api_locations session) = None ->
  Spec.first_held (Spec.id_locations session) = None ->
  truthy (lookup_field "sub" u) = true ->
  network E [] (SyncUser.auth_me E (VString (synthesized E u))) = Ret r ->
  ok r = false ->
  error_body r = VObject fields ->
  exists resp,
    SyncUser.response_of E = Ret resp /\
    if NextResponse.accepts (status r) then
      resp_status resp = status r /\
      lookup_field "debug" (resp_body resp) =
        VObject
          [("tokenLength", VNumber (Z.of_nat (String.length (synthesized E u))));
           ("tokenParts", VNumber 3);
           ("firstChars", VString (String.substring 0 50 (synthesized E u)))]
    else
      resp_status resp = 500 /\
      lookup_field "error" (resp_body resp) =
        VString "Failed to connect to backend" /\
      lookup_field "detail" (resp_body resp) =
        of_opt (err_message (NextResponse.rejection (status r))) /\
      lookup_field "debug" (resp_body resp) = VUndefined.
Proof.
  intros Hs Hu Ha Hi Hsub Hn Hok Hb.
  unfold SyncUser.response_of, SyncUser.run.
  rewrite (GET_selected E session u Hs Hu). unfold try_catch.
  unfold Spec.CredentialSelector. rewrite Ha, Hi, Hsub. cbn [tier_of].
  assert (Herr : forall w, SyncUser.errorData_of r w = (Ret (VObject fields), w)).
  { intros w. unfold SyncUser.errorData_of, try_catch, response_json, lift, ret.
    unfold error_body in Hb. destruct (json_body r); rewrite Hb; reflexivity. }
  unfold synthesized in *. rewrite SyncUserFacts.claims_run in *.
  cbn [fst] in *.
  unfold SyncUser.session_data_tier, bind at 1.
  rewrite SyncUserFacts.claims_run.
  rewrite minimalToken_segments. cbn [length].
  hide_token.
  unfold try_catch at 1, bind at 1, fetch. cbn [net world0 clock_reads].
  rewrite Hn, Hok. unfold bind at 1. rewrite Herr.
  unfold SyncUser.error_of, bind, get_prop, ret, NextResponse.json.
  accept_constants.
  destruct (NextResponse.accepts (status r)).
  - eexists. split; [reflexivity|]. split; reflexivity.
  - eexists. split; [reflexivity|]. repeat apply conj; reflexivity.
Qed.

Lemma session_data_refusal_debug_witness :
  (getSession Examples.E_rejected_profile = Ret (Some Examples.session_profile) /\
   user Examples.session_profile = Some Examples.profile /\
   NextResponse.accepts 401 = true /\
   exists resp,
     SyncUser.response_of Examples.E_rejected_profile = Ret resp /\
     resp_status resp = 401 /\
     lookup_field "debug" (resp_body resp) =
       VObject
         [("tokenLength",
           VNumber (Z.of_nat (String.length
             (synthesized Examples.E_rejected_profile Examples.profile))));
          ("tokenParts", VNumber 3);
          ("firstChars",
           VString (String.substring 0 50
             (synthesized Examples.E_rejected_profile Examples.profile)))])
  /\
  (getSession Examples.E_not_modified_profile =
     Ret (Some Examples.session_profile) /\
   NextResponse.accepts 304 = false /\
   exists resp,
     SyncUser.response_of Examples.E_not_modified_profile = Ret resp /\
     resp_status resp = 500 /\
     lookup_field "error" (resp_body resp) =
       VString "Failed to connect to backend" /\
     lookup_field "detail" (resp_body resp) =
       VString "Response constructor: Invalid response status code 304" /\
     lookup_field "debug" (resp_body resp) = VUndefined).
Proof.
  split.
  - do 3 (split; [reflexivity|]).
    apply (session_data_refusal_debug Examples.E_rejected_profile
             Examples.session_profile Examples.profile
             {| status := 401;
                json_body := Ret (VObject [("detail", VString "Invalid token")]) |}
             [("detail", VString "Invalid token")]); reflexivity.
  - do 2 (split; [reflexivity|]).
    apply (session_data_refusal_debug Examples.E_not_modified_profile
             Examples.session_profile Examples.profile
             {| status := 304;
                json_body := Throw (TypeError "Unexpected end of JSON input") |}
             [("detail", VString "Unknown error")]); reflexivity.
Defined.
